(** * StaticGen: a shallow embedding of the static site generator

    The development follows the Python sources module by module:
    [url_helpers.py], [front_matter_parser.py], [data_collections_loader.py]
    and [build_core.py].  Python values, strings and the operating-system
    calls the program relies on are modelled first. *)

From Stdlib Require Import String Ascii List ZArith Bool Arith Lia.
From Stdlib Require Import Sorting.Sorted Sorting.Permutation.
From Stdlib Require Floats.SpecFloat.
Import ListNotations.

Set Warnings "-register-all".

Open Scope list_scope.
Open Scope string_scope.

(** ** Python strings

    A text is a sequence of characters with code points below 256. *)

Module Str.

(** [s.startswith(p)] *)
Fixpoint startswith (p s : string) : bool :=
  match p, s with
  | EmptyString, _ => true
  | String a p', String b s' => Ascii.eqb a b && startswith p' s'
  | String _ _, EmptyString => false
  end.

(** The text that follows the prefix [p], when [s] starts with [p]. *)
Fixpoint after_prefix (p s : string) : option string :=
  match p, s with
  | EmptyString, _ => Some s
  | String a p', String b s' =>
      if Ascii.eqb a b then after_prefix p' s' else None
  | String _ _, EmptyString => None
  end.

(** [s.partition(sep)] at the leftmost occurrence of [sep], or [None]
    when [sep] does not occur. *)
Fixpoint cut (sep s : string) : option (string * string) :=
  match after_prefix sep s with
  | Some rest => Some (EmptyString, rest)
  | None =>
      match s with
      | EmptyString => None
      | String c s' =>
          match cut sep s' with
          | Some (l, r) => Some (String c l, r)
          | None => None
          end
      end
  end.

(** [s.split(sep, maxsplit)] for a non-empty separator. *)
Fixpoint split_max (sep : string) (maxsplit : nat) (s : string) : list string :=
  match maxsplit with
  | O => [s]
  | S n =>
      match cut sep s with
      | Some (l, r) => l :: split_max sep n r
      | None => [s]
      end
  end.

(** [s.split(sep)]: every split removes at least one character, so
    [length s] splits are enough. *)
Definition split (sep s : string) : list string :=
  split_max sep (String.length s) s.

(** [s.lstrip(chars)] with [chars] given as a predicate. *)
Fixpoint lstrip_by (f : ascii -> bool) (s : string) : string :=
  match s with
  | EmptyString => EmptyString
  | String c s' => if f c then lstrip_by f s' else s
  end.

(** [s.rstrip(chars)] *)
Fixpoint rstrip_by (f : ascii -> bool) (s : string) : string :=
  match s with
  | EmptyString => EmptyString
  | String c s' =>
      match rstrip_by f s' with
      | EmptyString => if f c then EmptyString else String c EmptyString
      | r => String c r
      end
  end.

(** [s.lstrip('/')] *)
Definition lstrip_slash : string -> string :=
  lstrip_by (fun c => Ascii.eqb c "/").

(** [str.isspace] on one character: the ASCII white space of CPython
    (TAB to CR, FS to US, space) and the two Latin-1 spaces NEL and
    NBSP. *)
Definition isspace (c : ascii) : bool :=
  let n := nat_of_ascii c in
  ((9 <=? n)%nat && (n <=? 13)%nat) || ((28 <=? n)%nat && (n <=? 32)%nat)
  || (n =? 133)%nat || (n =? 160)%nat.

(** [s.strip()] *)
Definition strip (s : string) : string :=
  rstrip_by isspace (lstrip_by isspace s).

(** [s.endswith(p)]: some suffix of [s] is [p]. *)
Fixpoint endswith (p s : string) : bool :=
  String.eqb p s
  || match s with
     | EmptyString => false
     | String _ s' => endswith p s'
     end.

(** [s[:n]] *)
Fixpoint take (n : nat) (s : string) : string :=
  match n, s with
  | S n', String c s' => String c (take n' s')
  | _, _ => EmptyString
  end.

(** The split of [s] at the last occurrence of the character [c0]; the
    second part starts with that occurrence. *)
Fixpoint rcut (c0 : ascii) (s : string) : option (string * string) :=
  match s with
  | EmptyString => None
  | String c s' =>
      match rcut c0 s' with
      | Some (l, r) => Some (String c l, r)
      | None => if Ascii.eqb c c0 then Some (EmptyString, s) else None
      end
  end.

(** [sep.join(parts)] *)
Fixpoint join (sep : string) (parts : list string) : string :=
  match parts with
  | [] => EmptyString
  | [x] => x
  | x :: rest => x ++ sep ++ join sep rest
  end.

(** [p in s] for texts: [p] occurs somewhere in [s]. *)
Definition contains (p s : string) : bool :=
  match cut p s with Some _ => true | None => false end.

(** [s.lower()]: the ASCII capitals and the Latin-1 capitals (192 to 222
    but the multiplication sign 215) move up by 32. *)
Definition lower_char (c : ascii) : ascii :=
  let n := nat_of_ascii c in
  if ((65 <=? n)%nat && (n <=? 90)%nat)
     || ((192 <=? n)%nat && (n <=? 222)%nat && negb (n =? 215)%nat)
  then ascii_of_nat (n + 32) else c.

Fixpoint lower (s : string) : string :=
  match s with
  | EmptyString => EmptyString
  | String c s' => String (lower_char c) (lower s')
  end.

End Str.

(** ** Python values

    [value] covers what [json.loads] returns, and the [datetime] objects the
    feed generator stores next to them.  A [dict] keeps its keys in
    insertion order, without duplicates. *)

Record datetime := { dt_year : Z; dt_month : Z; dt_day : Z }.

Inductive value :=
| VNone
| VBool (b : bool)
| VInt (z : Z)
| VFloat (f : SpecFloat.spec_float)
| VStr (s : string)
| VList (l : list value)
| VDict (d : list (string * value))
| VDate (t : datetime).

Definition dict := list (string * value).

(** [bool(v)] *)
Definition truthy (v : value) : bool :=
  match v with
  | VNone => false
  | VBool b => b
  | VInt z => negb (Z.eqb z 0)
  | VFloat f => match f with SpecFloat.S754_zero _ => false | _ => true end
  | VStr s => negb (String.eqb s "")
  | VList l => match l with [] => false | _ => true end
  | VDict d => match d with [] => false | _ => true end
  | VDate _ => true
  end.

(** [isinstance(v, dict)], [isinstance(v, str)], [isinstance(v, list)] *)
Definition is_dict (v : value) : bool :=
  match v with VDict _ => true | _ => false end.
Definition is_str (v : value) : bool :=
  match v with VStr _ => true | _ => false end.
Definition is_list (v : value) : bool :=
  match v with VList _ => true | _ => false end.

(** [d.get(k)] *)
Fixpoint dict_get (k : string) (d : dict) : option value :=
  match d with
  | [] => None
  | (k', v) :: d' => if String.eqb k k' then Some v else dict_get k d'
  end.

(** [k in d] *)
Definition dict_has (k : string) (d : dict) : bool :=
  match dict_get k d with Some _ => true | None => false end.

(** [d[k] = v]: an existing key keeps its place, a new one goes last. *)
Fixpoint dict_set (k : string) (v : value) (d : dict) : dict :=
  match d with
  | [] => [(k, v)]
  | (k', v') :: d' =>
      if String.eqb k k' then (k', v) :: d' else (k', v') :: dict_set k v d'
  end.

(** [d.update(e)] for a dict [e] *)
Definition dict_update (d e : dict) : dict :=
  fold_left (fun acc kv => dict_set (fst kv) (snd kv) acc) e d.

(** *** Numbers, equality

    A number is a boolean, an integer or a float; they compare by value,
    exactly: [m * 2^e], an infinity, or the [nan] of the decoder. *)
Inductive number :=
| Finite (m e : Z)
| Infinite (negative : bool)
| NotANumber.

Definition number_of (v : value) : option number :=
  match v with
  | VBool b => Some (Finite (Z.b2z b) 0)
  | VInt z => Some (Finite z 0)
  | VFloat f =>
      Some match f with
           | SpecFloat.S754_zero _ => Finite 0 0
           | SpecFloat.S754_infinity s => Infinite s
           | SpecFloat.S754_nan => NotANumber
           | SpecFloat.S754_finite s m e =>
               Finite (if s then Z.neg m else Z.pos m) e
           end
  | _ => None
  end.

(** [a is b or a == b] on numbers.  Every [NaN] of a JSON text is the one
    object [nan] of the decoder, which is itself and equals nothing. *)
Definition number_eqb (a b : number) : bool :=
  match a, b with
  | Finite m1 e1, Finite m2 e2 =>
      let e := Z.min e1 e2 in
      (m1 * 2 ^ (e1 - e) =? m2 * 2 ^ (e2 - e))%Z
  | Infinite s1, Infinite s2 => Bool.eqb s1 s2
  | NotANumber, NotANumber => true
  | _, _ => false
  end.

(** [a < b] on numbers; false when one of them is [nan]. *)
Definition number_ltb (a b : number) : bool :=
  match a, b with
  | Finite m1 e1, Finite m2 e2 =>
      let e := Z.min e1 e2 in
      (m1 * 2 ^ (e1 - e) <? m2 * 2 ^ (e2 - e))%Z
  | Infinite s1, Finite _ _ => s1
  | Finite _ _, Infinite s2 => negb s2
  | Infinite s1, Infinite s2 => s1 && negb s2
  | _, _ => false
  end.

(** [a is b or a == b], the test by which a dict finds a key and a list
    is compared member by member.  Texts are equal by their characters,
    numbers by their value ([True == 1 == 1.0]), lists member by member,
    dicts when they have the same keys with equal values, in any order;
    values of different kinds are not equal. *)
Fixpoint same_or_equal (a b : value) {struct a} : bool :=
  match a, b with
  | VNone, VNone => true
  | VStr s, VStr t => String.eqb s t
  | VDate x, VDate y =>
      ((dt_year x =? dt_year y) && (dt_month x =? dt_month y)
       && (dt_day x =? dt_day y))%Z
  | VList l1, VList l2 =>
      (fix all (l1 l2 : list value) {struct l1} : bool :=
         match l1, l2 with
         | [], [] => true
         | x :: xs, y :: ys => same_or_equal x y && all xs ys
         | _, _ => false
         end) l1 l2
  | VDict d1, VDict d2 =>
      (List.length d1 =? List.length d2)%nat
      && (fix all (d : list (string * value)) {struct d} : bool :=
            match d with
            | [] => true
            | (k, v) :: d' =>
                match dict_get k d2 with
                | Some v' => same_or_equal v v'
                | None => false
                end && all d'
            end) d1
  | _, _ =>
      match number_of a, number_of b with
      | Some x, Some y => number_eqb x y
      | _, _ => false
      end
  end.

(** Exceptions, and results of code that may raise. *)
Inductive exn :=
| JSONDecodeError
| KeyError
| TypeError
| AttributeError
| ValueError
| IndexError
| OSError
| TemplateError
| ExpatError.

Inductive result (A : Type) :=
| Ok (a : A)
| Raise (e : exn).
Arguments Ok {A} a.
Arguments Raise {A} e.

Definition bind {A B} (r : result A) (k : A -> result B) : result B :=
  match r with Ok a => k a | Raise e => Raise e end.

Notation "x <- r ;; k" := (bind r (fun x => k))
  (at level 61, r at next level, right associativity).

(** ** Paths ([posixpath]) *)

Module Path.

Definition slash : ascii := "/"%char.
Definition dot : ascii := "."%char.

(** [os.path.join(a, b)] *)
Definition join (a b : string) : string :=
  if Str.startswith "/" b then b
  else if String.eqb a "" || Str.endswith "/" a then a ++ b
  else a ++ "/" ++ b.

(** [os.path.basename(p)] *)
Definition basename (p : string) : string :=
  match Str.rcut slash p with
  | Some (_, String _ b) => b
  | _ => p
  end.

(** [os.path.splitext(p)]: the extension starts at the last dot of the
    last component, unless only dots come before it there. *)
Definition splitext (p : string) : string * string :=
  let '(head, base) :=
    match Str.rcut slash p with
    | Some (h, String c b) => (h ++ String c EmptyString, b)
    | _ => (EmptyString, p)
    end in
  let rest := Str.lstrip_by (Ascii.eqb dot) base in
  let dots := Str.take (String.length base - String.length rest) base in
  match Str.rcut dot rest with
  | Some (stem, ext) => (head ++ dots ++ stem, ext)
  | None => (p, EmptyString)
  end.

Definition isabs (p : string) : bool := Str.startswith "/" p.

(** The loop of [normpath] over the components, [acc] holding the new
    components in reverse. *)
Fixpoint norm_comps (absolute : bool) (acc : list string) (comps : list string)
  : list string :=
  match comps with
  | [] => rev acc
  | c :: rest =>
      if String.eqb c "" || String.eqb c "." then norm_comps absolute acc rest
      else if negb (String.eqb c "..") then norm_comps absolute (c :: acc) rest
      else
        match acc with
        | [] => if absolute then norm_comps absolute acc rest
                else norm_comps absolute (c :: acc) rest
        | top :: acc' =>
            if String.eqb top ".." then norm_comps absolute (c :: acc) rest
            else norm_comps absolute acc' rest
        end
  end.

(** [os.path.normpath(p)] *)
Definition normpath (p : string) : string :=
  if String.eqb p "" then "."
  else
    let initial :=
      if Str.startswith "/" p then
        if Str.startswith "//" p && negb (Str.startswith "///" p)
        then "//" else "/"
      else "" in
    let q := Str.join "/"
               (norm_comps (Str.startswith "/" p) [] (Str.split "/" p)) in
    let r := initial ++ q in
    if String.eqb r "" then "." else r.

(** [os.path.abspath(p)] in the working directory [cwd] *)
Definition abspath (cwd p : string) : string :=
  if isabs p then normpath p else normpath (join cwd p).

(** [[x for x in s.split('/') if x]] *)
Definition parts (s : string) : list string :=
  filter (fun x => negb (String.eqb x "")) (Str.split "/" s).

(** What is left of the two lists after their longest common prefix. *)
Fixpoint drop_common (a b : list string) : list string * list string :=
  match a, b with
  | x :: a', y :: b' => if String.eqb x y then drop_common a' b' else (a, b)
  | _, _ => (a, b)
  end.

(** [os.path.relpath(p, start)] *)
Definition relpath (cwd p start : string) : result string :=
  if String.eqb p "" then Raise ValueError
  else
    let '(up, down) :=
      drop_common (parts (abspath cwd start)) (parts (abspath cwd p)) in
    match (map (fun _ => "..") up ++ down)%list with
    | [] => Ok "."
    | rel => Ok (Str.join "/" rel)
    end.

End Path.

(** ** The file system

    A tree of directories and files below the root directory.  A file whose
    content is [None] cannot be read as UTF-8 text.  The order of the entries
    of a directory is the order in which the system lists them. *)

Inductive node :=
| File (content : option string)
| Dir (entries : list (string * node)).

Record filesystem := {
  fs_root : node;
  fs_cwd : string     (* [os.getcwd()], an absolute path *)
}.

Module FS.

Definition entry (name : string) (n : node) : option node :=
  match n with
  | Dir es =>
      (fix find (es : list (string * node)) : option node :=
         match es with
         | [] => None
         | (k, c) :: es' => if String.eqb k name then Some c else find es'
         end) es
  | File _ => None
  end.

Definition is_dir (n : node) : bool :=
  match n with Dir _ => true | File _ => false end.

(** Path resolution, one component at a time; [stack] holds the node
    reached and its ancestors up to the root. *)
Fixpoint resolve (stack : list node) (comps : list string) : option node :=
  match stack with
  | [] => None
  | cur :: up =>
      match comps with
      | [] => Some cur
      | c :: rest =>
          if negb (is_dir cur) then None
          else if String.eqb c "" || String.eqb c "." then resolve stack rest
          else if String.eqb c ".." then
            match up with
            | [] => resolve stack rest
            | _ => resolve up rest
            end
          else
            match entry c cur with
            | Some child => resolve (child :: stack) rest
            | None => None
            end
      end
  end.

(** The stack reached from [stack] by the directories [comps]. *)
Fixpoint descend (stack : list node) (comps : list string) : option (list node) :=
  match comps with
  | [] => Some stack
  | c :: rest =>
      match stack with
      | cur :: _ =>
          match entry c cur with
          | Some child => descend (child :: stack) rest
          | None => None
          end
      | [] => None
      end
  end.

(** The node a path names, if any. *)
Definition lookup (fs : filesystem) (p : string) : option node :=
  if String.eqb p "" then None
  else if Path.isabs p then resolve [fs_root fs] (Str.split "/" p)
  else
    match descend [fs_root fs] (Path.parts (fs_cwd fs)) with
    | Some stack => resolve stack (Str.split "/" p)
    | None => None
    end.

(** [os.path.exists(p)] *)
Definition exists_ (fs : filesystem) (p : string) : bool :=
  match lookup fs p with Some _ => true | None => false end.

(** [open(p, 'r', encoding='utf-8').read()] *)
Definition read (fs : filesystem) (p : string) : result string :=
  match lookup fs p with
  | Some (File (Some text)) => Ok text
  | Some (File None) => Raise ValueError
  | _ => Raise OSError
  end.

Definition subdirs (es : list (string * node)) : list string :=
  map fst (filter (fun e => is_dir (snd e)) es).

Definition files (es : list (string * node)) : list string :=
  map fst (filter (fun e => negb (is_dir (snd e))) es).

(** [os.walk] below a directory node: top-down, each directory before
    its subdirectories, these in listing order. *)
Fixpoint walk_node (top : string) (n : node)
  : list (string * list string * list string) :=
  match n with
  | File _ => []
  | Dir es =>
      (top, subdirs es, files es)
      :: (fix below (l : list (string * node)) :=
            match l with
            | [] => []
            | (name, child) :: l' =>
                (walk_node (Path.join top name) child ++ below l')%list
            end) es
  end.

(** [os.walk(top)]; nothing is produced when [top] is not a directory. *)
Definition walk (fs : filesystem) (top : string)
  : list (string * list string * list string) :=
  match lookup fs top with
  | Some n => walk_node top n
  | None => []
  end.

End FS.

(** ** Configuration

    The configuration is the JSON object of [config.json]; its keys are the
    fields of this record.  An optional key that is absent is [None]; the two
    switches are booleans, absent meaning [false] (what [config.get] tests). *)

Record collection_settings := {
  cs_path : option string;     (* "path" *)
  cs_output : option string    (* "output" *)
}.

Record config := {
  pages_dir : string;
  templates_dir : string;
  static_dir : string;
  assets_dir : string;
  output_dir : string;
  base_url : string;
  data_dir : option string;
  plugins_dir : option string;
  collections : list (string * collection_settings);
  use_absolute_urls : bool;
  use_absolute_static : bool;
  site_title : option string;
  site_description : option string
}.

(** ** url_helpers.py: [url] *)

Definition url (path : string) (cfg : config) : string :=
  if use_absolute_urls cfg
  then base_url cfg ++ "/" ++ Str.lstrip_slash path
  else "/" ++ Str.lstrip_slash path.

(** ** What a run leaves behind

    Log records, hook calls and written files, in the order in which they
    happen.  A log record keeps its format string and the paths or names
    that fill it. *)

Inductive level := INFO | WARNING | ERROR.

Inductive event :=
| Log (lvl : level) (fmt : string) (args : list string)
| Hook (name : string) (args : list (string * string))
| Write (path : string) (text : string).

(** Code that logs, calls hooks or writes, and may raise: the events so
    far, and the value or the exception. *)
Definition M (A : Type) : Type := (list event * result A)%type.

Definition ret {A} (a : A) : M A := ([], Ok a).

Definition raise {A} (e : exn) : M A := ([], Raise e).

Definition lift {A} (r : result A) : M A := ([], r).

Definition emit (e : event) : M unit := ([e], Ok tt).

Definition mbind {A B} (m : M A) (k : A -> M B) : M B :=
  match m with
  | (l, Ok a) => let '(l', r) := k a in ((l ++ l')%list, r)
  | (l, Raise e) => (l, Raise e)
  end.

Notation "x <-- m ;; k" := (mbind m (fun x => k))
  (at level 61, m at next level, right associativity).
Notation "m ;;; k" := (mbind m (fun _ => k))
  (at level 61, right associativity).

(** A [for] loop whose body may raise. *)
Fixpoint for_each {A S} (l : list A) (body : A -> S -> M S) (s : S) : M S :=
  match l with
  | [] => ret s
  | a :: l' => s' <-- body a s ;; for_each l' body s'
  end.

(** The list of the results of [f] on the elements, in order. *)
Fixpoint map_m {A B} (f : A -> M B) (l : list A) : M (list B) :=
  match l with
  | [] => ret []
  | a :: l' => b <-- f a ;; r <-- map_m f l' ;; ret (b :: r)
  end.

(** [logger.info], [logger.warning], [logger.error] *)
Definition log (lvl : level) (fmt : string) (args : list string) : M unit :=
  emit (Log lvl fmt args).

(** plugin_system.py, [run_hook]: the call is recorded; what the plugins do
    in it is theirs. *)
Definition run_hook (name : string) (args : list (string * string)) : M unit :=
  emit (Hook name args).

(** ** url_helpers.py: [static] *)

Definition static (fs : filesystem) (path : string) (cfg : config)
  : list event * string :=
  let static_path := Path.join (static_dir cfg) (Str.lstrip_slash path) in
  let logged :=
    if negb (FS.exists_ fs static_path)
    then [Log WARNING "Static file not found: %s" [static_path]]
    else [] in
  (logged,
   if use_absolute_static cfg
   then base_url cfg ++ "/static/" ++ Str.lstrip_slash path
   else "/static/" ++ Str.lstrip_slash path).

(** The URL [static] would return if it followed the switch of [url]. *)
Definition static_follows_url_switch (fs : filesystem) (path : string)
  (cfg : config) : Prop :=
  snd (static fs path cfg) =
  if use_absolute_urls cfg
  then base_url cfg ++ "/static/" ++ Str.lstrip_slash path
  else "/static/" ++ Str.lstrip_slash path.

(** ** The Python library

    [json.loads] is taken as given: on a text it returns a value or raises.
    The documented failure is [JSONDecodeError]; the interpreter may raise
    others (recursion depth, the limit on the digits of an integer). *)

Class PyLib := {
  json_loads : string -> result value
}.

(** ** front_matter_parser.py *)

Section FrontMatter.
Context {py : PyLib}.

Definition parse_front_matter (content : string)
  : list event * result (value * string) :=
  if Str.startswith "+++" content then
    match Str.split_max "+++" 2 content with
    | _ :: header :: rest :: _ =>
        match json_loads header with
        | Ok front_matter =>
            ([], Ok (if truthy front_matter then front_matter else VDict [],
                     Str.strip rest))
        | Raise JSONDecodeError =>
            ([Log ERROR "Error parsing JSON front matter: %s" []],
             Ok (VDict [], content))
        | Raise e => ([], Raise e)
        end
    | _ => ([], Ok (VDict [], content))
    end
  else ([], Ok (VDict [], content)).

End FrontMatter.

(** ** A decoder for plain JSON

    [Json.loads] decodes the JSON texts made of objects, arrays, strings
    without escape sequences, integers, [true], [false] and [null], as
    [json.loads] does: from left to right, raising [JSONDecodeError] where
    the text is malformed and [ValueError] at an integer of more digits than
    the interpreter converts.  Every other text is reported as malformed.
    It stands for [json.loads] where the program is evaluated on such
    texts. *)

Module Json.

Definition is_ws (c : ascii) : bool :=
  let n := nat_of_ascii c in
  (n =? 32)%nat || (n =? 9)%nat || (n =? 10)%nat || (n =? 13)%nat.

Definition skip_ws : string -> string := Str.lstrip_by is_ws.

(** The quotation mark, code 34. *)
Definition dquote : ascii :=
  Ascii false true false false false true false false.

(** A text in which every apostrophe stands for a quotation mark: the way
    JSON texts are written down in this file. *)
Fixpoint quoted (s : string) : string :=
  match s with
  | EmptyString => EmptyString
  | String c s' =>
      String (if Ascii.eqb c "'" then dquote else c) (quoted s')
  end.

Definition is_digit (c : ascii) : bool :=
  let n := nat_of_ascii c in (48 <=? n)%nat && (n <=? 57)%nat.

Definition digit_val (c : ascii) : Z := Z.of_nat (nat_of_ascii c - 48).

(** The leading digits of [s], read in base ten from [acc], and what
    follows them. *)
Fixpoint digits (acc : Z) (s : string) : Z * string :=
  match s with
  | String c s' =>
      if is_digit c then digits (acc * 10 + digit_val c) s' else (acc, s)
  | EmptyString => (acc, s)
  end.

(** [sys.get_int_max_str_digits()], by default: [int(text)] raises
    [ValueError] on a text of more digits (Python 3.11 and later). *)
Definition max_str_digits : nat := 4300.

(** A number without sign: [0], or digits not starting with [0]; a
    fraction or an exponent is not accepted. *)
Definition natural (s : string) : result (Z * string) :=
  match s with
  | String c s' =>
      if negb (is_digit c) then Raise JSONDecodeError
      else
        let '(n, rest) :=
          if Ascii.eqb c "0" then (0%Z, s') else digits 0 s in
        if match rest with
           | String d _ =>
               is_digit d || Ascii.eqb d "." || Ascii.eqb d "e"
               || Ascii.eqb d "E"
           | EmptyString => false
           end
        then Raise JSONDecodeError
        else if (max_str_digits <? String.length s - String.length rest)%nat
        then Raise ValueError
        else Ok (n, rest)
  | EmptyString => Raise JSONDecodeError
  end.

(** The characters up to the closing quote. *)
Fixpoint chars (s : string) : option (string * string) :=
  match s with
  | EmptyString => None
  | String c s' =>
      if Ascii.eqb c dquote then Some (EmptyString, s')
      else if Ascii.eqb c "\" || (nat_of_ascii c <? 32)%nat then None
      else
        match chars s' with
        | Some (t, rest) => Some (String c t, rest)
        | None => None
        end
  end.

Fixpoint parse (fuel : nat) (s : string) : result (value * string) :=
  match fuel with
  | O => Raise JSONDecodeError
  | S fuel' =>
      match s with
      | String "n" (String "u" (String "l" (String "l" r))) =>
          Ok (VNone, r)
      | String "t" (String "r" (String "u" (String "e" r))) =>
          Ok (VBool true, r)
      | String "f" (String "a" (String "l" (String "s" (String "e" r)))) =>
          Ok (VBool false, r)
      | String "-" r =>
          match natural r with
          | Ok (n, rest) => Ok (VInt (- n), rest)
          | Raise e => Raise e
          end
      | String "[" r =>
          match skip_ws r with
          | String "]" rest => Ok (VList [], rest)
          | r' =>
              match elements fuel' r' with
              | Ok (l, rest) => Ok (VList l, rest)
              | Raise e => Raise e
              end
          end
      | String "{" r =>
          match skip_ws r with
          | String "}" rest => Ok (VDict [], rest)
          | r' =>
              match members fuel' [] r' with
              | Ok (d, rest) => Ok (VDict d, rest)
              | Raise e => Raise e
              end
          end
      | String c r =>
          if Ascii.eqb c dquote then
            match chars r with
            | Some (t, rest) => Ok (VStr t, rest)
            | None => Raise JSONDecodeError
            end
          else
            match natural s with
            | Ok (n, rest) => Ok (VInt n, rest)
            | Raise e => Raise e
            end
      | EmptyString => Raise JSONDecodeError
      end
  end

(** [value (ws , ws value)* ws ]] *)
with elements (fuel : nat) (s : string) : result (list value * string) :=
  match fuel with
  | O => Raise JSONDecodeError
  | S fuel' =>
      match parse fuel' s with
      | Ok (v, rest) =>
          match skip_ws rest with
          | String "]" rest' => Ok ([v], rest')
          | String "," rest' =>
              match elements fuel' (skip_ws rest') with
              | Ok (l, rest'') => Ok (v :: l, rest'')
              | Raise e => Raise e
              end
          | _ => Raise JSONDecodeError
          end
      | Raise e => Raise e
      end
  end

(** ["key" ws : ws value (ws , ws "key" ...)* ws }]; a repeated key
    keeps its last value. *)
with members (fuel : nat) (acc : dict) (s : string) : result (dict * string) :=
  match fuel with
  | O => Raise JSONDecodeError
  | S fuel' =>
      match s with
      | String c r =>
          if negb (Ascii.eqb c dquote) then Raise JSONDecodeError
          else
            match chars r with
            | Some (k, rest) =>
                match skip_ws rest with
                | String ":" rest1 =>
                    match parse fuel' (skip_ws rest1) with
                    | Ok (v, rest2) =>
                        let acc' := dict_set k v acc in
                        match skip_ws rest2 with
                        | String "}" rest3 => Ok (acc', rest3)
                        | String "," rest3 =>
                            members fuel' acc' (skip_ws rest3)
                        | _ => Raise JSONDecodeError
                        end
                    | Raise e => Raise e
                    end
                | _ => Raise JSONDecodeError
                end
            | None => Raise JSONDecodeError
            end
      | EmptyString => Raise JSONDecodeError
      end
  end.

Definition loads (s : string) : result value :=
  match parse (S (String.length s)) (skip_ws s) with
  | Ok (v, rest) =>
      if String.eqb (skip_ws rest) "" then Ok v else Raise JSONDecodeError
  | Raise e => Raise e
  end.

End Json.

(** The library with [Json.loads] as decoder. *)
Definition plain_json : PyLib := {| json_loads := Json.loads |}.

(** ** Operations of Python on values *)

(** [k in v] *)
Definition py_in (k : string) (v : value) : result bool :=
  match v with
  | VDict d => Ok (dict_has k d)
  | VList l =>
      Ok (existsb (fun x => match x with
                            | VStr s => String.eqb s k
                            | _ => false
                            end) l)
  | VStr s => Ok (Str.contains k s)
  | _ => Raise TypeError
  end.

(** [v[k]] for a text [k] *)
Definition py_getitem (k : string) (v : value) : result value :=
  match v with
  | VDict d =>
      match dict_get k d with
      | Some x => Ok x
      | None => Raise KeyError
      end
  | _ => Raise TypeError
  end.

(** [v.get(k)] *)
Definition py_get (k : string) (v : value) : result (option value) :=
  match v with
  | VDict d => Ok (dict_get k d)
  | _ => Raise AttributeError
  end.

(** [v.lstrip('/')] *)
Definition py_lstrip_slash (v : value) : result string :=
  match v with
  | VStr s => Ok (Str.lstrip_slash s)
  | _ => Raise AttributeError
  end.

(** [bool(o)] for the result of [d.get(k)] *)
Definition truthy_opt (o : option value) : bool :=
  match o with Some v => truthy v | None => false end.

(** ** data_collections_loader.py *)

Module Item.
(** A collection item, the dict built by [load_collections]. *)
Record t := {
  path : string;
  relative_path : string;
  output_path_relative : string;
  front_matter : value;
  content : string;
  url : string
}.
End Item.

(** [d[k] = v] for the dict of collections *)
Fixpoint assoc_set {A} (k : string) (v : A) (d : list (string * A))
  : list (string * A) :=
  match d with
  | [] => [(k, v)]
  | (k', v') :: d' =>
      if String.eqb k k' then (k', v) :: d' else (k', v') :: assoc_set k v d'
  end.

Fixpoint assoc_get {A} (k : string) (d : list (string * A)) : option A :=
  match d with
  | [] => None
  | (k', v) :: d' => if String.eqb k k' then Some v else assoc_get k d'
  end.

Section Loader.
Context {py : PyLib}.
Variable fs : filesystem.

(** The files of a walk, each with the directory it is listed in. *)
Definition walk_files (top : string) : list (string * string) :=
  flat_map (fun '(root, _, files) => map (pair root) files) (FS.walk fs top).

(** [for key in keys[:-1]: node = node.setdefault(key, {})] and then,
    under [try], [node[last] = json.load(f)].  [loaded] is the outcome of
    opening and decoding the file.  The result is the tree after the
    statement and the exception the [except] clause caught, if any; an
    exception of [setdefault] is not caught. *)
Fixpoint store (keys : list string) (last : string) (loaded : result value)
  (node : value) : result (value * option exn) :=
  match keys with
  | [] =>
      match loaded with
      | Raise e => Ok (node, Some e)
      | Ok v =>
          match node with
          | VDict d => Ok (VDict (dict_set last v d), None)
          | _ => Ok (node, Some TypeError)
          end
      end
  | k :: keys' =>
      match node with
      | VDict d =>
          let child := match dict_get k d with
                       | Some c => c
                       | None => VDict []
                       end in
          bind (store keys' last loaded child)
               (fun r => Ok (VDict (dict_set k (fst r) d), snd r))
      | _ => Raise AttributeError
      end
  end.

(** The body of the loop of [load_data_files] for one file. *)
Definition load_data_file (data_dir : string) (entry : string * string)
  (data : value) : M value :=
  let '(root, file_name) := entry in
  let '(name, ext) := Path.splitext file_name in
  if String.eqb (Str.lower ext) ".json" then
    let file_path := Path.join root file_name in
    relative_path <-- lift (Path.relpath (fs_cwd fs) file_path data_dir) ;;
    let keys := Str.split "/" name in
    match rev keys with
    | [] => raise IndexError
    | last :: init =>
        r <-- lift (store (rev init) last
                      (bind (FS.read fs file_path) json_loads) data) ;;
        match snd r with
        | None => log INFO "Loaded data: %s" [relative_path] ;;; ret (fst r)
        | Some _ =>
            log ERROR "Error loading data file %s: %s" [file_path] ;;;
            ret (fst r)
        end
    end
  else
    log WARNING "Skipping non-JSON data file: %s" [file_name] ;;; ret data.

Definition load_data_files (cfg : config) : M value :=
  match data_dir cfg with
  | Some dir =>
      if String.eqb dir "" || negb (FS.exists_ fs dir) then
        log INFO "No data directory found or specified. Skipping data loading." [] ;;;
        ret (VDict [])
      else
        log INFO "Loading data files from %s" [dir] ;;;
        for_each (walk_files dir) (load_data_file dir) (VDict [])
  | None =>
      log INFO "No data directory found or specified. Skipping data loading." [] ;;;
      ret (VDict [])
  end.

(** The value found in a tree of nested mappings for a file: the one found by
    following the directories of its relative path and then its stem. *)
Fixpoint value_at (keys : list string) (v : value) : option value :=
  match keys with
  | [] => Some v
  | k :: keys' =>
      match v with
      | VDict d =>
          match dict_get k d with
          | Some c => value_at keys' c
          | None => None
          end
      | _ => None
      end
  end.

(** The body of the inner loop of [load_collections] for one file. *)
Definition load_collection_item (cfg : config) (collection_name : string)
  (collection_settings : collection_settings) (collection_path : string)
  (entry : string * string) (items : list Item.t) : M (list Item.t) :=
  let '(root, file_name) := entry in
  if Str.endswith ".html" file_name then
    let file_path := Path.join root file_name in
    content <-- lift (FS.read fs file_path) ;;
    parsed <-- parse_front_matter content ;;
    let '(front_matter, body_content) := parsed in
    relative_path <-- lift (Path.relpath (fs_cwd fs) file_path collection_path) ;;
    let output_dir_name :=
      match cs_output collection_settings with
      | Some o => o
      | None => collection_name
      end in
    let output_file_name := relative_path in
    let item_output_path := Path.join output_dir_name output_file_name in
    ret (items ++ [{| Item.path := file_path;
                      Item.relative_path := relative_path;
                      Item.output_path_relative := item_output_path;
                      Item.front_matter := front_matter;
                      Item.content := body_content;
                      Item.url := url item_output_path cfg |}])%list
  else ret items.

Definition load_collection (cfg : config)
  (entry : string * collection_settings)
  (collections_data : list (string * list Item.t))
  : M (list (string * list Item.t)) :=
  let '(collection_name, collection_settings) := entry in
  match cs_path collection_settings with
  | Some collection_path =>
      if String.eqb collection_path ""
         || negb (FS.exists_ fs collection_path) then
        log WARNING "Collection '%s' path not found: %s. Skipping."
            [collection_name; collection_path] ;;;
        ret collections_data
      else
        log INFO "Loading collection: %s from %s"
            [collection_name; collection_path] ;;;
        items <-- for_each (walk_files collection_path)
                    (load_collection_item cfg collection_name
                       collection_settings collection_path) [] ;;
        ret (assoc_set collection_name items collections_data)
  | None =>
      log WARNING "Collection '%s' path not found: %s. Skipping."
          [collection_name; "None"] ;;;
      ret collections_data
  end.

Definition load_collections (cfg : config)
  : M (list (string * list Item.t)) :=
  for_each (collections cfg) (load_collection cfg) [].

End Loader.

(** ** build_core.py: rendering *)

(** *** The page data

    The data of a page are what [json.load] gave for [data_file], or the
    dict [{}] after [update] with what was loaded for each of [data_files].
    [update] takes a mapping, or a sequence of pairs whose first members
    become keys: the keys of that dict are texts, numbers, booleans and
    [None], kept in insertion order. *)

Definition pydict := list (value * value).

Inductive page_data :=
| Loaded (v : value)
| Merged (d : pydict).

(** [hash(k)] raises [TypeError] on lists and dicts. *)
Definition hashable (k : value) : bool :=
  match k with
  | VList _ | VDict _ => false
  | _ => true
  end.

(** [d[k] = v]: a key that is already there (the same object, or an equal
    one: [True], [1] and [1.0] are one key) keeps its place and its first
    spelling, a new one goes last. *)
Fixpoint pydict_set (k v : value) (d : pydict) : pydict :=
  match d with
  | [] => [(k, v)]
  | (k', v') :: d' =>
      if same_or_equal k k' then (k', v) :: d' else (k', v') :: pydict_set k v d'
  end.

(** The two members of an element of the sequence given to [update]: a
    list of two values, a text of two characters, or a dict of two keys.
    A sequence of another length raises [ValueError]; a number, a boolean
    or [None] is no sequence and raises [TypeError]. *)
Definition pair_of (x : value) : result (value * value) :=
  match x with
  | VList [k; v] => Ok (k, v)
  | VList _ => Raise ValueError
  | VStr (String a (String b EmptyString)) =>
      Ok (VStr (String a EmptyString), VStr (String b EmptyString))
  | VStr _ => Raise ValueError
  | VDict [(k1, _); (k2, _)] => Ok (VStr k1, VStr k2)
  | VDict _ => Raise ValueError
  | _ => Raise TypeError
  end.

(** The loop of [update] over a sequence; it stops at the first element
    that is not a pair or whose key cannot be hashed. *)
Fixpoint update_from_pairs (page_data : pydict) (l : list value)
  : result pydict :=
  match l with
  | [] => Ok page_data
  | x :: l' =>
      bind (pair_of x)
           (fun kv =>
              if hashable (fst kv)
              then update_from_pairs (pydict_set (fst kv) (snd kv) page_data) l'
              else Raise TypeError)
  end.

(** [page_data.update(v)].  A dict is merged in, key by key; a list is
    taken as a sequence of pairs; a text is a sequence of texts of one
    character, so only the empty text passes; a number, a boolean or
    [None] cannot be iterated. *)
Definition py_update (page_data : pydict) (v : value) : result pydict :=
  match v with
  | VDict e =>
      Ok (fold_left (fun acc kv => pydict_set (VStr (fst kv)) (snd kv) acc)
            e page_data)
  | VList l => update_from_pairs page_data l
  | VStr s => if String.eqb s "" then Ok page_data else Raise ValueError
  | _ => Raise TypeError
  end.

Module PageInfo.
(** The record [_render_and_save_output] returns for a rendered item. *)
Record t := {
  source_path : string;
  output_path : string;
  url : string;
  front_matter : value;
  content : string
}.
End PageInfo.

(** The global [site] of the templates. *)
Record site_globals := {
  site_config : config;
  site_data : value;
  site_collections : list (string * list Item.t)
}.

(** The [page] entry of a render context; [pc_content] is present for
    collection items only. *)
Record page_context := {
  pc_front_matter : value;
  pc_data : page_data;
  pc_data_json_urls : list string;
  pc_content : option string;
  pc_url : string;
  pc_canonical : string;
  pc_absolute_final_url : string
}.

Record context := {
  page : page_context;
  site : site_globals
}.

Record environment := {
  loader_paths : list string;
  globals_site : site_globals
}.

(** The template engine, taken as given: compiling a text, loading a named
    layout and rendering may each raise.  What a template logs through the
    helpers it calls is not recorded. *)
Class Jinja := {
  template : Type;
  from_string : environment -> string -> result template;
  get_template : environment -> value -> result template;
  render : template -> context -> result string
}.

(** The disk below the output directory, taken as given:
    [os.makedirs(os.path.dirname(path), exist_ok=True)] followed by
    [open(path, 'w', encoding='utf-8')] and [write(text)] succeeds or raises.
    Whether it does depends on what the disk holds at that moment, also on
    what the run has written before.  No caller catches the exception, so a
    run ends at the first write that fails; and a file that was written can
    be written again.  Within one run the outcome is therefore the same
    whenever a path is written, and is given here by the path and the
    text. *)
Class Disk := {
  write_file : string -> string -> result unit
}.

Section Build.
Context {py : PyLib} {jinja : Jinja} {disk : Disk}.
Variable fs : filesystem.

Definition setup_jinja_environment (cfg : config) (site_data : value)
  (collections_data : list (string * list Item.t)) : M environment :=
  log INFO "Setting up Jinja2 environment" [] ;;;
  let collection_paths :=
    flat_map (fun '(_, settings) =>
                match cs_path settings with
                | Some p => if FS.exists_ fs p then [p] else []
                | None => []
                end) (collections cfg) in
  ret {| loader_paths :=
           ([templates_dir cfg; pages_dir cfg] ++ collection_paths)%list;
         globals_site := {| site_config := cfg;
                            site_data := site_data;
                            site_collections := collections_data |} |}.

Definition _render_and_save_output (env : environment) (cfg : config)
  (template_obj : template) (ctx : context)
  (output_path source_file_path : string) (content_for_sitemap_rss : string)
  : M (option PageInfo.t) :=
  match render template_obj ctx with
  | Raise _ =>
      log ERROR "Error rendering template from '%s' to '%s': %s"
          [source_file_path; output_path] ;;;
      ret None
  | Ok output =>
      lift (write_file output_path output) ;;;
      emit (Write output_path output) ;;;
      log INFO "Rendered: %s -> %s" [source_file_path; output_path] ;;;
      rel <-- lift (Path.relpath (fs_cwd fs) output_path (output_dir cfg)) ;;
      ret (Some {| PageInfo.source_path := source_file_path;
                   PageInfo.output_path := output_path;
                   PageInfo.url := url rel cfg;
                   PageInfo.front_matter := pc_front_matter (page ctx);
                   PageInfo.content := content_for_sitemap_rss |})
  end.

Definition _load_json_file_from_assets (file_path_relative_to_assets : value)
  (cfg : config) : M value :=
  rel <-- lift (py_lstrip_slash file_path_relative_to_assets) ;;
  let full_path := Path.join (assets_dir cfg) rel in
  if negb (FS.exists_ fs full_path) then
    log WARNING "Page data asset file not found: %s" [full_path] ;;;
    ret (VDict [])
  else
    match bind (FS.read fs full_path) json_loads with
    | Ok v => ret v
    | Raise JSONDecodeError =>
        log ERROR "Error decoding JSON from page data asset file %s: %s"
            [full_path] ;;;
        ret (VDict [])
    | Raise _ =>
        log ERROR "Error reading page data asset file %s: %s" [full_path] ;;;
        ret (VDict [])
    end.

(** [url(v, config)] for a value of the front matter *)
Definition py_url (v : value) (cfg : config) : result string :=
  match v with
  | VStr s => Ok (url s cfg)
  | _ => Raise AttributeError
  end.

(** The statements of [render_all_content] that fill [page_data] and
    [data_json_urls] from the keys [data_file] and [data_files]; they are
    the same for pages and for collection items. *)
Definition load_page_data (cfg : config) (front_matter : value)
  : M (page_data * list string) :=
  single <-- lift (py_in "data_file" front_matter) ;;
  if single then
    data_file <-- lift (py_getitem "data_file" front_matter) ;;
    page_data <-- _load_json_file_from_assets data_file cfg ;;
    u <-- lift (py_url data_file cfg) ;;
    ret (Loaded page_data, [u])
  else
    several <-- lift (py_in "data_files" front_matter) ;;
    if several then
      data_files <-- lift (py_getitem "data_files" front_matter) ;;
      match data_files with
      | VList l =>
          r <-- for_each l
                  (fun df_path (acc : pydict * list string) =>
                     loaded <-- _load_json_file_from_assets df_path cfg ;;
                     page_data <-- lift (py_update (fst acc) loaded) ;;
                     u <-- lift (py_url df_path cfg) ;;
                     ret (page_data, (snd acc ++ [u])%list))
                  ([], []) ;;
          ret (Merged (fst r), snd r)
      | _ => ret (Merged [], [])
      end
    else ret (Merged [], []).

(** The dict [context] handed to the template: the [page] entry and the
    global [site]; [content] is given for collection items only. *)
Definition make_context (cfg : config) (env : environment)
  (front_matter : value) (loaded : page_data * list string)
  (content : option string) (output_relative_path : string) : context :=
  {| page :=
       {| pc_front_matter := front_matter;
          pc_data := fst loaded;
          pc_data_json_urls := snd loaded;
          pc_content := content;
          pc_url := url output_relative_path cfg;
          pc_canonical :=
            base_url cfg ++ "/" ++ Str.lstrip_slash output_relative_path;
          pc_absolute_final_url := url output_relative_path cfg |};
     site := globals_site env |}.

(** The body of the loop over the files of [pages_dir]. *)
Definition render_page (cfg : config) (env : environment)
  (entry : string * string) (rendered_pages_info : list PageInfo.t)
  : M (list PageInfo.t) :=
  let '(root, page_file) := entry in
  if Str.endswith ".html" page_file then
    let page_source_path := Path.join root page_file in
    output_relative_path <--
      lift (Path.relpath (fs_cwd fs) page_source_path (pages_dir cfg)) ;;
    let output_path := Path.join (output_dir cfg) output_relative_path in
    run_hook "before_render_page" [("page_path", page_source_path)] ;;;
    full_file_content <-- lift (FS.read fs page_source_path) ;;
    parsed <-- parse_front_matter full_file_content ;;
    let '(front_matter, body_content_after_fm) := parsed in
    loaded <-- load_page_data cfg front_matter ;;
    match from_string env body_content_after_fm with
    | Raise _ =>
        log ERROR "Error creating template from string for page '%s': %s."
            [page_source_path] ;;;
        ret rendered_pages_info
    | Ok template_obj =>
        let ctx := make_context cfg env front_matter loaded None
                     output_relative_path in
        page_info <-- _render_and_save_output env cfg template_obj ctx
                        output_path page_source_path body_content_after_fm ;;
        let rendered_pages_info :=
          match page_info with
          | Some info => (rendered_pages_info ++ [info])%list
          | None => rendered_pages_info
          end in
        run_hook "after_render_page"
          [("page_path", page_source_path); ("output_path", output_path)] ;;;
        ret rendered_pages_info
    end
  else ret rendered_pages_info.

(** [config["collections"][collection_name]["output"]] *)
Definition collection_output (cfg : config) (collection_name : string)
  : result string :=
  match assoc_get collection_name (collections cfg) with
  | Some settings =>
      match cs_output settings with
      | Some o => Ok o
      | None => Raise KeyError
      end
  | None => Raise KeyError
  end.

(** The body of the loop over the items of a collection. *)
Definition render_collection_item (cfg : config) (env : environment)
  (collection_name : string) (item : Item.t)
  (rendered_pages_info : list PageInfo.t) : M (list PageInfo.t) :=
  let page_source_path := Item.path item in
  output <-- lift (collection_output cfg collection_name) ;;
  let output_relative_path :=
    Path.join output (Path.basename page_source_path) in
  let output_path := Path.join (output_dir cfg) output_relative_path in
  run_hook "before_render_page" [("page_path", page_source_path)] ;;;
  layout_name <-- lift (py_get "layout" (Item.front_matter item)) ;;
  if negb (truthy_opt layout_name) then
    log WARNING
        "Collection item '%s' has no 'layout' specified in front matter. Skipping."
        [page_source_path] ;;;
    ret rendered_pages_info
  else
    loaded <-- load_page_data cfg (Item.front_matter item) ;;
    match get_template env (match layout_name with
                            | Some v => v
                            | None => VNone
                            end) with
    | Raise _ =>
        log ERROR
            "Error loading layout template '%s' for collection item '%s': %s. Skipping item."
            [page_source_path] ;;;
        ret rendered_pages_info
    | Ok template_obj =>
        let ctx := make_context cfg env (Item.front_matter item) loaded
                     (Some (Item.content item)) output_relative_path in
        page_info <-- _render_and_save_output env cfg template_obj ctx
                        output_path page_source_path (Item.content item) ;;
        let rendered_pages_info :=
          match page_info with
          | Some info => (rendered_pages_info ++ [info])%list
          | None => rendered_pages_info
          end in
        run_hook "after_render_page"
          [("page_path", page_source_path); ("output_path", output_path)] ;;;
        ret rendered_pages_info
    end.

Definition render_collection (cfg : config) (env : environment)
  (entry : string * list Item.t) (rendered_pages_info : list PageInfo.t)
  : M (list PageInfo.t) :=
  let '(collection_name, items) := entry in
  log INFO "Rendering collection '%s' items." [collection_name] ;;;
  for_each items (render_collection_item cfg env collection_name)
    rendered_pages_info.

Definition render_all_content (cfg : config) (site_data : value)
  (collections_data : list (string * list Item.t)) : M (list PageInfo.t) :=
  env <-- setup_jinja_environment cfg site_data collections_data ;;
  log INFO "Rendering regular pages from %s" [pages_dir cfg] ;;;
  rendered_pages_info <--
    for_each (walk_files fs (pages_dir cfg)) (render_page cfg env) [] ;;
  for_each collections_data (render_collection cfg env) rendered_pages_info.

End Build.

(** ** Dates ([datetime]) *)

Module Datetime.

(** [datetime.min] *)
Definition min : datetime := {| dt_year := 1; dt_month := 1; dt_day := 1 |}.

(** [a < b]; the time of day of a parsed date is midnight. *)
Definition ltb (a b : datetime) : bool :=
  (dt_year a <? dt_year b)%Z
  || ((dt_year a =? dt_year b)%Z
      && ((dt_month a <? dt_month b)%Z
          || ((dt_month a =? dt_month b)%Z && (dt_day a <? dt_day b)%Z))).

Definition is_leap (y : Z) : bool :=
  ((y mod 4 =? 0) && (negb (y mod 100 =? 0) || (y mod 400 =? 0)))%Z.

Definition days_in_month (y m : Z) : Z :=
  if (m =? 2)%Z then (if is_leap y then 29 else 28)%Z
  else if ((m =? 4) || (m =? 6) || (m =? 9) || (m =? 11))%Z then 30%Z
  else 31%Z.

Definition digit (c : ascii) : option Z :=
  if Json.is_digit c then Some (Json.digit_val c) else None.

(** The directive [%m]: [1[0-2]|0[1-9]|[1-9]] *)
Definition month_field (s : string) : option Z :=
  match s with
  | String a EmptyString =>
      match digit a with
      | Some n => if (1 <=? n)%Z then Some n else None
      | None => None
      end
  | String a (String b EmptyString) =>
      match digit a, digit b with
      | Some 1%Z, Some n => if (n <=? 2)%Z then Some (10 + n)%Z else None
      | Some 0%Z, Some n => if (1 <=? n)%Z then Some n else None
      | _, _ => None
      end
  | _ => None
  end.

(** The directive [%d]: [3[01]|[12]\d|0[1-9]|[1-9]| [1-9]] *)
Definition day_field (s : string) : option Z :=
  match s with
  | String a EmptyString =>
      match digit a with
      | Some n => if (1 <=? n)%Z then Some n else None
      | None => None
      end
  | String a (String b EmptyString) =>
      match digit b with
      | Some n =>
          if Ascii.eqb a " " then (if (1 <=? n)%Z then Some n else None)
          else
            match digit a with
            | Some 3%Z => if (n <=? 1)%Z then Some (30 + n)%Z else None
            | Some 2%Z => Some (20 + n)%Z
            | Some 1%Z => Some (10 + n)%Z
            | Some 0%Z => if (1 <=? n)%Z then Some n else None
            | _ => None
            end
      | None => None
      end
  | _ => None
  end.

(** [datetime.datetime.strptime(s, "%Y-%m-%d")]: four digits of year, a
    month and a day as above, separated by hyphens and nothing else; the
    date must exist.  Any failure is a [ValueError]. *)
Definition strptime (s : string) : result datetime :=
  match s with
  | String y1 (String y2 (String y3 (String y4 (String "-" rest)))) =>
      match digit y1, digit y2, digit y3, digit y4, Str.cut "-" rest with
      | Some a, Some b, Some c, Some d, Some (m, dd) =>
          match month_field m, day_field dd with
          | Some month, Some day =>
              let year := (((a * 10 + b) * 10 + c) * 10 + d)%Z in
              if (1 <=? year)%Z && (day <=? days_in_month year month)%Z
              then Ok {| dt_year := year; dt_month := month; dt_day := day |}
              else Raise ValueError
          | _, _ => Raise ValueError
          end
      | _, _, _, _, _ => Raise ValueError
      end
  | _ => Raise ValueError
  end.

End Datetime.

(** ** Sorting

    [a < b] on the values used as sort keys.  Numbers (with booleans)
    compare by value, texts by their characters, dates by day; lists
    compare at their first pair of members that are not equal, and by
    length when there is none.  [None] and dicts are not ordered, nor are
    values of different kinds: the comparison raises [TypeError]. *)
Fixpoint key_lt (a b : value) {struct a} : result bool :=
  match a, b with
  | VDate x, VDate y => Ok (Datetime.ltb x y)
  | VStr x, VStr y => Ok (String.ltb x y)
  | VList l1, VList l2 =>
      (fix lex (l1 l2 : list value) {struct l1} : result bool :=
         match l1, l2 with
         | [], [] => Ok false
         | [], _ :: _ => Ok true
         | _ :: _, [] => Ok false
         | x :: xs, y :: ys =>
             if same_or_equal x y then lex xs ys else key_lt x y
         end) l1 l2
  | _, _ =>
      match number_of a, number_of b with
      | Some x, Some y => Ok (number_ltb x y)
      | _, _ => Raise TypeError
      end
  end.

Section Sorted.
Context {A : Type}.
Variable key : A -> value.

(** [x] goes before the first element whose key is not greater. *)
Fixpoint insert_desc (x : A) (l : list A) : result (list A) :=
  match l with
  | [] => Ok [x]
  | y :: l' =>
      bind (key_lt (key x) (key y))
           (fun lt => if lt
                      then bind (insert_desc x l') (fun r => Ok (y :: r))
                      else Ok (x :: l))
  end.

(** [sorted(l, key=key, reverse=True)]: a stable sort into descending
    order that compares keys with [<] only, and fails when a comparison
    does.  The comparisons are those of an insertion sort; when every two
    keys can be compared and [<] orders them, the result is the same
    whichever comparisons are made. *)
Fixpoint sorted_desc (l : list A) : result (list A) :=
  match l with
  | [] => Ok []
  | x :: l' => bind (sorted_desc l') (insert_desc x)
  end.

End Sorted.

(** ** build_core.py: sitemap and feed *)

(** An [<item>] of the feed: the values assigned to the texts of its
    elements. *)
Record rss_item := {
  rss_title : value;
  rss_link : string;
  rss_guid : string;
  rss_pubDate : option datetime;
  rss_description : value
}.

Record feed := {
  feed_title : string;
  feed_link : string;
  feed_description : string;
  feed_self : string;
  feed_items : list rss_item
}.

(** What [tostring] writes for the text of an element: nothing when the
    value is falsy ([None], the empty text, [0], [False], an empty list or
    dict), the text when it is one, and [TypeError] for any other value. *)
Definition written_text (v : value) : result string :=
  if truthy v then
    match v with
    | VStr s => Ok s
    | _ => Raise TypeError
    end
  else Ok "".

Definition serialisable (i : rss_item) : bool :=
  match written_text (rss_title i), written_text (rss_description i) with
  | Ok _, Ok _ => true
  | _, _ => false
  end.

(** The characters a document may hold: [minidom.parseString] raises
    [ExpatError] on the control characters other than tab, line feed and
    carriage return, which [tostring] writes as they are. *)
Definition xml_char (c : ascii) : bool :=
  let n := nat_of_ascii c in
  ((32 <=? n) || (n =? 9) || (n =? 10) || (n =? 13))%nat.

Definition xml_text (s : string) : bool :=
  forallb xml_char (list_ascii_of_string s).

Definition xml_value (v : value) : bool :=
  match written_text v with
  | Ok s => xml_text s
  | Raise _ => false
  end.

(** The texts of an [<item>] can be parsed back; the date is written in
    digits and letters. *)
Definition well_formed (i : rss_item) : bool :=
  xml_value (rss_title i) && xml_text (rss_link i) && xml_text (rss_guid i)
  && xml_value (rss_description i).

Definition set_front_matter (post : Item.t) (fm : value) : Item.t :=
  {| Item.path := Item.path post;
     Item.relative_path := Item.relative_path post;
     Item.output_path_relative := Item.output_path_relative post;
     Item.front_matter := fm;
     Item.content := Item.content post;
     Item.url := Item.url post |}.

(** [post['front_matter']['_date_obj'] = d] *)
Definition set_date_obj (post : Item.t) (d : datetime) : Item.t :=
  match Item.front_matter post with
  | VDict fm => set_front_matter post (VDict (dict_set "_date_obj" (VDate d) fm))
  | _ => post
  end.

(** The body of the first loop of [generate_rss_feed]. *)
Definition stamp_date (post : Item.t) : M Item.t :=
  date_str <-- lift (py_get "date" (Item.front_matter post)) ;;
  match date_str with
  | Some (VStr s) =>
      if String.eqb s "" then ret post
      else
        match Datetime.strptime s with
        | Ok d => ret (set_date_obj post d)
        | Raise _ =>
            log WARNING "Could not parse date '%s' for post: %s. Using default."
                [s; Item.url post] ;;;
            ret (set_date_obj post Datetime.min)
        end
  | _ => ret post
  end.

(** [x['front_matter'].get('_date_obj', datetime.datetime.min)]; the posts
    have passed the first loop, so their front matter is a dict. *)
Definition sort_key (post : Item.t) : value :=
  match Item.front_matter post with
  | VDict fm =>
      match dict_get "_date_obj" fm with
      | Some v => v
      | None => VDate Datetime.min
      end
  | _ => VNone
  end.

(** The text of [<description>] before serialisation:
    [fm.get('description', content[:200] + "..." if len(content) > 200 else content)] *)
Definition description_of (post : Item.t) : result value :=
  bind (py_get "description" (Item.front_matter post))
       (fun d =>
          match d with
          | Some v => Ok v
          | None =>
              Ok (VStr (if (200 <? String.length (Item.content post))%nat
                        then Str.take 200 (Item.content post) ++ "..."
                        else Item.content post))
          end).

(** The body of the loop over [posts_sorted[:10]]. *)
Definition rss_entry (post : Item.t) : M rss_item :=
  t <-- lift (py_get "title" (Item.front_matter post)) ;;
  let title := match t with Some v => v | None => VStr "No Title" end in
  pub_date_obj <-- lift (py_get "_date_obj" (Item.front_matter post)) ;;
  pub <-- match pub_date_obj with
          | Some (VDate d) => ret (Some d)
          | _ =>
              log WARNING "No valid date object for RSS item: %s"
                  [Item.url post] ;;;
              ret None
          end ;;
  description <-- lift (description_of post) ;;
  ret {| rss_title := title;
         rss_link := Item.url post;
         rss_guid := Item.url post;
         rss_pubDate := pub;
         rss_description := description |}.

(** The channel around the entries of the feed. *)
Definition channel_of (cfg : config) (entries : list rss_item) : feed :=
  {| feed_title := match site_title cfg with
                   | Some t => t
                   | None => "My Static Site"
                   end;
     feed_link := base_url cfg;
     feed_description := match site_description cfg with
                         | Some d => d
                         | None => "A static site generated with Python."
                         end;
     feed_self := base_url cfg ++ "/feed.xml";
     feed_items := entries |}.

(** The texts of the channel can be parsed back. *)
Definition channel_well_formed (f : feed) : bool :=
  xml_text (feed_title f) && xml_text (feed_link f)
  && xml_text (feed_description f) && xml_text (feed_self f).

(** The documents of [generate_sitemap] and [generate_rss_feed]. *)
Inductive document :=
| Urlset (locs : list string)
| Rss (rss : feed).

(** Writing a document that has been parsed back: [toprettyxml],
    [open(path, 'w', encoding='utf-8')] and [write].  The directory is not
    made here, so [open] raises when [output_dir] does not exist; the text
    of a feed holds the time of the build.  As for [Disk], the outcome is
    taken as given, by the path and the document. *)
Class XmlDisk := {
  write_document : string -> document -> result unit
}.

Section Feed.
Context {xml : XmlDisk}.

(** [generate_sitemap]: the [<loc>] entries of the document it writes.
    The document is serialised and parsed back before it is written. *)
Definition generate_sitemap (cfg : config)
  (rendered_pages_info : list PageInfo.t) : M (list string) :=
  run_hook "before_generate_sitemap" [] ;;;
  log INFO "Generating sitemap.xml" [] ;;;
  let locs := map PageInfo.url rendered_pages_info in
  let sitemap_path := Path.join (output_dir cfg) "sitemap.xml" in
  (if forallb xml_text locs then ret tt else raise ExpatError) ;;;
  lift (write_document sitemap_path (Urlset locs)) ;;;
  log INFO "Sitemap generated at: %s" [sitemap_path] ;;;
  run_hook "after_generate_sitemap" [("sitemap_path", sitemap_path)] ;;;
  ret locs.

(** [generate_rss_feed]: the feed it writes to [feed.xml], or [None] when it
    returns without writing.  The tree is built first; [tostring] raises
    [TypeError] on a text it cannot write, [minidom.parseString] raises
    [ExpatError] on a character it cannot read back, and the file is
    written after both; the exception of a write that fails is not caught.
    The layout of the XML text is not modelled. *)
Definition generate_rss_feed (cfg : config)
  (collections_data : list (string * list Item.t)) : M (option feed) :=
  run_hook "before_generate_rss_feed" [] ;;;
  log INFO "Generating RSS feed. Looking for 'posts' collection." [] ;;;
  match assoc_get "posts" collections_data with
  | None | Some [] =>
      log INFO "No 'posts' collection found for RSS feed generation. Skipping." [] ;;;
      ret None
  | Some posts =>
      posts <-- map_m stamp_date posts ;;
      posts_sorted <-- lift (sorted_desc sort_key posts) ;;
      entries <-- map_m rss_entry (firstn 10 posts_sorted) ;;
      let rss := channel_of cfg entries in
      let rss_path := Path.join (output_dir cfg) "feed.xml" in
      (if forallb serialisable entries then ret tt else raise TypeError) ;;;
      (if channel_well_formed rss && forallb well_formed entries
       then ret tt else raise ExpatError) ;;;
      lift (write_document rss_path (Rss rss)) ;;;
      log INFO "RSS feed generated at: %s" [rss_path] ;;;
      run_hook "after_generate_rss_feed" [("rss_path", rss_path)] ;;;
      ret (Some rss)
  end.

End Feed.

(** ** A sample site

    A small site on which the program is evaluated: a data directory with a
    file in a subdirectory, a collection of posts with one post in a
    subdirectory, and two configurations that differ in their switches. *)

Definition sample_fs : filesystem :=
  {| fs_cwd := "/site";
     fs_root :=
       Dir [("site",
             Dir [("_data",
                   Dir [("site.json", File (Some (Json.quoted "{'title': 'T'}")));
                        ("authors",
                         Dir [("jane.json", File (Some (Json.quoted "{'n': 2}")))])]);
                  ("pages",
                   Dir [("index.html", File (Some "<h1>Home</h1>"));
                        ("broken.html", File (Some "{% if"));
                        ("boom.html", File (Some "{{ 1/0 }}"))]);
                  ("templates",
                   Dir [("post.html", File (Some "<article></article>"));
                        ("zero.html", File (Some "{{ 1/0 }}"))]);
                  ("posts",
                   Dir [("a.html",
                         File (Some (Json.quoted "+++{'layout': 'post.html'}+++ A")));
                        ("bare.html", File (Some "no front matter"));
                        ("lost.html",
                         File (Some (Json.quoted "+++{'layout': 'nope.html'}+++ L")));
                        ("zero.html",
                         File (Some (Json.quoted "+++{'layout': 'zero.html'}+++ Z")));
                        ("2024",
                         Dir [("b.html",
                               File (Some (Json.quoted
                                             "+++{'layout': 'post.html'}+++ B")))])]);
                  ("static", Dir [("site.css", File (Some "body {}"))])])] |}.

Definition sample_config : config :=
  {| pages_dir := "pages";
     templates_dir := "templates";
     static_dir := "static";
     assets_dir := "assets";
     output_dir := "output";
     base_url := "http://e";
     data_dir := Some "_data";
     plugins_dir := None;
     collections := [("posts", {| cs_path := Some "posts";
                                  cs_output := Some "blog" |})];
     use_absolute_urls := false;
     use_absolute_static := false;
     site_title := None;
     site_description := None |}.

(** The same site with absolute page URLs and root-relative static URLs. *)
Definition absolute_config : config :=
  {| pages_dir := "pages";
     templates_dir := "templates";
     static_dir := "static";
     assets_dir := "assets";
     output_dir := "output";
     base_url := "http://e";
     data_dir := Some "_data";
     plugins_dir := None;
     collections := [("posts", {| cs_path := Some "posts";
                                  cs_output := Some "blog" |})];
     use_absolute_urls := true;
     use_absolute_static := false;
     site_title := None;
     site_description := None |}.

(** A stand-in for the template engine, to evaluate the pipeline: a
    template is its source text and renders to it; a text with an opening
    tag and no closing one does not compile; a layout is looked up in the
    search path; the expression [1/0] fails when it is rendered. *)
Definition plain_engine (fs : filesystem) : Jinja :=
  {| template := string;
     from_string := fun _ source =>
       if Str.contains "{%" source && negb (Str.contains "%}" source)
       then Raise TemplateError else Ok source;
     get_template := fun env name =>
       match name with
       | VStr n =>
           fold_right
             (fun dir found =>
                match FS.read fs (Path.join dir n) with
                | Ok text => Ok text
                | Raise _ => found
                end)
             (Raise TemplateError) (loader_paths env)
       | _ => Raise TypeError
       end;
     render := fun source _ =>
       if Str.contains "{{ 1/0 }}" source then Raise TemplateError
       else Ok source |}.

(** A disk on which no write succeeds. *)
Definition full_disk : Disk :=
  {| write_file := fun _ _ => Raise OSError |}.

(** An output directory in which every document can be written, and one
    that does not exist. *)
Definition willing_xml : XmlDisk :=
  {| write_document := fun _ _ => Ok tt |}.


(** A site whose assets hold a data file that is a list of pairs. *)
Definition data_fs : filesystem :=
  {| fs_cwd := "/site";
     fs_root :=
       Dir [("site",
             Dir [("assets",
                   Dir [("pairs.json",
                         File (Some (Json.quoted "['ab', 'cd']")))])])] |}.

(** A disk on which every write succeeds, as below an output directory
    that was cleared before the run, for output paths none of which lies
    below another. *)
Definition willing_disk : Disk :=
  {| write_file := fun _ _ => Ok tt |}.


(** The events that are log records, and the hook calls of a trace with
    the page each was fired for. *)
Definition is_log (e : event) : bool :=
  match e with Log _ _ _ => true | _ => false end.

Definition is_write (e : event) : bool :=
  match e with Write _ _ => true | _ => false end.

Fixpoint hooks_of (events : list event) : list (string * string) :=
  match events with
  | [] => []
  | Hook name (("page_path", p) :: _) :: rest => (name, p) :: hooks_of rest
  | _ :: rest => hooks_of rest
  end.

(** The collections of the sample site, as [load_collections] returns them. *)
Definition sample_collections : list (string * list Item.t) :=
  match snd (load_collections (py := plain_json) sample_fs sample_config) with
  | Ok c => c
  | Raise _ => []
  end.

(** The sample site with the output prefix [./blog] for its posts. *)
Definition dotted_config : config :=
  {| pages_dir := "pages";
     templates_dir := "templates";
     static_dir := "static";
     assets_dir := "assets";
     output_dir := "output";
     base_url := "http://e";
     data_dir := Some "_data";
     plugins_dir := None;
     collections := [("posts", {| cs_path := Some "posts";
                                  cs_output := Some "./blog" |})];
     use_absolute_urls := false;
     use_absolute_static := false;
     site_title := None;
     site_description := None |}.

Definition dotted_collections : list (string * list Item.t) :=
  match snd (load_collections (py := plain_json) sample_fs dotted_config) with
  | Ok c => c
  | Raise _ => []
  end.

(** The template environment of the sample site. *)
Definition sample_env : environment :=
  {| loader_paths := ["templates"; "pages"; "posts"];
     globals_site := {| site_config := sample_config;
                        site_data := VDict [];
                        site_collections := sample_collections |} |}.

(** Posts for the feed. *)
Definition sample_post (name : string) (front_matter : dict) (body : string)
  : Item.t :=
  {| Item.path := "posts/" ++ name;
     Item.relative_path := name;
     Item.output_path_relative := "blog/" ++ name;
     Item.front_matter := VDict front_matter;
     Item.content := body;
     Item.url := "/blog/" ++ name |}.

(** Two dated posts and one whose date cannot be parsed. *)
Definition dated_posts : list (string * list Item.t) :=
  [("posts",
    [sample_post "jan.html" [("date", VStr "2024-01-01")] "January";
     sample_post "mar.html"
       [("date", VStr "2024-03-01"); ("description", VStr "Spring")] "March";
     sample_post "soon.html" [("date", VStr "soon")] "Some day"])].

(** Two posts without a date whose front matter has a key [_date_obj]. *)
Definition keyed_posts : list (string * list Item.t) :=
  [("posts",
    [sample_post "a.html" [("title", VStr "A"); ("_date_obj", VStr "a")] "A";
     sample_post "b.html" [("title", VStr "B"); ("_date_obj", VStr "b")] "B"])].

(** Eleven posts, one for each of the first eleven days of a month. *)
Definition eleven_posts : list (string * list Item.t) :=
  [("posts",
    map (fun d => sample_post (d ++ ".html") [("date", VStr ("2024-05-" ++ d))] d)
      ["01"; "02"; "03"; "04"; "05"; "06"; "07"; "08"; "09"; "10"; "11"])].



(** The date a post is meant to be sorted by: its [date]
    parsed as [%Y-%m-%d], and [datetime.min] when the key is missing, is not
    a text or cannot be parsed. *)
Definition post_date (p : Item.t) : datetime :=
  match Item.front_matter p with
  | VDict fm =>
      match dict_get "date" fm with
      | Some (VStr s) =>
          match Datetime.strptime s with
          | Ok d => d
          | Raise _ => Datetime.min
          end
      | _ => Datetime.min
      end
  | _ => Datetime.min
  end.

Section NewestFirst.
Context {A : Type}.
Variable date : A -> datetime.

(** A stable sort by date, newest first, on dates alone. *)
Fixpoint insert_newest_first (x : A) (l : list A) : list A :=
  match l with
  | [] => [x]
  | y :: l' =>
      if Datetime.ltb (date x) (date y)
      then y :: insert_newest_first x l'
      else x :: l
  end.

Fixpoint sort_newest_first (l : list A) : list A :=
  match l with
  | [] => []
  | x :: l' => insert_newest_first x (sort_newest_first l')
  end.

(** No element is older than one that comes after it. *)
Definition not_older (a b : A) : Prop :=
  Datetime.ltb (date a) (date b) = false.

End NewestFirst.

(** [a == b] on dates *)
Definition date_eqb (a b : datetime) : bool :=
  ((dt_year a =? dt_year b) && (dt_month a =? dt_month b)
   && (dt_day a =? dt_day b))%Z.

(** The post after the first loop of [generate_rss_feed]. *)
Definition stamped (p : Item.t) : Item.t :=
  match Item.front_matter p with
  | VDict fm =>
      match dict_get "date" fm with
      | Some (VStr s) =>
          if String.eqb s "" then p
          else
            match Datetime.strptime s with
            | Ok d => set_date_obj p d
            | Raise _ => set_date_obj p Datetime.min
            end
      | _ => p
      end
  | _ => p
  end.

(** The date in the sort key of a post, when the key is a date. *)
Definition key_date (p : Item.t) : datetime :=
  match sort_key p with
  | VDate d => d
  | _ => Datetime.min
  end.

(** The links of the entries of a feed, when one was written. *)
Definition feed_links (run : M (option feed)) : option (list string) :=
  match snd run with
  | Ok (Some f) => Some (map rss_link (feed_items f))
  | _ => None
  end.

(** [collections_data.get("posts", [])] *)
Definition posts_of (collections_data : list (string * list Item.t))
  : list Item.t :=
  match assoc_get "posts" collections_data with
  | Some posts => posts
  | None => []
  end.

(** A computation that only logs: every event of its trace is a log record. *)
Definition only_logs {A} (m : M A) : Prop :=
  forallb is_log (fst m) = true.

(** What the first loop keeps of a post: its URL, its body, and every key
    of its front matter but [_date_obj]. *)
Definition same_post (p p' : Item.t) : Prop :=
  Item.url p' = Item.url p
  /\ Item.content p' = Item.content p
  /\ exists fm fm',
       Item.front_matter p = VDict fm
       /\ Item.front_matter p' = VDict fm'
       /\ forall k, k <> "_date_obj" -> dict_get k fm' = dict_get k fm.

(** The description of a post with front matter [fm] and the given body. *)
Definition expected_description (fm : dict) (content : string) : value :=
  match dict_get "description" fm with
  | Some v => v
  | None =>
      VStr (if (200 <? String.length content)%nat
            then Str.take 200 content ++ "..."
            else content)
  end.

(** ** Paths made of plain names

    The names a directory listing gives, and the paths the configuration
    of an ordinary site holds: components that are not empty, hold no
    slash and are neither [.] nor [..]. *)

Definition no_slash (s : string) : Prop := Str.cut "/" s = None.

Definition plain_name (s : string) : Prop :=
  s <> "" /\ s <> "." /\ s <> ".." /\ no_slash s.

(** [a] put before the first part of a split. *)
Definition cons_head (a : ascii) (l : list string) : list string :=
  match l with
  | x :: xs => String a x :: xs
  | [] => [String a EmptyString]
  end.

(** [s.split(c)] for a separator of one character, by recursion on [s]. *)
Fixpoint split_char (c : ascii) (s : string) : list string :=
  match s with
  | EmptyString => [EmptyString]
  | String a s' =>
      if Ascii.eqb a c then EmptyString :: split_char c s'
      else cons_head a (split_char c s')
  end.

(** [a if isabs(a) else join(cwd, a)], the path [abspath] normalises. *)
Definition anchored (cwd p : string) : string :=
  if Path.isabs p then p else Path.join cwd p.

(** A component [normpath] keeps as it is. *)
Definition solid (c : string) : Prop := c <> "" /\ no_slash c.

(** What [join] puts before a relative path. *)
Definition join_prefix (a : string) : string :=
  if String.eqb a "" || Str.endswith "/" a then a else a ++ "/".

(** A relative path without a trailing slash, as a first component. *)
Definition inner_path (p : string) : Prop :=
  p <> "" /\ Str.startswith "/" p = false /\ Str.endswith "/" p = false.

(** A tree in which every name is plain, as a directory listing gives them. *)
Fixpoint plain_tree (n : node) : Prop :=
  match n with
  | File _ => True
  | Dir es =>
      (fix all (es : list (string * node)) : Prop :=
         match es with
         | [] => True
         | (name, child) :: es' =>
             plain_name name /\ plain_tree child /\ all es'
         end) es
  end.

(** [n] slashes *)
Fixpoint slashes (n : nat) : string :=
  match n with
  | O => EmptyString
  | S n' => String "/" (slashes n')
  end.

(** ** plugin_system.py

    A plugin is a module: its name and what it defines.  A hook is an
    attribute that can be called; it runs with the keyword arguments of
    the call, leaves its events and returns or raises.  The exceptions are
    those of [exn], all of them below [Exception]. *)

Module Plugins.

Record plugin := {
  plugin_name : string;
  plugin_hook : string -> option (list (string * string) -> M unit)
}.

(** [try: m except Exception: handler] *)
Definition try_except {A} (m : M A) (handler : exn -> M A) : M A :=
  match m with
  | (events, Ok a) => (events, Ok a)
  | (events, Raise e) =>
      let '(events', r) := handler e in ((events ++ events')%list, r)
  end.

(** [run_hook] over the registry [PLUGINS]. *)
Definition run_hook (PLUGINS : list plugin) (hook_name : string)
  (kwargs : list (string * string)) : M unit :=
  for_each PLUGINS
    (fun plugin _ =>
       match plugin_hook plugin hook_name with
       | Some call =>
           try_except (call kwargs)
             (fun _ =>
                log ERROR "Error running hook '%s' in plugin '%s': %s"
                  [hook_name; plugin_name plugin])
       | None => ret tt
       end)
    tt.

(** [os.listdir(p)] *)
Definition listdir (fs : filesystem) (p : string) : result (list string) :=
  match FS.lookup fs p with
  | Some (Dir es) => Ok (map fst es)
  | _ => Raise OSError
  end.

Section Loading.
(** [__import__(module_name)] with the plugins directory in front of the
    search path. *)
Variable import_module : string -> M plugin.
Variable fs : filesystem.

(** The body of the loop over the directory. *)
Definition load_plugin (file_name : string) (PLUGINS : list plugin)
  : M (list plugin) :=
  if Str.endswith ".py" file_name && negb (Str.startswith "__" file_name) then
    let module_name := Str.take (String.length file_name - 3) file_name in
    try_except
      (module <-- import_module module_name ;;
       log INFO "Loaded plugin: %s" [module_name] ;;;
       ret (PLUGINS ++ [module])%list)
      (fun _ =>
         log ERROR "Error loading plugin %s: %s" [module_name] ;;;
         ret PLUGINS)
  else ret PLUGINS.

(** [load_plugins]: the registry is cleared, then filled; the new registry
    is returned. *)
Definition load_plugins (cfg : config) (PLUGINS : list plugin)
  : M (list plugin) :=
  match plugins_dir cfg with
  | Some dir =>
      if String.eqb dir "" || negb (FS.exists_ fs dir) then
        log INFO "No plugins directory found or specified. Skipping plugin loading." [] ;;;
        ret []
      else
        log INFO "Loading plugins from %s" [dir] ;;;
        file_names <-- lift (listdir fs dir) ;;
        for_each file_names load_plugin []
  | None =>
      log INFO "No plugins directory found or specified. Skipping plugin loading." [] ;;;
      ret []
  end.

(** The plugins a directory listing gives: one for each name that ends in
    [.py], does not start with [__] and can be imported, in listing order. *)
Definition importable (file_names : list string) : list plugin :=
  flat_map
    (fun file_name =>
       if Str.endswith ".py" file_name && negb (Str.startswith "__" file_name)
       then
         match snd (import_module
                      (Str.take (String.length file_name - 3) file_name)) with
         | Ok module => [module]
         | Raise _ => []
         end
       else [])
    file_names.

End Loading.

(** What a call of a hook leaves in the trace of [run_hook]. *)
Definition hook_trace (hook_name : string) (kwargs : list (string * string))
  (p : plugin) : list event :=
  match plugin_hook p hook_name with
  | Some call =>
      (fst (call kwargs)
       ++ match snd (call kwargs) with
          | Ok _ => []
          | Raise _ =>
              [Log ERROR "Error running hook '%s' in plugin '%s': %s"
                 [hook_name; plugin_name p]]
          end)%list
  | None => []
  end.

End Plugins.

(** A site with plugins: one that loads, one whose import raises, and
    files that are not plugins. *)
Definition plugin_fs : filesystem :=
  {| fs_cwd := "/site";
     fs_root :=
       Dir [("site",
             Dir [("plugins",
                   Dir [("seo.py", File (Some "def before_build(config): pass"));
                        ("__init__.py", File (Some ""));
                        ("broken.py", File (Some "import nothing"));
                        ("notes.txt", File (Some "todo"));
                        ("minify.py", File (Some "def after_build(config): pass"))])])] |}.

Definition plugin_config : config :=
  {| pages_dir := "pages";
     templates_dir := "templates";
     static_dir := "static";
     assets_dir := "assets";
     output_dir := "output";
     base_url := "http://e";
     data_dir := None;
     plugins_dir := Some "plugins";
     collections := [];
     use_absolute_urls := false;
     use_absolute_static := false;
     site_title := None;
     site_description := None |}.

Definition sample_import (module_name : string) : M Plugins.plugin :=
  if String.eqb module_name "broken" then raise ValueError
  else ret {| Plugins.plugin_name := module_name;
              Plugins.plugin_hook := fun _ => None |}.

(** ** dev_server.py: the content type of a file *)

Module DevServer.

Definition extensions_map : list (string * string) :=
  [(".html", "text/html");
   (".css", "text/css");
   (".js", "application/javascript");
   (".png", "image/png");
   (".jpg", "image/jpeg");
   (".jpeg", "image/jpeg");
   (".gif", "image/gif");
   (".svg", "image/svg+xml");
   (".json", "application/json");
   (".xml", "application/xml");
   (".txt", "text/plain");
   (".ico", "image/x-icon");
   (".pdf", "application/pdf");
   (".woff", "font/woff");
   (".woff2", "font/woff2");
   (".ttf", "font/ttf");
   (".eot", "application/vnd.ms-fontobject");
   (".otf", "font/otf")].

Definition guess_type (path : string) : string :=
  let '(base, ext) := Path.splitext path in
  match assoc_get ext extensions_map with
  | Some t => t
  | None =>
      let ext := Str.lower ext in
      match assoc_get ext extensions_map with
      | Some t => t
      | None => "application/octet-stream"
      end
  end.

End DevServer.

(** ** Items, traces and feed entries in the statements *)

(** What holds of every item of a collection loaded with [settings]. *)
Definition item_of (cfg : config) (name : string)
  (settings : collection_settings) (item : Item.t) : Prop :=
  Str.endswith ".html" (Item.path item) = true
  /\ Item.output_path_relative item
     = Path.join (match cs_output settings with
                  | Some o => o
                  | None => name
                  end) (Item.relative_path item)
  /\ Item.url item = url (Item.output_path_relative item) cfg.

(** The paths of the files written in a trace, in order. *)
Fixpoint written (events : list event) : list string :=
  match events with
  | [] => []
  | Write p _ :: rest => p :: written rest
  | _ :: rest => written rest
  end.

(** A sequence of page hooks in which every hook is [before_render_page]
    or an [after_render_page] that directly follows the
    [before_render_page] of the same page. *)
Fixpoint paired (hooks : list (string * string)) : bool :=
  match hooks with
  | [] => true
  | (name, p) :: rest =>
      String.eqb name "before_render_page"
      && match rest with
         | (name', q) :: rest' =>
             if String.eqb name' "after_render_page"
             then String.eqb p q && paired rest'
             else paired rest
         | [] => true
         end
  end.

(** The entry of a post in the feed: the title of the front matter or
    [No Title], the URL as link and as guid, the date when the front matter
    gives one as a text that is not empty, and the description. *)
Definition entry_of (p : Item.t) : rss_item :=
  let fm := match Item.front_matter p with VDict fm => fm | _ => [] end in
  {| rss_title := match dict_get "title" fm with
                  | Some v => v
                  | None => VStr "No Title"
                  end;
     rss_link := Item.url p;
     rss_guid := Item.url p;
     rss_pubDate := match dict_get "date" fm with
                    | Some (VStr s) =>
                        if String.eqb s "" then None else Some (post_date p)
                    | _ => None
                    end;
     rss_description := expected_description fm (Item.content p) |}.

(** A post whose front matter is a mapping without the key [_date_obj]. *)
Definition unstamped (p : Item.t) : Prop :=
  exists fm,
    Item.front_matter p = VDict fm /\ dict_get "_date_obj" fm = None.

(** A post the feed can be written for: its front matter is a mapping
    without the key [_date_obj], its title and its description are texts or
    falsy values, and no text written for it holds a character that cannot
    be read back. *)
Definition feed_ready (p : Item.t) : Prop :=
  unstamped p /\ well_formed (entry_of p) = true.

(** * Properties *)

(** ** Texts *)

Lemma lstrip_slash_cons_slash (p : string) :
  Str.lstrip_slash (String "/" p) = Str.lstrip_slash p.
Proof. reflexivity. Qed.

Lemma lstrip_slash_cons (c : ascii) (p : string) :
  Str.lstrip_slash (String c p) =
  if Ascii.eqb c "/" then Str.lstrip_slash p else String c p.
Proof. reflexivity. Qed.

Lemma lstrip_slash_decompose (p : string) :
  exists n, p = slashes n ++ Str.lstrip_slash p.
Proof.
  induction p as [|c p IH].
  - exists 0. reflexivity.
  - rewrite lstrip_slash_cons.
    destruct (Ascii.eqb c "/") eqn:E.
    + apply Ascii.eqb_eq in E; subst c.
      destruct IH as [n Hn]. exists (S n). simpl. f_equal. exact Hn.
    + exists 0. reflexivity.
Qed.

Lemma startswith_slash_cons (c : ascii) (s : string) :
  Str.startswith "/" (String c s) = Ascii.eqb c "/".
Proof.
  change (Str.startswith "/" (String c s)) with (Ascii.eqb "/" c && true).
  rewrite andb_true_r. apply Ascii.eqb_sym.
Qed.

Lemma lstrip_slash_no_slash (p : string) :
  Str.startswith "/" (Str.lstrip_slash p) = false.
Proof.
  induction p as [|c p IH].
  - reflexivity.
  - rewrite lstrip_slash_cons.
    destruct (Ascii.eqb c "/") eqn:E.
    + exact IH.
    + rewrite startswith_slash_cons. exact E.
Qed.

(** ** url_helpers.py *)

(** C9: [url] puts the path, without its leading slashes, after
    [base_url + "/"] when absolute URLs are enabled and after ["/"]
    otherwise; the stripped path is the path after all its leading slashes;
    and one more leading slash does not change the result. *)
Theorem url_leading_slash_insensitive (p : string) (c : config) :
  url p c = (if use_absolute_urls c
             then base_url c ++ "/" ++ Str.lstrip_slash p
             else "/" ++ Str.lstrip_slash p)
  /\ (exists n, p = slashes n ++ Str.lstrip_slash p)
  /\ Str.startswith "/" (Str.lstrip_slash p) = false
  /\ url ("/" ++ p) c = url p c.
Proof.
  repeat split.
  - apply lstrip_slash_decompose.
  - apply lstrip_slash_no_slash.
Qed.

Lemma url_any_leading_slashes (n : nat) (p : string) (c : config) :
  url (slashes n ++ p) c = url p c.
Proof.
  induction n as [|n IH]; [reflexivity|exact IH].
Qed.

Example url_absolute_example :
  url "/x" absolute_config = "http://e/x".
Proof. reflexivity. Qed.

Example url_relative_example :
  url "x" sample_config = "/x".
Proof. reflexivity. Qed.

(** C3, as stated: [static] would be absolute exactly when [url] is.  It is
    not: with absolute page URLs switched on and absolute static URLs
    switched off, [url] is absolute and [static] is root-relative. *)
Lemma static_ignores_url_switch :
  url "site.css" absolute_config = "http://e/site.css"
  /\ snd (static sample_fs "site.css" absolute_config) = "/static/site.css"
  /\ ~ static_follows_url_switch sample_fs "site.css" absolute_config.
Proof.
  repeat split. unfold static_follows_url_switch. simpl. discriminate.
Qed.

(** C3, amended: [static] follows its own switch [use_absolute_static]; the
    URL is [base_url + "/static/" + path] when that switch is on and
    ["/static/" + path] otherwise, the path without its leading slashes;
    and a missing file only adds a warning to the log, the URL is returned
    all the same. *)
Theorem static_follows_own_switch (fs : filesystem) (p : string) (c : config) :
  snd (static fs p c) =
    (if use_absolute_static c
     then base_url c ++ "/static/" ++ Str.lstrip_slash p
     else "/static/" ++ Str.lstrip_slash p)
  /\ fst (static fs p c) =
       (if FS.exists_ fs (Path.join (static_dir c) (Str.lstrip_slash p))
        then []
        else [Log WARNING "Static file not found: %s"
                [Path.join (static_dir c) (Str.lstrip_slash p)]]).
Proof.
  unfold static. split; [reflexivity|].
  simpl. destruct (FS.exists_ fs _); reflexivity.
Qed.

Example static_missing_file_example :
  static sample_fs "img/logo.png" sample_config
  = ([Log WARNING "Static file not found: %s" ["static/img/logo.png"]],
     "/static/img/logo.png").
Proof. reflexivity. Qed.

(** ** front_matter_parser.py *)

Lemma startswith_cons (a b : ascii) (p s : string) :
  Str.startswith (String a p) (String b s)
  = Ascii.eqb a b && Str.startswith p s.
Proof. reflexivity. Qed.

Lemma cut_decompose (sep s l r : string) :
  Str.cut sep s = Some (l, r) -> s = l ++ sep ++ r.
Proof.
  assert (P : forall p t rest, Str.after_prefix p t = Some rest -> t = p ++ rest).
  { induction p as [|a p IH]; intros t rest H.
    - simpl in H. injection H as <-. reflexivity.
    - destruct t as [|b t]; [discriminate|].
      simpl in H. destruct (Ascii.eqb a b) eqn:E; [|discriminate].
      apply Ascii.eqb_eq in E; subst b. simpl. f_equal. apply IH, H. }
  revert l r. induction s as [|c s IH]; intros l r H.
  - simpl in H. destruct (Str.after_prefix sep "") eqn:E; [|discriminate].
    injection H as <- <-. apply P in E. exact E.
  - cbn [Str.cut] in H.
    destruct (Str.after_prefix sep (String c s)) eqn:E.
    + injection H as <- <-. apply P in E. exact E.
    + destruct (Str.cut sep s) as [[l' r']|] eqn:E'; [|discriminate].
      injection H as <- <-. simpl. f_equal. apply IH. reflexivity.
Qed.

(** The parts of a split, joined by the separator, are the text. *)
Lemma split_max_join (sep : string) (n : nat) (s : string) :
  Str.join sep (Str.split_max sep n s) = s.
Proof.
  revert s. induction n as [|n IH]; intros s; [reflexivity|].
  simpl. destruct (Str.cut sep s) as [[l r]|] eqn:E; [|reflexivity].
  specialize (IH r).
  destruct (Str.split_max sep n r) as [|x xs] eqn:E'.
  - destruct n; simpl in E'; [discriminate|].
    destruct (Str.cut sep r) as [[? ?]|]; discriminate.
  - cbn [Str.join]. cbn [Str.join] in IH. rewrite IH.
    symmetry. apply cut_decompose. exact E.
Qed.

Lemma split_max_length (sep : string) (n : nat) (s : string) :
  1 <= List.length (Str.split_max sep n s) <= S n.
Proof.
  revert s. induction n as [|n IH]; intros s; simpl; [lia|].
  destruct (Str.cut sep s) as [[l r]|]; simpl; [|lia].
  specialize (IH r). lia.
Qed.

Section FrontMatterProperties.
Context {py : PyLib}.

(** The split of a text on the delimiter has at most three parts, and a
    text that starts with the delimiter has an empty first part. *)
Lemma front_matter_split_shape (raw_text : string) :
  Str.startswith "+++" raw_text = true ->
  (exists body, Str.split_max "+++" 2 raw_text = [""; body]
                /\ raw_text = "+++" ++ body)
  \/ (exists header rest,
        Str.split_max "+++" 2 raw_text = [""; header; rest]
        /\ raw_text = "+++" ++ header ++ "+++" ++ rest).
Proof.
  intros H.
  destruct raw_text as [|a t]; [discriminate|].
  rewrite startswith_cons in H. apply andb_true_iff in H as [Ha H].
  destruct t as [|b t]; [discriminate|].
  rewrite startswith_cons in H. apply andb_true_iff in H as [Hb H].
  destruct t as [|c t]; [discriminate|].
  rewrite startswith_cons in H. apply andb_true_iff in H as [Hc _].
  apply Ascii.eqb_eq in Ha, Hb, Hc. subst a b c.
  change (Str.split_max "+++" 2 (String "+" (String "+" (String "+" t))))
    with ("" :: Str.split_max "+++" 1 t).
  cbn [Str.split_max].
  destruct (Str.cut "+++" t) as [[h r]|] eqn:E.
  - right. exists h, r. split; [reflexivity|].
    apply cut_decompose in E. rewrite E. reflexivity.
  - left. exists t. split; reflexivity.
Qed.

(** When the decoder raises nothing but [JSONDecodeError],
    [parse_front_matter] returns on every text. *)
Lemma parse_front_matter_returns (raw_text : string) :
  (forall s e, json_loads s = Raise e -> e = JSONDecodeError) ->
  exists front_matter body,
    snd (parse_front_matter raw_text) = Ok (front_matter, body).
Proof.
  intros Hdec. unfold parse_front_matter.
  destruct (Str.startswith "+++" raw_text); [|simpl; eauto].
  destruct (Str.split_max "+++" 2 raw_text) as [|a [|b [|c l]]];
    try (simpl; eauto; fail).
  destruct (json_loads b) as [v|e] eqn:E; [simpl; eauto|].
  apply Hdec in E. subst e. simpl. eauto.
Qed.

(** An exception of the decoder other than [JSONDecodeError] leaves
    [parse_front_matter]. *)
Lemma parse_front_matter_raises
  (raw_text delimiter header rest : string) (e : exn) :
  Str.startswith "+++" raw_text = true ->
  Str.split_max "+++" 2 raw_text = [delimiter; header; rest] ->
  json_loads header = Raise e ->
  e <> JSONDecodeError ->
  snd (parse_front_matter raw_text) = Raise e.
Proof.
  intros Hs Hp Hdec Hne. unfold parse_front_matter.
  rewrite Hs, Hp, Hdec. destruct e; try reflexivity. contradiction.
Qed.


End FrontMatterProperties.



(** C6 at a header that is a JSON array: the text [+++[1]+++x] is parsed
    without an exception and its body is the text [x], but the first
    component is the list [[1]], not a mapping. *)
Theorem parse_front_matter_list_header :
  parse_front_matter (py := plain_json) "+++[1]+++x"
    = ([], Ok (VList [VInt 1], "x"))
  /\ is_dict (VList [VInt 1]) = false.
Proof. split; reflexivity. Qed.

(** ** data_collections_loader.py: [load_data_files] *)

Lemma split_without_separator (sep s : string) :
  Str.contains sep s = false -> Str.split sep s = [s].
Proof.
  unfold Str.contains, Str.split. intros H.
  destruct (String.length s); [reflexivity|].
  simpl. destruct (Str.cut sep s); [discriminate|reflexivity].
Qed.

Section DataFilesProperties.
Context {py : PyLib}.
Variable fs : filesystem.

(** A JSON file is stored under its stem at the top of the tree, whatever
    the directory [root] it was found in: the keys are taken from the file
    name, in which there is no separator. *)
Lemma load_data_file_stores_under_stem
  (data_dir root file_name name ext rel : string) (d : dict) (v : value) :
  Path.splitext file_name = (name, ext) ->
  Str.lower ext = ".json" ->
  Str.contains "/" name = false ->
  Path.relpath (fs_cwd fs) (Path.join root file_name) data_dir = Ok rel ->
  bind (FS.read fs (Path.join root file_name)) json_loads = Ok v ->
  load_data_file fs data_dir (root, file_name) (VDict d)
  = ([Log INFO "Loaded data: %s" [rel]], Ok (VDict (dict_set name v d))).
Proof.
  intros Hsplit Hext Hname Hrel Hload. unfold load_data_file.
  rewrite Hsplit, Hext. cbn [String.eqb Ascii.eqb Bool.eqb].
  rewrite Hrel. cbn [lift mbind].
  rewrite (split_without_separator _ _ Hname). cbn [rev app].
  rewrite Hload. reflexivity.
Qed.

End DataFilesProperties.

(** C1 on the sample site: the file [_data/authors/jane.json] is stored at
    [data["jane"]]; there is no key [authors], so nothing is found at
    [data["authors"]["jane"]], where the directory structure would put it. *)
Theorem load_data_files_ignores_directories :
  snd (load_data_files (py := plain_json) sample_fs sample_config)
  = Ok (VDict [("site", VDict [("title", VStr "T")]);
               ("jane", VDict [("n", VInt 2)])])
  /\ value_at ["authors"; "jane"]
       (VDict [("site", VDict [("title", VStr "T")]);
               ("jane", VDict [("n", VInt 2)])]) = None
  /\ value_at ["jane"]
       (VDict [("site", VDict [("title", VStr "T")]);
               ("jane", VDict [("n", VInt 2)])]) = Some (VDict [("n", VInt 2)]).
Proof. repeat split; vm_compute; reflexivity. Qed.

(** ** Traces *)

Lemma only_logs_ret {A} (a : A) : only_logs (ret a).
Proof. reflexivity. Qed.

Lemma only_logs_raise {A} (e : exn) : only_logs (raise (A := A) e).
Proof. reflexivity. Qed.

Lemma only_logs_lift {A} (r : result A) : only_logs (lift r).
Proof. reflexivity. Qed.

Lemma only_logs_log (lvl : level) (fmt : string) (args : list string) :
  only_logs (log lvl fmt args).
Proof. reflexivity. Qed.

Lemma only_logs_mbind {A B} (m : M A) (k : A -> M B) :
  only_logs m -> (forall a, only_logs (k a)) -> only_logs (mbind m k).
Proof.
  unfold only_logs. destruct m as [l [a|e]]; simpl; intros Hm Hk; [|exact Hm].
  specialize (Hk a). destruct (k a) as [l' r]. simpl in *.
  rewrite forallb_app, Hm, Hk. reflexivity.
Qed.

Lemma only_logs_for_each {A S} (l : list A) (body : A -> S -> M S) (s : S) :
  (forall a s', only_logs (body a s')) -> only_logs (for_each l body s).
Proof.
  intros Hbody. revert s. induction l as [|a l IH]; intros s; simpl.
  - apply only_logs_ret.
  - apply only_logs_mbind; [apply Hbody|exact IH].
Qed.

(** One step through a computation built from the operations above. *)
Ltac only_logs_step :=
  first [ apply only_logs_ret | apply only_logs_raise | apply only_logs_lift
        | apply only_logs_log
        | apply only_logs_mbind; [|intros ?]
        | apply only_logs_for_each; intros ? ?
        | match goal with
          | |- only_logs (if ?b then _ else _) => destruct b
          | |- only_logs (match ?x with _ => _ end) => destruct x
          end ].

Lemma parse_front_matter_only_logs {py : PyLib} (content : string) :
  only_logs (parse_front_matter content).
Proof.
  unfold parse_front_matter.
  destruct (Str.startswith "+++" content); [|reflexivity].
  destruct (Str.split_max "+++" 2 content) as [|a [|b [|c l]]];
    try reflexivity.
  destruct (json_loads b) as [v|[]]; reflexivity.
Qed.

Section BuildProperties.
Context {py : PyLib} {jinja : Jinja} {disk : Disk}.
Variable fs : filesystem.

Lemma load_json_file_from_assets_only_logs (v : value) (cfg : config) :
  only_logs (_load_json_file_from_assets fs v cfg).
Proof.
  unfold _load_json_file_from_assets. repeat only_logs_step.
Qed.

Lemma load_page_data_only_logs (cfg : config) (front_matter : value) :
  only_logs (load_page_data fs cfg front_matter).
Proof.
  unfold load_page_data.
  repeat first [ apply load_json_file_from_assets_only_logs
               | only_logs_step ].
Qed.

Lemma render_failure_returns_none (env : environment) (cfg : config)
  (t : template) (ctx : context) (output_path source content : string)
  (e : exn) :
  render t ctx = Raise e ->
  _render_and_save_output fs env cfg t ctx output_path source content
  = ([Log ERROR "Error rendering template from '%s' to '%s': %s"
        [source; output_path]], Ok None).
Proof.
  intros H. unfold _render_and_save_output. rewrite H. reflexivity.
Qed.

(** The trace of a page whose template raises when it is rendered. *)
Lemma render_page_on_failure (cfg : config) (env : environment)
  (rendered : list PageInfo.t)
  (root page_file rel full body : string) (fm : value)
  (loaded : page_data * list string) (ev_fm ev_ld : list event)
  (t : template) (e : exn) :
  Str.endswith ".html" page_file = true ->
  Path.relpath (fs_cwd fs) (Path.join root page_file) (pages_dir cfg) = Ok rel ->
  FS.read fs (Path.join root page_file) = Ok full ->
  parse_front_matter full = (ev_fm, Ok (fm, body)) ->
  load_page_data fs cfg fm = (ev_ld, Ok loaded) ->
  from_string env body = Ok t ->
  render t (make_context cfg env fm loaded None rel) = Raise e ->
  render_page fs cfg env (root, page_file) rendered
  = ((Hook "before_render_page" [("page_path", Path.join root page_file)]
      :: ev_fm ++ ev_ld
      ++ [Log ERROR "Error rendering template from '%s' to '%s': %s"
            [Path.join root page_file; Path.join (output_dir cfg) rel];
          Hook "after_render_page"
            [("page_path", Path.join root page_file);
             ("output_path", Path.join (output_dir cfg) rel)]])%list,
     Ok rendered).
Proof.
  intros Hext Hrel Hread Hfm Hld Hcomp Hrender.
  unfold render_page. rewrite Hext, Hrel.
  cbn [lift mbind run_hook emit app].
  rewrite Hread. cbn [lift mbind app]. rewrite Hfm. cbn [mbind].
  rewrite Hld. cbn [mbind]. rewrite Hcomp.
  rewrite (render_failure_returns_none _ _ _ _ _ _ _ _ Hrender).
  cbn [mbind run_hook emit ret app]. reflexivity.
Qed.

(** The trace of a collection item whose layout raises when it is rendered. *)
Lemma render_collection_item_on_failure (cfg : config) (env : environment)
  (rendered : list PageInfo.t) (collection_name output : string)
  (item : Item.t) (layout : value)
  (loaded : page_data * list string) (ev_ld : list event)
  (t : template) (e : exn) :
  collection_output cfg collection_name = Ok output ->
  py_get "layout" (Item.front_matter item) = Ok (Some layout) ->
  truthy layout = true ->
  load_page_data fs cfg (Item.front_matter item) = (ev_ld, Ok loaded) ->
  get_template env layout = Ok t ->
  render t (make_context cfg env (Item.front_matter item) loaded
              (Some (Item.content item))
              (Path.join output (Path.basename (Item.path item)))) = Raise e ->
  render_collection_item fs cfg env collection_name item rendered
  = ((Hook "before_render_page" [("page_path", Item.path item)]
      :: ev_ld
      ++ [Log ERROR "Error rendering template from '%s' to '%s': %s"
            [Item.path item;
             Path.join (output_dir cfg)
               (Path.join output (Path.basename (Item.path item)))];
          Hook "after_render_page"
            [("page_path", Item.path item);
             ("output_path",
              Path.join (output_dir cfg)
                (Path.join output (Path.basename (Item.path item))))]])%list,
     Ok rendered).
Proof.
  intros Hout Hlayout Htruthy Hld Hload Hrender.
  unfold render_collection_item. rewrite Hout.
  cbn [lift mbind run_hook emit app]. rewrite Hlayout.
  cbn [lift mbind app truthy_opt]. rewrite Htruthy. cbn [negb].
  rewrite Hld. cbn [mbind]. rewrite Hload.
  rewrite (render_failure_returns_none _ _ _ _ _ _ _ _ Hrender).
  cbn [mbind run_hook emit ret app]. reflexivity.
Qed.

Lemma for_each_cons_unchanged {A S} (body : A -> S -> M S) (a : A)
  (rest : list A) (s : S) (events : list event) :
  body a s = (events, Ok s) ->
  for_each (a :: rest) body s
  = ((events ++ fst (for_each rest body s))%list, snd (for_each rest body s)).
Proof.
  intros H. cbn [for_each]. rewrite H. cbn [mbind].
  destruct (for_each rest body s). reflexivity.
Qed.

Lemma logs_are_not_writes (events : list event) :
  forallb is_log events = true ->
  forallb (fun e => negb (is_write e)) events = true.
Proof.
  induction events as [|e l IH]; [reflexivity|]. simpl.
  intros H. apply andb_true_iff in H as [He Hl].
  rewrite (IH Hl). destruct e; try discriminate. reflexivity.
Qed.

(** The trace of a page whose text does not compile: the hook
    [before_render_page] and the error, and nothing after them. *)
Lemma render_page_on_compile_failure (cfg : config) (env : environment)
  (rendered : list PageInfo.t)
  (root page_file rel full body : string) (fm : value)
  (loaded : page_data * list string) (ev_fm ev_ld : list event) (e : exn) :
  Str.endswith ".html" page_file = true ->
  Path.relpath (fs_cwd fs) (Path.join root page_file) (pages_dir cfg) = Ok rel ->
  FS.read fs (Path.join root page_file) = Ok full ->
  parse_front_matter full = (ev_fm, Ok (fm, body)) ->
  load_page_data fs cfg fm = (ev_ld, Ok loaded) ->
  from_string env body = Raise e ->
  render_page fs cfg env (root, page_file) rendered
  = ((Hook "before_render_page" [("page_path", Path.join root page_file)]
      :: ev_fm ++ ev_ld
      ++ [Log ERROR "Error creating template from string for page '%s': %s."
            [Path.join root page_file]])%list,
     Ok rendered).
Proof.
  intros Hext Hrel Hread Hfm Hld Hcomp.
  unfold render_page. rewrite Hext, Hrel.
  cbn [lift mbind run_hook emit app].
  rewrite Hread. cbn [lift mbind app]. rewrite Hfm. cbn [mbind].
  rewrite Hld. cbn [mbind]. rewrite Hcomp.
  cbn [mbind log emit ret app]. rewrite ?app_nil_r. reflexivity.
Qed.

(** The trace of a collection item without a layout. *)
Lemma render_collection_item_without_layout (cfg : config)
  (env : environment) (rendered : list PageInfo.t)
  (collection_name output : string) (item : Item.t) (layout : option value) :
  collection_output cfg collection_name = Ok output ->
  py_get "layout" (Item.front_matter item) = Ok layout ->
  truthy_opt layout = false ->
  render_collection_item fs cfg env collection_name item rendered
  = ([Hook "before_render_page" [("page_path", Item.path item)];
      Log WARNING
        "Collection item '%s' has no 'layout' specified in front matter. Skipping."
        [Item.path item]],
     Ok rendered).
Proof.
  intros Hout Hlayout Hfalsy.
  unfold render_collection_item. rewrite Hout.
  cbn [lift mbind run_hook emit app]. rewrite Hlayout.
  cbn [lift mbind app]. rewrite Hfalsy. reflexivity.
Qed.

(** The trace of a collection item whose layout cannot be loaded. *)
Lemma render_collection_item_on_load_failure (cfg : config)
  (env : environment) (rendered : list PageInfo.t)
  (collection_name output : string) (item : Item.t) (layout : value)
  (loaded : page_data * list string) (ev_ld : list event) (e : exn) :
  collection_output cfg collection_name = Ok output ->
  py_get "layout" (Item.front_matter item) = Ok (Some layout) ->
  truthy layout = true ->
  load_page_data fs cfg (Item.front_matter item) = (ev_ld, Ok loaded) ->
  get_template env layout = Raise e ->
  render_collection_item fs cfg env collection_name item rendered
  = ((Hook "before_render_page" [("page_path", Item.path item)]
      :: ev_ld
      ++ [Log ERROR
            "Error loading layout template '%s' for collection item '%s': %s. Skipping item."
            [Item.path item]])%list,
     Ok rendered).
Proof.
  intros Hout Hlayout Htruthy Hld Hload.
  unfold render_collection_item. rewrite Hout.
  cbn [lift mbind run_hook emit app]. rewrite Hlayout.
  cbn [lift mbind app truthy_opt]. rewrite Htruthy. cbn [negb].
  rewrite Hld. cbn [mbind]. rewrite Hload.
  cbn [mbind log emit ret app]. rewrite ?app_nil_r. reflexivity.
Qed.

(** The trace of a page that renders and can be written: the file is
    written, the record is appended, and the hook [after_render_page] closes
    the trace. *)
Lemma render_page_on_success (cfg : config) (env : environment)
  (rendered : list PageInfo.t)
  (root page_file rel rel' full body output : string) (fm : value)
  (loaded : page_data * list string) (ev_fm ev_ld : list event) (t : template) :
  Str.endswith ".html" page_file = true ->
  Path.relpath (fs_cwd fs) (Path.join root page_file) (pages_dir cfg) = Ok rel ->
  FS.read fs (Path.join root page_file) = Ok full ->
  parse_front_matter full = (ev_fm, Ok (fm, body)) ->
  load_page_data fs cfg fm = (ev_ld, Ok loaded) ->
  from_string env body = Ok t ->
  render t (make_context cfg env fm loaded None rel) = Ok output ->
  write_file (Path.join (output_dir cfg) rel) output = Ok tt ->
  Path.relpath (fs_cwd fs) (Path.join (output_dir cfg) rel) (output_dir cfg)
    = Ok rel' ->
  render_page fs cfg env (root, page_file) rendered
  = ((Hook "before_render_page" [("page_path", Path.join root page_file)]
      :: ev_fm ++ ev_ld
      ++ [Write (Path.join (output_dir cfg) rel) output;
          Log INFO "Rendered: %s -> %s"
            [Path.join root page_file; Path.join (output_dir cfg) rel];
          Hook "after_render_page"
            [("page_path", Path.join root page_file);
             ("output_path", Path.join (output_dir cfg) rel)]])%list,
     Ok (rendered
         ++ [{| PageInfo.source_path := Path.join root page_file;
                PageInfo.output_path := Path.join (output_dir cfg) rel;
                PageInfo.url := url rel' cfg;
                PageInfo.front_matter := fm;
                PageInfo.content := body |}])%list).
Proof.
  intros Hext Hrel Hread Hfm Hld Hcomp Hrender Hwrite Hout.
  unfold render_page. rewrite Hext, Hrel.
  cbn [lift mbind run_hook emit app].
  rewrite Hread. cbn [lift mbind app]. rewrite Hfm. cbn [mbind].
  rewrite Hld. cbn [mbind]. rewrite Hcomp.
  unfold _render_and_save_output. rewrite Hrender, Hwrite.
  cbn [mbind lift log emit ret app]. rewrite Hout.
  cbn [mbind run_hook emit ret app]. reflexivity.
Qed.

(** C8: an item whose template raises when it is rendered.  The error is
    logged with the source and the output path; the trace of the item has no
    written file; the list of rendered pages is returned as it was; and the
    loop goes on with the remaining items from that same list.  This holds
    for a page and for a collection item. *)
Theorem render_failure_skips_item (cfg : config) (env : environment)
  (rendered : list PageInfo.t) :
  (forall (root page_file rel full body : string) (fm : value)
          (loaded : page_data * list string) (ev_fm ev_ld : list event)
          (t : template) (e : exn) (rest : list (string * string)),
      Str.endswith ".html" page_file = true ->
      Path.relpath (fs_cwd fs) (Path.join root page_file) (pages_dir cfg)
        = Ok rel ->
      FS.read fs (Path.join root page_file) = Ok full ->
      parse_front_matter full = (ev_fm, Ok (fm, body)) ->
      load_page_data fs cfg fm = (ev_ld, Ok loaded) ->
      from_string env body = Ok t ->
      render t (make_context cfg env fm loaded None rel) = Raise e ->
      exists events,
        render_page fs cfg env (root, page_file) rendered
          = (events, Ok rendered)
        /\ In (Log ERROR "Error rendering template from '%s' to '%s': %s"
                 [Path.join root page_file; Path.join (output_dir cfg) rel])
              events
        /\ forallb (fun ev => negb (is_write ev)) events = true
        /\ for_each ((root, page_file) :: rest) (render_page fs cfg env)
             rendered
           = ((events
               ++ fst (for_each rest (render_page fs cfg env) rendered))%list,
              snd (for_each rest (render_page fs cfg env) rendered)))
  /\ (forall (collection_name output : string) (item : Item.t)
             (layout : value) (loaded : page_data * list string)
             (ev_ld : list event) (t : template) (e : exn)
             (rest : list Item.t),
         collection_output cfg collection_name = Ok output ->
         py_get "layout" (Item.front_matter item) = Ok (Some layout) ->
         truthy layout = true ->
         load_page_data fs cfg (Item.front_matter item) = (ev_ld, Ok loaded) ->
         get_template env layout = Ok t ->
         render t (make_context cfg env (Item.front_matter item) loaded
                     (Some (Item.content item))
                     (Path.join output (Path.basename (Item.path item))))
           = Raise e ->
         exists events,
           render_collection_item fs cfg env collection_name item rendered
             = (events, Ok rendered)
           /\ In (Log ERROR "Error rendering template from '%s' to '%s': %s"
                    [Item.path item;
                     Path.join (output_dir cfg)
                       (Path.join output (Path.basename (Item.path item)))])
                 events
           /\ forallb (fun ev => negb (is_write ev)) events = true
           /\ for_each (item :: rest)
                (render_collection_item fs cfg env collection_name) rendered
              = ((events
                  ++ fst (for_each rest
                            (render_collection_item fs cfg env collection_name)
                            rendered))%list,
                 snd (for_each rest
                        (render_collection_item fs cfg env collection_name)
                        rendered))).
Proof.
  split.
  - intros root page_file rel full body fm loaded ev_fm ev_ld t e rest
      Hext Hrel Hread Hfm Hld Hcomp Hrender.
    pose proof (render_page_on_failure cfg env rendered _ _ _ _ _ _ _ _ _ _ _
                  Hext Hrel Hread Hfm Hld Hcomp Hrender) as Hrun.
    eexists. split; [exact Hrun|]. split; [|split].
    + right. apply in_or_app. right. apply in_or_app. right. left. reflexivity.
    + pose proof (parse_front_matter_only_logs full) as L1.
      pose proof (load_page_data_only_logs cfg fm) as L2.
      unfold only_logs in L1, L2. rewrite Hfm in L1. rewrite Hld in L2.
      simpl in L1, L2. cbn [forallb is_write negb andb].
      rewrite !forallb_app, (logs_are_not_writes _ L1),
        (logs_are_not_writes _ L2). reflexivity.
    + apply for_each_cons_unchanged. exact Hrun.
  - intros collection_name output item layout loaded ev_ld t e rest
      Hout Hlayout Htruthy Hld Hload Hrender.
    pose proof (render_collection_item_on_failure cfg env rendered _ _ _ _ _ _
                  _ _ Hout Hlayout Htruthy Hld Hload Hrender) as Hrun.
    eexists. split; [exact Hrun|]. split; [|split].
    + right. apply in_or_app. right. left. reflexivity.
    + pose proof (load_page_data_only_logs cfg (Item.front_matter item)) as L2.
      unfold only_logs in L2. rewrite Hld in L2.
      simpl in L2. cbn [forallb is_write negb andb].
      rewrite !forallb_app, (logs_are_not_writes _ L2). reflexivity.
    + apply for_each_cons_unchanged. exact Hrun.
Qed.

End BuildProperties.

(** Witness of C8: on the sample site, the page [boom.html] and the post
    [zero.html], whose layout is [zero.html], raise when they are rendered. *)
Lemma render_failure_skips_item_witness :
  (exists events,
      render_page (py := plain_json) (jinja := plain_engine sample_fs)
                                     (disk := willing_disk)
        sample_fs sample_config sample_env ("pages", "boom.html") []
      = (events, Ok [])
      /\ forallb (fun ev => negb (is_write ev)) events = true)
  /\ (exists events,
         render_collection_item (py := plain_json)
           (jinja := plain_engine sample_fs)
           (disk := willing_disk) sample_fs sample_config
           sample_env "posts"
           {| Item.path := "posts/zero.html";
              Item.relative_path := "zero.html";
              Item.output_path_relative := "blog/zero.html";
              Item.front_matter := VDict [("layout", VStr "zero.html")];
              Item.content := "Z";
              Item.url := "/blog/zero.html" |} []
         = (events, Ok [])
         /\ forallb (fun ev => negb (is_write ev)) events = true).
Proof.
  split.
  - destruct (proj1 (render_failure_skips_item (py := plain_json)
                       (jinja := plain_engine sample_fs)
                       (disk := willing_disk) sample_fs
                       sample_config sample_env [])
                "pages" "boom.html" "boom.html" "{{ 1/0 }}" "{{ 1/0 }}"
                (VDict []) (Merged [], []) [] [] "{{ 1/0 }}" TemplateError []
                eq_refl eq_refl eq_refl eq_refl eq_refl eq_refl eq_refl)
      as [events [Hrun [_ [Hwrite _]]]].
    exists events. split; [exact Hrun|exact Hwrite].
  - destruct (proj2 (render_failure_skips_item (py := plain_json)
                       (jinja := plain_engine sample_fs)
                       (disk := willing_disk) sample_fs
                       sample_config sample_env [])
                "posts" "blog"
                {| Item.path := "posts/zero.html";
                   Item.relative_path := "zero.html";
                   Item.output_path_relative := "blog/zero.html";
                   Item.front_matter := VDict [("layout", VStr "zero.html")];
                   Item.content := "Z";
                   Item.url := "/blog/zero.html" |}
                (VStr "zero.html") (Merged [], []) [] "{{ 1/0 }}"
                TemplateError []
                eq_refl eq_refl eq_refl eq_refl eq_refl eq_refl)
      as [events [Hrun [_ [Hwrite _]]]].
    exists events. split; [exact Hrun|exact Hwrite].
Defined.

(** C5 on the sample site: the hooks fired while the pages and the posts
    are rendered, each with its page.  [after_render_page] follows
    [before_render_page] for the items that are rendered ([index.html],
    [a.html], [b.html]) and for those whose template raises when rendered
    ([boom.html], [zero.html]).  It is not fired for the page that does not
    compile ([broken.html]), for the post without a layout ([bare.html]) nor
    for the post whose layout cannot be loaded ([lost.html]).  The run is
    one on a disk that takes every file. *)
Theorem after_hook_skipped_with_item :
  hooks_of
    (fst (render_all_content (py := plain_json)
            (jinja := plain_engine sample_fs)
            (disk := willing_disk) sample_fs sample_config
            (VDict []) sample_collections))
  = [("before_render_page", "pages/index.html");
     ("after_render_page", "pages/index.html");
     ("before_render_page", "pages/broken.html");
     ("before_render_page", "pages/boom.html");
     ("after_render_page", "pages/boom.html");
     ("before_render_page", "posts/a.html");
     ("after_render_page", "posts/a.html");
     ("before_render_page", "posts/bare.html");
     ("before_render_page", "posts/lost.html");
     ("before_render_page", "posts/zero.html");
     ("after_render_page", "posts/zero.html");
     ("before_render_page", "posts/2024/b.html");
     ("after_render_page", "posts/2024/b.html")].
Proof. vm_compute. reflexivity. Qed.

(** ** build_core.py: the feed *)

Lemma mbind_ok {A B} (m : M A) (k : A -> M B) (events : list event) (b : B) :
  mbind m k = (events, Ok b) ->
  exists l1 a l2,
    m = (l1, Ok a) /\ k a = (l2, Ok b) /\ events = (l1 ++ l2)%list.
Proof.
  destruct m as [l1 [a|e]]; simpl; [|discriminate].
  destruct (k a) as [l2 r] eqn:E. intros H. injection H as <- ->.
  exists l1, a, l2. auto.
Qed.

Lemma lift_ok {A} (r : result A) (events : list event) (a : A) :
  lift r = (events, Ok a) -> r = Ok a /\ events = [].
Proof. unfold lift. intros H. injection H as <- ->. auto. Qed.


Lemma Forall2_in_right {A B} (R : A -> B -> Prop) (l : list A) (r : list B)
  (b : B) :
  Forall2 R l r -> In b r -> exists a, R a b /\ In a l.
Proof.
  induction 1 as [|a b' l r Hab _ IH]; intros Hin; [destruct Hin|].
  destruct Hin as [->|Hin].
  - exists a. split; [exact Hab|left; reflexivity].
  - destruct (IH Hin) as (a' & Ha' & Hl). exists a'. split; [|right]; auto.
Qed.

Lemma in_firstn {A} (n : nat) (l : list A) (x : A) :
  In x (firstn n l) -> In x l.
Proof.
  intros H. rewrite <- (firstn_skipn n l). apply in_or_app. left. exact H.
Qed.

Lemma dict_get_set_other (k k' : string) (v : value) (d : dict) :
  k <> k' -> dict_get k (dict_set k' v d) = dict_get k d.
Proof.
  intros Hne. induction d as [|[k0 v0] d IH]; simpl.
  - destruct (String.eqb_spec k k'); [contradiction|reflexivity].
  - destruct (String.eqb_spec k' k0) as [->|Hk0]; simpl.
    + destruct (String.eqb_spec k k0); [contradiction|reflexivity].
    + destruct (String.eqb_spec k k0); [reflexivity|exact IH].
Qed.

Lemma dict_get_set_same (k : string) (v : value) (d : dict) :
  dict_get k (dict_set k v d) = Some v.
Proof.
  induction d as [|[k0 v0] d IH]; simpl.
  - rewrite String.eqb_refl. reflexivity.
  - destruct (String.eqb_spec k k0) as [->|Hk0]; simpl.
    + rewrite String.eqb_refl. reflexivity.
    + destruct (String.eqb_spec k k0); [contradiction|exact IH].
Qed.

Lemma same_post_refl (p : Item.t) (fm : dict) :
  Item.front_matter p = VDict fm -> same_post p p.
Proof. intros H. repeat split. exists fm, fm. auto. Qed.

Lemma same_post_set_date_obj (p : Item.t) (fm : dict) (d : datetime) :
  Item.front_matter p = VDict fm -> same_post p (set_date_obj p d).
Proof.
  intros H. unfold set_date_obj. rewrite H. repeat split; simpl.
  exists fm, (dict_set "_date_obj" (VDate d) fm). repeat split; auto.
  intros k Hk. apply dict_get_set_other. exact Hk.
Qed.

Lemma stamp_date_ok (p p' : Item.t) (events : list event) :
  stamp_date p = (events, Ok p') -> same_post p p'.
Proof.
  unfold stamp_date. intros H.
  apply mbind_ok in H as (l1 & date_str & l2 & Hget & H & _).
  apply lift_ok in Hget as [Hget _]. unfold py_get in Hget.
  destruct (Item.front_matter p) as [| | | | | |fm|] eqn:Hfm; try discriminate.
  destruct date_str as [[| | | |s| | |]|];
    try (injection H as _ <-; eapply same_post_refl; eauto; fail).
  destruct (String.eqb s "").
  - injection H as _ <-. eapply same_post_refl; eauto.
  - destruct (Datetime.strptime s) as [d|e].
    + injection H as _ <-. eapply same_post_set_date_obj; eauto.
    + cbn in H. injection H as _ <-. eapply same_post_set_date_obj; eauto.
Qed.











(** *** Sorting by date *)

Ltac order_dates :=
  unfold Datetime.ltb, date_eqb in *;
  repeat match goal with
         | d : datetime |- _ => destruct d
         end;
  cbn [dt_year dt_month dt_day] in *;
  repeat match goal with
         | H : context [Z.ltb ?a ?b] |- _ => destruct (Z.ltb_spec a b)
         | H : context [Z.eqb ?a ?b] |- _ => destruct (Z.eqb_spec a b)
         | |- context [Z.ltb ?a ?b] => destruct (Z.ltb_spec a b)
         | |- context [Z.eqb ?a ?b] => destruct (Z.eqb_spec a b)
         end;
  cbn [andb orb] in *; try reflexivity; try discriminate; try lia.

Lemma date_not_lt_trans (a b c : datetime) :
  Datetime.ltb a b = false -> Datetime.ltb b c = false ->
  Datetime.ltb a c = false.
Proof. intros H1 H2. order_dates. Qed.

Lemma date_lt_not_lt (a b : datetime) :
  Datetime.ltb a b = true -> Datetime.ltb b a = false.
Proof. intros H. order_dates. Qed.

Lemma date_lt_differ (a b d : datetime) :
  Datetime.ltb a b = true -> date_eqb a d = true -> date_eqb b d = false.
Proof. intros H1 H2. order_dates. Qed.

Lemma date_lt_differ' (a b d : datetime) :
  Datetime.ltb a b = true -> date_eqb b d = true -> date_eqb a d = false.
Proof. intros H1 H2. order_dates. Qed.

Section NewestFirstProperties.
Context {A : Type}.
Variable date : A -> datetime.

Lemma insert_newest_first_perm (x : A) (l : list A) :
  Permutation (x :: l) (insert_newest_first date x l).
Proof.
  induction l as [|y l IH]; simpl; [reflexivity|].
  destruct (Datetime.ltb (date x) (date y)); [|reflexivity].
  rewrite perm_swap. constructor. exact IH.
Qed.

Lemma sort_newest_first_perm (l : list A) :
  Permutation l (sort_newest_first date l).
Proof.
  induction l as [|x l IH]; simpl; [constructor|].
  rewrite <- insert_newest_first_perm. constructor. exact IH.
Qed.

Lemma insert_newest_first_sorted (x : A) (l : list A) :
  StronglySorted (not_older date) l ->
  StronglySorted (not_older date) (insert_newest_first date x l).
Proof.
  induction 1 as [|y l Hl IH Hy]; simpl.
  - constructor; constructor.
  - destruct (Datetime.ltb (date x) (date y)) eqn:E.
    + constructor; [exact IH|].
      apply Forall_forall. intros z Hz.
      apply (Permutation_in _ (Permutation_sym (insert_newest_first_perm x l)))
        in Hz.
      destruct Hz as [<-|Hz].
      * apply date_lt_not_lt. exact E.
      * rewrite Forall_forall in Hy. apply Hy. exact Hz.
    + constructor; [constructor; assumption|].
      constructor; [exact E|].
      apply Forall_forall. intros z Hz. rewrite Forall_forall in Hy.
      eapply date_not_lt_trans; [exact E|apply Hy, Hz].
Qed.

Lemma sort_newest_first_sorted (l : list A) :
  StronglySorted (not_older date) (sort_newest_first date l).
Proof.
  induction l as [|x l IH]; simpl; [constructor|].
  apply insert_newest_first_sorted. exact IH.
Qed.

(** Stability: the elements of one date keep their order. *)
Lemma insert_newest_first_stable (d : datetime) (x : A) (l : list A) :
  filter (fun a => date_eqb (date a) d) (insert_newest_first date x l)
  = filter (fun a => date_eqb (date a) d) (x :: l).
Proof.
  induction l as [|y l IH]; [reflexivity|].
  cbn [insert_newest_first].
  destruct (Datetime.ltb (date x) (date y)) eqn:E; [|reflexivity].
  cbn [filter] in *.
  destruct (date_eqb (date y) d) eqn:Ey.
  - rewrite (date_lt_differ' _ _ _ E Ey) in *. rewrite IH. reflexivity.
  - rewrite IH. reflexivity.
Qed.

Lemma sort_newest_first_stable (d : datetime) (l : list A) :
  filter (fun a => date_eqb (date a) d) (sort_newest_first date l)
  = filter (fun a => date_eqb (date a) d) l.
Proof.
  induction l as [|x l IH]; [reflexivity|].
  cbn [sort_newest_first]. rewrite insert_newest_first_stable.
  cbn [filter]. rewrite IH. reflexivity.
Qed.

(** On keys that are dates, [sorted] with [reverse=True] is that sort. *)
Variable key : A -> value.

Lemma insert_desc_on_dates (x : A) (l : list A) :
  key x = VDate (date x) ->
  Forall (fun a => key a = VDate (date a)) l ->
  insert_desc key x l = Ok (insert_newest_first date x l).
Proof.
  intros Hx Hl. induction Hl as [|y l Hy Hl IH]; [reflexivity|].
  cbn [insert_desc insert_newest_first]. rewrite Hx, Hy. cbn [key_lt bind].
  destruct (Datetime.ltb (date x) (date y)); [|reflexivity].
  rewrite IH. reflexivity.
Qed.

Lemma sorted_desc_on_dates (l : list A) :
  Forall (fun a => key a = VDate (date a)) l ->
  sorted_desc key l = Ok (sort_newest_first date l).
Proof.
  induction 1 as [|x l Hx Hl IH]; [reflexivity|].
  cbn [sorted_desc sort_newest_first]. rewrite IH. cbn [bind].
  apply insert_desc_on_dates; [exact Hx|].
  apply Forall_forall. intros a Ha. rewrite Forall_forall in Hl. apply Hl.
  apply (Permutation_in _ (Permutation_sym (sort_newest_first_perm l))).
  exact Ha.
Qed.

End NewestFirstProperties.

(** Sorting two lists whose elements correspond, with the same dates. *)
Lemma sort_newest_first_related {A B} (R : A -> B -> Prop)
  (date : A -> datetime) (date' : B -> datetime) (l : list A) (l' : list B) :
  Forall2 (fun a b => R a b /\ date a = date' b) l l' ->
  Forall2 (fun a b => R a b /\ date a = date' b)
    (sort_newest_first date l) (sort_newest_first date' l').
Proof.
  induction 1 as [|a b l l' [Hab Hd] _ IH]; [constructor|].
  cbn [sort_newest_first].
  induction IH as [|y y' s s' [Hy Hyd] Hs IHs]; cbn [insert_newest_first].
  - constructor; [auto|constructor].
  - rewrite Hd, Hyd. destruct (Datetime.ltb (date' b) (date' y')).
    + constructor; [auto|exact IHs].
    + constructor; [auto|]. constructor; [auto|assumption].
Qed.

(** *** The loops of the feed *)

Lemma mbind_run {A B} (m : M A) (k : A -> M B) (l1 l2 : list event) (a : A)
  (r : result B) :
  m = (l1, Ok a) -> k a = (l2, r) -> mbind m k = ((l1 ++ l2)%list, r).
Proof. intros -> H. cbn [mbind]. rewrite H. reflexivity. Qed.

Lemma map_m_returns {A B} (f : A -> M B) (P : A -> B -> Prop) (l : list A) :
  Forall (fun a => exists ev b, f a = (ev, Ok b) /\ P a b) l ->
  exists ev r, map_m f l = (ev, Ok r) /\ Forall2 P l r.
Proof.
  induction 1 as [|a l (ev & b & Hf & HP) _ (ev' & r & Hm & HF)].
  - exists [], []. split; [reflexivity|constructor].
  - exists (ev ++ ev' ++ [])%list, (b :: r). split; [|constructor; auto].
    cbn [map_m]. eapply mbind_run; [exact Hf|].
    eapply mbind_run; [exact Hm|reflexivity].
Qed.

Lemma stamp_date_returns (p : Item.t) (fm : dict) :
  Item.front_matter p = VDict fm ->
  exists ev, stamp_date p = (ev, Ok (stamped p)).
Proof.
  intros Hfm. unfold stamp_date, stamped. rewrite Hfm. cbn [py_get lift mbind].
  destruct (dict_get "date" fm) as [[| | | |s| | |]|]; try (eexists; reflexivity).
  destruct (String.eqb s ""); [eexists; reflexivity|].
  destruct (Datetime.strptime s); eexists; reflexivity.
Qed.

Lemma stamped_front_matter (p : Item.t) (fm : dict) :
  Item.front_matter p = VDict fm ->
  Item.url (stamped p) = Item.url p
  /\ Item.content (stamped p) = Item.content p
  /\ exists fm',
       Item.front_matter (stamped p) = VDict fm'
       /\ forall k, k <> "_date_obj" -> dict_get k fm' = dict_get k fm.
Proof.
  intros Hfm. destruct (stamp_date_returns p fm Hfm) as [ev Hev].
  apply stamp_date_ok in Hev as (Hu & Hc & fm0 & fm' & H0 & H' & Hk).
  rewrite Hfm in H0. injection H0 as <-. eauto.
Qed.

(** The sort key of a stamped post is its date, when the front matter did
    not bring a key [_date_obj] of its own. *)
Lemma stamped_sort_key (p : Item.t) (fm : dict) :
  Item.front_matter p = VDict fm ->
  dict_get "_date_obj" fm = None ->
  sort_key (stamped p) = VDate (post_date p).
Proof.
  intros Hfm Hnone. unfold stamped, post_date. rewrite Hfm.
  assert (Hp : sort_key p = VDate Datetime.min).
  { unfold sort_key. rewrite Hfm, Hnone. reflexivity. }
  assert (Hset : forall d, sort_key (set_date_obj p d) = VDate d).
  { intros d. unfold set_date_obj. rewrite Hfm. unfold sort_key.
    cbn [Item.front_matter set_front_matter].
    rewrite dict_get_set_same. reflexivity. }
  destruct (dict_get "date" fm) as [[| | | |s| | |]|]; try exact Hp.
  destruct (String.eqb_spec s "") as [->|Hs]; [exact Hp|].
  destruct (Datetime.strptime s); apply Hset.
Qed.

Lemma rss_entry_returns (p : Item.t) (fm : dict) :
  Item.front_matter p = VDict fm ->
  exists ev it,
    rss_entry p = (ev, Ok it)
    /\ rss_link it = Item.url p
    /\ rss_title it = match dict_get "title" fm with
                      | Some v => v
                      | None => VStr "No Title"
                      end
    /\ rss_description it = expected_description fm (Item.content p).
Proof.
  intros Hfm. unfold rss_entry, description_of, expected_description.
  rewrite Hfm. cbn [py_get lift mbind bind].
  destruct (dict_get "_date_obj" fm) as [[| | | | | | |d]|];
    destruct (dict_get "description" fm);
    eexists; eexists; (split; [reflexivity|]); repeat split.
Qed.

Lemma Forall2_eq_map {A B} (f : A -> B) (l : list A) (l' : list B) :
  Forall2 (fun a b => b = f a) l l' -> l' = map f l.
Proof. induction 1; simpl; congruence. Qed.

Lemma Forall2_length_eq {A B} (R : A -> B -> Prop) (l : list A) (l' : list B) :
  Forall2 R l l' -> List.length l = List.length l'.
Proof. induction 1; simpl; congruence. Qed.


Example rss_descriptions_example :
  match snd (generate_rss_feed (xml := willing_xml) sample_config
               dated_posts) with
  | Ok (Some f) => map rss_description (feed_items f)
  | _ => []
  end = [VStr "Spring"; VStr "January"; VStr "Some day"].
Proof. reflexivity. Qed.

(** A body of 201 characters is cut to 200 and followed by an ellipsis. *)
Example rss_long_body_example :
  expected_description []
    (String.concat "" (repeat "0123456789" 20) ++ "!")
  = VStr (String.concat "" (repeat "0123456789" 20) ++ "...").
Proof. reflexivity. Qed.

(** The order of the feed on two dated posts and one whose date cannot be
    parsed: the later date, the earlier date, the unparseable one. *)
Example feed_order_example :
  feed_links
    (generate_rss_feed (xml := willing_xml) sample_config dated_posts)
  = Some ["/blog/mar.html"; "/blog/jan.html"; "/blog/soon.html"].
Proof. reflexivity. Qed.

(** Eleven posts with distinct dates give ten entries, the newest first. *)
Example feed_of_eleven_posts_example :
  feed_links
    (generate_rss_feed (xml := willing_xml) sample_config eleven_posts)
  = Some ["/blog/11.html"; "/blog/10.html"; "/blog/09.html"; "/blog/08.html";
          "/blog/07.html"; "/blog/06.html"; "/blog/05.html"; "/blog/04.html";
          "/blog/03.html"; "/blog/02.html"].
Proof. vm_compute. reflexivity. Qed.

(** C4 on two posts that have no [date] but bring a key [_date_obj] in
    their front matter.  Both dates are missing, so both posts stand at the
    oldest date and the discovery order [a], [b] is to be kept; the feed has
    [b] before [a], because the posts are sorted by the texts found under
    [_date_obj].  The feed is the one written where [feed.xml] can be
    written. *)
Theorem feed_sorted_by_foreign_date_obj :
  feed_links
    (generate_rss_feed (xml := willing_xml) sample_config keyed_posts)
  = Some ["/blog/b.html"; "/blog/a.html"]
  /\ map post_date (posts_of keyed_posts) = [Datetime.min; Datetime.min]
  /\ map Item.url
       (firstn 10 (sort_newest_first post_date (posts_of keyed_posts)))
     = ["/blog/a.html"; "/blog/b.html"].
Proof. repeat split. Qed.

(** ** Paths *)

Lemma cut_slash_cons (a : ascii) (s : string) :
  Str.cut "/" (String a s)
  = if Ascii.eqb a "/" then Some (EmptyString, s)
    else match Str.cut "/" s with
         | Some (l, r) => Some (String a l, r)
         | None => None
         end.
Proof.
  cbn [Str.cut Str.after_prefix]. rewrite (Ascii.eqb_sym "/" a).
  destruct (Ascii.eqb a "/"); reflexivity.
Qed.

Lemma cut_slash_nil : Str.cut "/" "" = None.
Proof. reflexivity. Qed.

Lemma no_slash_cons (a : ascii) (s : string) :
  no_slash (String a s) <-> Ascii.eqb a "/" = false /\ no_slash s.
Proof.
  unfold no_slash. rewrite cut_slash_cons.
  destruct (Ascii.eqb a "/"); [split; [discriminate|intros [? _]; discriminate]|].
  destruct (Str.cut "/" s) as [[l r]|]; split; try discriminate; auto.
  intros [_ H]. discriminate.
Qed.

Lemma no_slash_nil : no_slash "".
Proof. reflexivity. Qed.

Lemma no_slash_app (a b : string) :
  no_slash a -> no_slash b -> no_slash (a ++ b).
Proof.
  induction a as [|c a IH]; intros Ha Hb; [exact Hb|].
  apply no_slash_cons in Ha as [Hc Ha]. simpl. apply no_slash_cons. auto.
Qed.

Lemma split_char_cut (s l r : string) :
  Str.cut "/" s = Some (l, r) ->
  split_char "/" s = l :: split_char "/" r.
Proof.
  revert l. induction s as [|a s IH]; intros l H; [discriminate|].
  rewrite cut_slash_cons in H. cbn [split_char].
  destruct (Ascii.eqb a "/").
  - injection H as <- <-. reflexivity.
  - destruct (Str.cut "/" s) as [[l' r']|]; [|discriminate].
    injection H as <- <-. rewrite (IH l' eq_refl). reflexivity.
Qed.

Lemma split_char_no_slash (s : string) :
  no_slash s -> split_char "/" s = [s].
Proof.
  induction s as [|a s IH]; intros H; [reflexivity|].
  apply no_slash_cons in H as [Ha Hs]. cbn [split_char].
  rewrite Ha, (IH Hs). reflexivity.
Qed.

Lemma cut_shorter (s l r : string) :
  Str.cut "/" s = Some (l, r) -> String.length r < String.length s.
Proof.
  revert l. induction s as [|a s IH]; intros l H; [discriminate|].
  rewrite cut_slash_cons in H. destruct (Ascii.eqb a "/").
  - injection H as <- <-. simpl. lia.
  - destruct (Str.cut "/" s) as [[l' r']|]; [|discriminate].
    injection H as <- <-. specialize (IH l' eq_refl). simpl. lia.
Qed.

Lemma split_max_split_char (n : nat) (s : string) :
  String.length s <= n -> Str.split_max "/" n s = split_char "/" s.
Proof.
  revert s. induction n as [|n IH]; intros s H.
  - destruct s; [reflexivity|simpl in H; lia].
  - cbn [Str.split_max]. destruct (Str.cut "/" s) as [[l r]|] eqn:E.
    + rewrite (split_char_cut _ _ _ E). f_equal. apply IH.
      apply cut_shorter in E. lia.
    + symmetry. apply split_char_no_slash. exact E.
Qed.

Lemma split_is_split_char (s : string) :
  Str.split "/" s = split_char "/" s.
Proof. apply split_max_split_char. lia. Qed.

Lemma split_char_not_nil (c : ascii) (s : string) : split_char c s <> [].
Proof.
  induction s as [|a s IH]; [discriminate|]. cbn [split_char].
  destruct (Ascii.eqb a c); [discriminate|].
  destruct (split_char c s); [contradiction|discriminate].
Qed.

Lemma split_char_app_slash (a b : string) :
  split_char "/" (a ++ "/" ++ b) = (split_char "/" a ++ split_char "/" b)%list.
Proof.
  induction a as [|c a IH]; [reflexivity|].
  change (String c a ++ "/" ++ b) with (String c (a ++ "/" ++ b)).
  cbn [split_char]. rewrite IH. destruct (Ascii.eqb c "/"); [reflexivity|].
  destruct (split_char "/" a) eqn:E; [|reflexivity].
  exfalso. exact (split_char_not_nil _ _ E).
Qed.

(** The parts of a path: its components that are not empty. *)
Lemma parts_split_char (s : string) :
  Path.parts s
  = filter (fun x => negb (String.eqb x "")) (split_char "/" s).
Proof. unfold Path.parts. rewrite split_is_split_char. reflexivity. Qed.

Lemma parts_app_slash (a b : string) :
  Path.parts (a ++ "/" ++ b) = (Path.parts a ++ Path.parts b)%list.
Proof.
  rewrite !parts_split_char, split_char_app_slash. apply filter_app.
Qed.

Lemma parts_nil : Path.parts "" = [].
Proof. reflexivity. Qed.

Lemma parts_plain_name (c : string) :
  c <> "" -> no_slash c -> Path.parts c = [c].
Proof.
  intros Hne Hc. rewrite parts_split_char, (split_char_no_slash _ Hc).
  cbn [filter]. destruct (String.eqb_spec c ""); [contradiction|reflexivity].
Qed.

Lemma app_empty_r (s : string) : s ++ "" = s.
Proof. induction s; simpl; congruence. Qed.

Lemma app_assoc_string (a b c : string) : (a ++ b) ++ c = a ++ b ++ c.
Proof. induction a; simpl; congruence. Qed.

Lemma endswith_slash_decompose (a : string) :
  Str.endswith "/" a = true -> exists a', a = a' ++ "/".
Proof.
  induction a as [|c a IH]; [discriminate|].
  cbn [Str.endswith]. intros H. apply orb_true_iff in H as [H|H].
  - apply String.eqb_eq in H. exists "". symmetry. exact H.
  - destruct (IH H) as [a' ->]. exists (String c a'). reflexivity.
Qed.

Lemma startswith_slash_app (a b : string) :
  a <> "" -> Str.startswith "/" (a ++ b) = Str.startswith "/" a.
Proof.
  destruct a as [|c a]; [contradiction|]. intros _.
  change (String c a ++ b) with (String c (a ++ b)).
  rewrite !startswith_slash_cons. reflexivity.
Qed.

Lemma parts_join (a b : string) :
  Str.startswith "/" b = false ->
  Path.parts (Path.join a b) = (Path.parts a ++ Path.parts b)%list.
Proof.
  intros Hb. unfold Path.join. rewrite Hb.
  destruct (String.eqb_spec a "") as [->|Ha]; [reflexivity|].
  cbn [orb]. destruct (Str.endswith "/" a) eqn:E.
  - destruct (endswith_slash_decompose _ E) as [a' ->].
    rewrite app_assoc_string, (parts_app_slash a' b).
    change (a' ++ "/") with (a' ++ "/" ++ "").
    rewrite (parts_app_slash a' ""), parts_nil, app_nil_r. reflexivity.
  - apply parts_app_slash.
Qed.


Lemma plain_name_solid (c : string) : plain_name c -> solid c.
Proof. intros (H1 & _ & _ & H4). split; assumption. Qed.

Lemma join_cons (x y : string) (l : list string) :
  Str.join "/" (x :: y :: l) = x ++ "/" ++ Str.join "/" (y :: l).
Proof. reflexivity. Qed.

Lemma parts_join_solid (l : list string) :
  Forall solid l -> Path.parts (Str.join "/" l) = l.
Proof.
  induction 1 as [|x l [Hx Hs] Hl IH]; [reflexivity|].
  destruct l as [|y l].
  - cbn [Str.join]. apply parts_plain_name; assumption.
  - rewrite join_cons, parts_app_slash, IH, (parts_plain_name x Hx Hs).
    reflexivity.
Qed.

Lemma split_char_join_no_slash (l : list string) :
  l <> [] -> Forall no_slash l -> split_char "/" (Str.join "/" l) = l.
Proof.
  intros Hne H. induction H as [|x l Hx Hl IH]; [contradiction|].
  destruct l as [|y l].
  - cbn [Str.join]. apply split_char_no_slash. exact Hx.
  - rewrite join_cons, split_char_app_slash, IH by discriminate.
    rewrite (split_char_no_slash x Hx). reflexivity.
Qed.

(** [Str.join "/"] is injective on lists of names. *)
Lemma join_no_slash_inj (l l' : list string) :
  l <> [] -> l' <> [] -> Forall no_slash l -> Forall no_slash l' ->
  Str.join "/" l = Str.join "/" l' -> l = l'.
Proof.
  intros Hl Hl' H H' E.
  rewrite <- (split_char_join_no_slash l Hl H),
          <- (split_char_join_no_slash l' Hl' H'), E.
  reflexivity.
Qed.

Lemma norm_comps_app (absolute : bool) (acc l1 l2 : list string) :
  Path.norm_comps absolute acc (l1 ++ l2)
  = Path.norm_comps absolute (rev (Path.norm_comps absolute acc l1)) l2.
Proof.
  revert acc. induction l1 as [|c l1 IH]; intros acc.
  - cbn [app Path.norm_comps]. rewrite rev_involutive. reflexivity.
  - cbn [app Path.norm_comps].
    destruct (String.eqb c "" || String.eqb c "."); [apply IH|].
    destruct (negb (String.eqb c "..")); [apply IH|].
    destruct acc as [|top acc']; [destruct absolute; apply IH|].
    destruct (String.eqb top ".."); apply IH.
Qed.

Lemma norm_comps_plain (absolute : bool) (acc l : list string) :
  Forall plain_name l ->
  Path.norm_comps absolute acc l = (rev acc ++ l)%list.
Proof.
  intros H. revert acc. induction H as [|c l (H1 & H2 & H3 & _) _ IH];
    intros acc.
  - cbn [Path.norm_comps]. rewrite app_nil_r. reflexivity.
  - cbn [Path.norm_comps].
    destruct (String.eqb_spec c ""); [contradiction|].
    destruct (String.eqb_spec c "."); [contradiction|].
    destruct (String.eqb_spec c ".."); [contradiction|].
    cbn [orb negb]. rewrite IH. cbn [rev]. rewrite <- app_assoc. reflexivity.
Qed.

Lemma norm_comps_app_plain (absolute : bool) (l1 l2 : list string) :
  Forall plain_name l2 ->
  Path.norm_comps absolute [] (l1 ++ l2)
  = (Path.norm_comps absolute [] l1 ++ l2)%list.
Proof.
  intros H. rewrite norm_comps_app, (norm_comps_plain _ _ _ H), rev_involutive.
  reflexivity.
Qed.

Lemma norm_comps_skip_empty (absolute : bool) (acc l : list string) :
  Path.norm_comps absolute acc l
  = Path.norm_comps absolute acc
      (filter (fun x => negb (String.eqb x "")) l).
Proof.
  revert acc. induction l as [|c l IH]; intros acc; [reflexivity|].
  cbn [filter]. destruct (String.eqb_spec c "") as [->|Hc]; cbn [negb].
  - cbn [Path.norm_comps String.eqb orb]. apply IH.
  - cbn [Path.norm_comps].
    destruct (String.eqb c "" || String.eqb c "."); [apply IH|].
    destruct (negb (String.eqb c "..")); [apply IH|].
    destruct acc as [|top acc']; [destruct absolute; apply IH|].
    destruct (String.eqb top ".."); apply IH.
Qed.

Lemma norm_comps_solid (absolute : bool) (acc l : list string) :
  Forall solid acc -> Forall no_slash l ->
  Forall solid (Path.norm_comps absolute acc l).
Proof.
  intros Hacc Hl. revert acc Hacc.
  induction Hl as [|c l Hc _ IH]; intros acc Hacc.
  - cbn [Path.norm_comps]. apply Forall_rev. exact Hacc.
  - cbn [Path.norm_comps].
    destruct (String.eqb_spec c "") as [->|Hne]; [apply IH, Hacc|].
    assert (Hs : solid c) by (split; assumption).
    destruct (String.eqb c "."); cbn [orb]; [apply IH, Hacc|].
    destruct (negb (String.eqb c "..")); [apply IH; constructor; assumption|].
    destruct acc as [|top acc'].
    + destruct absolute; apply IH; [constructor|constructor; [assumption|constructor]].
    + destruct (String.eqb top ".."); apply IH.
      * constructor; assumption.
      * inversion Hacc; assumption.
Qed.

Lemma split_char_no_slash_parts (s : string) :
  Forall no_slash (split_char "/" s).
Proof.
  induction s as [|a s IH]; [constructor; [reflexivity|constructor]|].
  cbn [split_char]. destruct (Ascii.eqb a "/") eqn:E.
  - constructor; [reflexivity|exact IH].
  - destruct (split_char "/" s) as [|x xs]; cbn [cons_head].
    + constructor; [|constructor]. apply no_slash_cons. split; [exact E|reflexivity].
    + inversion IH; subst. constructor; [|assumption].
      apply no_slash_cons. split; assumption.
Qed.

Lemma parts_no_slash (s : string) : Forall no_slash (Path.parts s).
Proof.
  rewrite parts_split_char. apply Forall_forall. intros x Hx.
  apply filter_In in Hx as [Hx _].
  pose proof (split_char_no_slash_parts s) as H. rewrite Forall_forall in H.
  apply H, Hx.
Qed.

(** The parts of a normalised absolute path. *)
Lemma parts_normpath_absolute (q : string) :
  Str.startswith "/" q = true ->
  Path.parts (Path.normpath q) = Path.norm_comps true [] (Path.parts q).
Proof.
  intros Habs. unfold Path.normpath.
  destruct (String.eqb_spec q "") as [->|Hq]; [discriminate|].
  rewrite Habs.
  rewrite split_is_split_char, norm_comps_skip_empty, <- parts_split_char.
  set (comps := Path.norm_comps true [] (Path.parts q)).
  assert (Hsolid : Forall solid comps).
  { apply norm_comps_solid; [constructor|apply parts_no_slash]. }
  destruct (Str.startswith "//" q && negb (Str.startswith "///" q)).
  - change ("//" ++ Str.join "/" comps)
      with ("" ++ "/" ++ ("" ++ "/" ++ Str.join "/" comps)).
    cbn [String.eqb append]. 
    change (String "/" (String "/" (Str.join "/" comps)))
      with ("" ++ "/" ++ ("" ++ "/" ++ Str.join "/" comps)).
    rewrite !parts_app_slash, parts_nil. cbn [app].
    apply parts_join_solid, Hsolid.
  - cbn [String.eqb append].
    change (String "/" (Str.join "/" comps))
      with ("" ++ "/" ++ Str.join "/" comps).
    rewrite parts_app_slash, parts_nil. cbn [app].
    apply parts_join_solid, Hsolid.
Qed.

Lemma join_startswith_slash (a b : string) :
  Str.startswith "/" a = true -> Str.startswith "/" (Path.join a b) = true.
Proof.
  intros Ha. unfold Path.join.
  destruct (Str.startswith "/" b) eqn:Hb; [exact Hb|].
  assert (Hne : a <> "") by (intros ->; discriminate).
  destruct (String.eqb a "" || Str.endswith "/" a);
    rewrite startswith_slash_app; assumption.
Qed.

Lemma anchored_absolute (cwd p : string) :
  Str.startswith "/" cwd = true -> Str.startswith "/" (anchored cwd p) = true.
Proof.
  intros H. unfold anchored, Path.isabs.
  destruct (Str.startswith "/" p) eqn:E; [exact E|].
  apply join_startswith_slash, H.
Qed.

Lemma parts_abspath (cwd p : string) :
  Str.startswith "/" cwd = true ->
  Path.parts (Path.abspath cwd p)
  = Path.norm_comps true [] (Path.parts (anchored cwd p)).
Proof.
  intros H. pose proof (anchored_absolute cwd p H) as Ha.
  unfold Path.abspath. unfold anchored in *.
  destruct (Path.isabs p); apply parts_normpath_absolute, Ha.
Qed.

Lemma drop_common_prefix (l c : list string) :
  Path.drop_common l (l ++ c) = ([], c).
Proof.
  induction l as [|x l IH]; [destruct c; reflexivity|].
  cbn [app Path.drop_common]. rewrite String.eqb_refl. exact IH.
Qed.

Lemma join_solid_not_empty (l : list string) :
  l <> [] -> Forall solid l -> Str.join "/" l <> "".
Proof.
  intros Hne H. destruct H as [|x l [Hx _] _]; [contradiction|].
  destruct l; cbn [Str.join]; [exact Hx|].
  destruct x; [contradiction|discriminate].
Qed.

Lemma no_slash_not_absolute (c : string) :
  no_slash c -> Str.startswith "/" c = false.
Proof.
  destruct c as [|a c]; [reflexivity|]. intros H.
  apply no_slash_cons in H as [H _]. rewrite startswith_slash_cons. exact H.
Qed.

Lemma join_solid_not_absolute (l : list string) :
  Forall solid l -> Str.startswith "/" (Str.join "/" l) = false.
Proof.
  intros H. destruct H as [|x l [Hx Hs] _]; [reflexivity|].
  destruct l; cbn [Str.join]; [apply no_slash_not_absolute, Hs|].
  rewrite startswith_slash_app by exact Hx. apply no_slash_not_absolute, Hs.
Qed.

Lemma join_not_empty (a b : string) : b <> "" -> Path.join a b <> "".
Proof.
  intros Hb. unfold Path.join.
  destruct (Str.startswith "/" b); [exact Hb|].
  destruct (String.eqb a "" || Str.endswith "/" a);
    destruct a; simpl; try discriminate; exact Hb.
Qed.

Lemma parts_anchored_join (cwd start rel : string) :
  Str.startswith "/" rel = false ->
  Path.parts (anchored cwd (Path.join start rel))
  = (Path.parts (anchored cwd start) ++ Path.parts rel)%list.
Proof.
  intros Hrel. unfold anchored, Path.isabs.
  destruct (Str.startswith "/" start) eqn:Hs.
  - rewrite (join_startswith_slash _ rel Hs). apply parts_join, Hrel.
  - assert (Hj : Str.startswith "/" (Path.join start rel) = false).
    { unfold Path.join. rewrite Hrel.
      destruct (String.eqb_spec start "") as [->|Hne]; [exact Hrel|].
      cbn [orb]. destruct (Str.endswith "/" start);
        rewrite startswith_slash_app; assumption. }
    rewrite Hj, !parts_join, app_assoc by assumption. reflexivity.
Qed.

(** [relpath] gives back a path of plain names that was joined to the
    start directory. *)
Lemma relpath_join (cwd start : string) (comps : list string) :
  Str.startswith "/" cwd = true ->
  comps <> [] -> Forall plain_name comps ->
  Path.relpath cwd (Path.join start (Str.join "/" comps)) start
  = Ok (Str.join "/" comps).
Proof.
  intros Hcwd Hne Hplain.
  assert (Hsolid : Forall solid comps).
  { eapply Forall_impl; [|exact Hplain]. apply plain_name_solid. }
  unfold Path.relpath.
  destruct (String.eqb_spec (Path.join start (Str.join "/" comps)) "") as [E|_].
  { exfalso. revert E. apply join_not_empty, join_solid_not_empty; assumption. }
  rewrite !parts_abspath by exact Hcwd.
  rewrite parts_anchored_join by (apply join_solid_not_absolute, Hsolid).
  rewrite parts_join_solid by exact Hsolid.
  rewrite norm_comps_app_plain by exact Hplain.
  rewrite drop_common_prefix. cbn [map app].
  destruct comps; [contradiction|reflexivity].
Qed.


Lemma join_relative (a b : string) :
  Str.startswith "/" b = false -> Path.join a b = join_prefix a ++ b.
Proof.
  intros Hb. unfold Path.join, join_prefix. rewrite Hb.
  destruct (String.eqb a "" || Str.endswith "/" a); [reflexivity|].
  symmetry. apply app_assoc_string.
Qed.

Lemma eqb_slash_cons (c : ascii) (s : string) :
  String.eqb "/" (String c s) = Ascii.eqb c "/" && String.eqb s "".
Proof.
  cbn [String.eqb]. rewrite (Ascii.eqb_sym "/" c).
  destruct (Ascii.eqb c "/"); [|reflexivity].
  destruct s; reflexivity.
Qed.

Lemma endswith_slash_app (x y : string) :
  y <> "" -> Str.endswith "/" (x ++ y) = Str.endswith "/" y.
Proof.
  intros Hy. induction x as [|c x IH]; [reflexivity|].
  change (String c x ++ y) with (String c (x ++ y)).
  cbn [Str.endswith]. rewrite IH, eqb_slash_cons.
  assert (H : String.eqb (x ++ y) "" = false).
  { destruct (String.eqb_spec (x ++ y) "") as [E|]; [|reflexivity].
    destruct x; [contradiction|discriminate]. }
  rewrite H, andb_false_r. reflexivity.
Qed.

Lemma no_slash_no_trailing_slash (c : string) :
  no_slash c -> Str.endswith "/" c = false.
Proof.
  induction c as [|a c IH]; [reflexivity|]. intros H.
  apply no_slash_cons in H as [Ha Hc]. cbn [Str.endswith].
  rewrite eqb_slash_cons, Ha, (IH Hc). reflexivity.
Qed.


Lemma solid_inner_path (c : string) : solid c -> inner_path c.
Proof.
  intros [Hne Hc]. repeat split; auto using no_slash_not_absolute,
    no_slash_no_trailing_slash.
Qed.

Lemma inner_path_extend (p c : string) :
  inner_path p -> solid c -> inner_path (p ++ "/" ++ c).
Proof.
  intros (Hne & Hs & He) [Hc Hn]. repeat split.
  - destruct p; [contradiction|discriminate].
  - rewrite startswith_slash_app; assumption.
  - rewrite endswith_slash_app by (destruct c; discriminate).
    change ("/" ++ c) with ("/" ++ c).
    rewrite (endswith_slash_app "/" c Hc).
    apply no_slash_no_trailing_slash, Hn.
Qed.

Lemma join_join (top p b : string) :
  inner_path p -> Str.startswith "/" b = false ->
  Path.join (Path.join top p) b = Path.join top (p ++ "/" ++ b).
Proof.
  intros (Hne & Hs & He) Hb.
  rewrite (join_relative top p Hs).
  rewrite (join_relative top (p ++ "/" ++ b))
    by (rewrite startswith_slash_app; assumption).
  unfold Path.join. rewrite Hb.
  rewrite (endswith_slash_app _ p Hne), He.
  destruct (String.eqb_spec (join_prefix top ++ p) "") as [E|_].
  - destruct (join_prefix top); [simpl in E; contradiction|discriminate].
  - cbn [orb]. apply app_assoc_string.
Qed.

Lemma join_inner_cons (p : string) (l : list string) :
  l <> [] -> Str.join "/" (p :: l) = p ++ "/" ++ Str.join "/" l.
Proof. destruct l; [contradiction|reflexivity]. Qed.

Lemma fold_left_join_from (top p : string) (l : list string) :
  inner_path p -> Forall solid l ->
  fold_left Path.join l (Path.join top p)
  = Path.join top (Str.join "/" (p :: l)).
Proof.
  intros Hp Hl. revert p Hp. induction Hl as [|x l Hx Hl IH]; intros p Hp.
  - reflexivity.
  - cbn [fold_left].
    rewrite (join_join top p x Hp)
      by (apply no_slash_not_absolute, Hx).
    rewrite IH by (apply inner_path_extend; assumption).
    f_equal. rewrite (join_inner_cons p (x :: l)) by discriminate.
    destruct l as [|y l]; [reflexivity|].
    rewrite (join_inner_cons (p ++ "/" ++ x)) by discriminate.
    rewrite (join_inner_cons x) by discriminate.
    rewrite !app_assoc_string. reflexivity.
Qed.

(** The directory reached from [top] through the directories [comps], as
    [os.walk] builds its name, is [top] joined with their path. *)
Lemma fold_left_join (top : string) (comps : list string) :
  comps <> [] -> Forall solid comps ->
  fold_left Path.join comps top = Path.join top (Str.join "/" comps).
Proof.
  intros Hne H. destruct H as [|x l Hx Hl]; [contradiction|].
  cbn [fold_left]. apply fold_left_join_from; [apply solid_inner_path, Hx|exact Hl].
Qed.

Lemma rcut_no_slash (f : string) :
  no_slash f -> Str.rcut Path.slash f = None.
Proof.
  induction f as [|a f IH]; [reflexivity|]. intros H.
  apply no_slash_cons in H as [Ha Hf]. cbn [Str.rcut].
  rewrite (IH Hf). unfold Path.slash. rewrite Ha. reflexivity.
Qed.

Lemma rcut_app_slash (x f : string) :
  no_slash f ->
  Str.rcut Path.slash (x ++ "/" ++ f) = Some (x, "/" ++ f).
Proof.
  intros Hf. induction x as [|c x IH].
  - change ("" ++ "/" ++ f) with (String "/" f). cbn [Str.rcut].
    rewrite (rcut_no_slash f Hf). reflexivity.
  - change (String c x ++ "/" ++ f) with (String c (x ++ "/" ++ f)).
    cbn [Str.rcut]. rewrite IH. reflexivity.
Qed.

Lemma basename_join (root f : string) :
  no_slash f -> Path.basename (Path.join root f) = f.
Proof.
  intros Hf. rewrite (join_relative root f (no_slash_not_absolute f Hf)).
  unfold join_prefix, Path.basename.
  destruct (String.eqb_spec root "") as [->|Hne].
  - cbn [orb append]. rewrite (rcut_no_slash f Hf). reflexivity.
  - cbn [orb]. destruct (Str.endswith "/" root) eqn:E.
    + destruct (endswith_slash_decompose _ E) as [r' ->].
      rewrite app_assoc_string, (rcut_app_slash r' f Hf). reflexivity.
    + rewrite app_assoc_string, (rcut_app_slash root f Hf). reflexivity.
Qed.

(** Joining two paths of plain names. *)
Lemma join_plain_paths (l1 l2 : list string) :
  l1 <> [] -> l2 <> [] -> Forall solid l1 -> Forall solid l2 ->
  Path.join (Str.join "/" l1) (Str.join "/" l2) = Str.join "/" (l1 ++ l2).
Proof.
  intros H1 H2 S1 S2.
  rewrite (join_relative _ _ (join_solid_not_absolute l2 S2)).
  unfold join_prefix.
  destruct (String.eqb_spec (Str.join "/" l1) "") as [E|_];
    [exfalso; revert E; apply join_solid_not_empty; assumption|].
  cbn [orb].
  assert (He : Str.endswith "/" (Str.join "/" l1) = false).
  { clear H2 S2. induction S1 as [|x l Hx Hl IH]; [contradiction|].
    destruct l as [|y l].
    - apply no_slash_no_trailing_slash, Hx.
    - rewrite join_cons.
      assert (Hy : Str.join "/" (y :: l) <> "")
        by (apply join_solid_not_empty; [discriminate|exact Hl]).
      rewrite endswith_slash_app by (destruct (Str.join "/" (y :: l)); [contradiction|discriminate]).
      change ("/" ++ Str.join "/" (y :: l)) with ("/" ++ Str.join "/" (y :: l)).
      rewrite (endswith_slash_app "/" _ Hy). apply IH. discriminate. }
  rewrite He. clear He.
  induction l1 as [|x l1 IH]; [contradiction|].
  destruct l1 as [|y l1].
  - cbn [app Str.join]. rewrite app_assoc_string.
    destruct l2; [contradiction|reflexivity].
  - change ((x :: y :: l1) ++ l2)%list with (x :: (y :: l1) ++ l2)%list.
    rewrite join_cons.
    rewrite (join_inner_cons x ((y :: l1) ++ l2)) by discriminate.
    rewrite <- IH; [|discriminate|inversion S1; assumption].
    rewrite !app_assoc_string. reflexivity.
Qed.

Lemma string_app_inv_head (a b c : string) : a ++ b = a ++ c -> b = c.
Proof. induction a as [|x a IH]; simpl; intros H; [exact H|]. injection H. auto. Qed.

Lemma lstrip_slash_relative (p : string) :
  Str.startswith "/" p = false -> Str.lstrip_slash p = p.
Proof.
  destruct p as [|c p]; [reflexivity|]. rewrite startswith_slash_cons.
  intros H. rewrite lstrip_slash_cons, H. reflexivity.
Qed.

(** [url] is injective on relative paths. *)
Lemma url_relative_inj (a b : string) (cfg : config) :
  Str.startswith "/" a = false -> Str.startswith "/" b = false ->
  url a cfg = url b cfg -> a = b.
Proof.
  intros Ha Hb. unfold url.
  rewrite (lstrip_slash_relative a Ha), (lstrip_slash_relative b Hb).
  destruct (use_absolute_urls cfg); intros H.
  - apply string_app_inv_head in H. apply (string_app_inv_head "/"). exact H.
  - apply (string_app_inv_head "/"). exact H.
Qed.

(** ** Walking a tree of plain names *)

Lemma plain_tree_dir (es : list (string * node)) :
  plain_tree (Dir es)
  <-> Forall (fun e => plain_name (fst e) /\ plain_tree (snd e)) es.
Proof.
  induction es as [|[name child] es IH].
  - split; constructor.
  - change (plain_tree (Dir ((name, child) :: es)))
      with (plain_name name /\ plain_tree child /\ plain_tree (Dir es)).
    split.
    + intros (H1 & H2 & H3). constructor; [split; assumption|apply IH, H3].
    + intros H. inversion H as [|? ? [H1 H2] H3]; subst.
      split; [exact H1|]. split; [exact H2|]. apply IH, H3.
Qed.

Lemma node_induction (P : node -> Prop) :
  (forall content, P (File content)) ->
  (forall es, Forall (fun e => P (snd e)) es -> P (Dir es)) ->
  forall n, P n.
Proof.
  intros HF HD.
  fix rec 1. intros [content|es]; [apply HF|].
  apply HD. induction es as [|[name child] es IH]; constructor.
  - apply rec.
  - exact IH.
Qed.

Lemma plain_files (es : list (string * node)) :
  Forall (fun e => plain_name (fst e) /\ plain_tree (snd e)) es ->
  Forall plain_name (FS.files es).
Proof.
  unfold FS.files. induction 1 as [|[name child] es [Hn _] _ IH]; [constructor|].
  cbn [filter snd]. destruct (negb (FS.is_dir child)); [|exact IH].
  cbn [map fst]. constructor; assumption.
Qed.

(** Every directory of a walk is the top one joined with a path of plain
    directory names, and lists plain file names. *)
Lemma walk_node_entries (n : node) :
  plain_tree n ->
  forall top root dirs files,
    In (root, dirs, files) (FS.walk_node top n) ->
    exists ds,
      Forall plain_name ds
      /\ root = fold_left Path.join ds top
      /\ Forall plain_name files.
Proof.
  induction n as [content|es IH] using node_induction;
    intros Hplain top root dirs files Hin; [destruct Hin|].
  apply plain_tree_dir in Hplain.
  cbn [FS.walk_node] in Hin. destruct Hin as [Hin|Hin].
  - injection Hin as <- _ <-. exists []. repeat split; [constructor|].
    apply plain_files, Hplain.
  - revert Hin.
    induction es as [|[name child] es IHes]; [intros []|].
    intros Hin. apply in_app_or in Hin as [Hin|Hin].
    + inversion IH as [|? ? Hchild _]; subst.
      inversion Hplain as [|? ? [Hname Hc] _]; subst.
      destruct (Hchild Hc _ _ _ _ Hin) as (ds & Hds & -> & Hfiles).
      exists (name :: ds). repeat split; [constructor; assumption|assumption].
    + inversion IH; subst. inversion Hplain; subst. apply IHes; assumption.
Qed.

Lemma walk_files_entries (fs : filesystem) (top root fname : string)
  (n : node) :
  FS.lookup fs top = Some n -> plain_tree n ->
  In (root, fname) (walk_files fs top) ->
  exists ds,
    Forall plain_name ds
    /\ root = fold_left Path.join ds top
    /\ plain_name fname.
Proof.
  intros Hlookup Hplain Hin. unfold walk_files, FS.walk in Hin.
  rewrite Hlookup in Hin. apply in_flat_map in Hin as ([[r dirs] files] & Hw & Hin).
  apply in_map_iff in Hin as (f & Heq & Hf). injection Heq as <- <-.
  destruct (walk_node_entries n Hplain _ _ _ _ Hw) as (ds & Hds & Hroot & Hfiles).
  exists ds. split; [exact Hds|]. split; [exact Hroot|].
  rewrite Forall_forall in Hfiles. apply Hfiles, Hf.
Qed.

(** The path of a file found by a walk, relative to the top directory. *)
Lemma walked_file_relpath (cwd top fname : string) (ds : list string) :
  Str.startswith "/" cwd = true ->
  Forall plain_name ds -> plain_name fname ->
  Path.join (fold_left Path.join ds top) fname
  = Path.join top (Str.join "/" (ds ++ [fname]))
  /\ Path.relpath cwd (Path.join (fold_left Path.join ds top) fname) top
     = Ok (Str.join "/" (ds ++ [fname])).
Proof.
  intros Hcwd Hds Hf.
  assert (Hall : Forall plain_name (ds ++ [fname])).
  { apply Forall_app. split; [exact Hds|constructor; [exact Hf|constructor]]. }
  assert (Hsolid : Forall solid (ds ++ [fname])).
  { eapply Forall_impl; [|exact Hall]. apply plain_name_solid. }
  assert (Hne : (ds ++ [fname])%list <> []) by (destruct ds; discriminate).
  assert (E : Path.join (fold_left Path.join ds top) fname
              = Path.join top (Str.join "/" (ds ++ [fname]))).
  { rewrite <- (fold_left_join top _ Hne Hsolid), fold_left_app. reflexivity. }
  split; [exact E|]. rewrite E. apply relpath_join; assumption.
Qed.

Lemma walked_root_is_top (top : string) (ds : list string) :
  Forall plain_name ds ->
  fold_left Path.join ds top = top <-> ds = [].
Proof.
  intros Hds. split; [|intros ->; reflexivity].
  destruct ds as [|d ds]; [reflexivity|]. intros E. exfalso.
  assert (Hsolid : Forall solid (d :: ds)).
  { eapply Forall_impl; [|exact Hds]. apply plain_name_solid. }
  rewrite fold_left_join in E by (discriminate || exact Hsolid).
  rewrite (join_relative _ _ (join_solid_not_absolute _ Hsolid)) in E.
  assert (Hx : Str.join "/" (d :: ds) <> "")
    by (apply join_solid_not_empty; [discriminate|exact Hsolid]).
  unfold join_prefix in E.
  destruct (String.eqb top "" || Str.endswith "/" top).
  - rewrite <- (app_empty_r top) in E at 2.
    apply string_app_inv_head in E. contradiction.
  - rewrite app_assoc_string in E. rewrite <- (app_empty_r top) in E at 2.
    apply string_app_inv_head in E. discriminate.
Qed.

(** ** The two URLs of a collection item *)

Section CollectionUrls.
Context {py : PyLib} {jinja : Jinja} {disk : Disk}.
Variable fs : filesystem.

(** What [load_collections] records for a file it reads. *)
Lemma load_collection_item_ok (cfg : config) (collection_name : string)
  (settings : collection_settings) (collection_path root file_name : string)
  (items items' : list Item.t) (events : list event) :
  Str.endswith ".html" file_name = true ->
  load_collection_item fs cfg collection_name settings collection_path
    (root, file_name) items = (events, Ok items') ->
  exists item rel,
    items' = (items ++ [item])%list
    /\ Path.relpath (fs_cwd fs) (Path.join root file_name) collection_path
       = Ok rel
    /\ Item.path item = Path.join root file_name
    /\ Item.relative_path item = rel
    /\ Item.url item
       = url (Path.join (match cs_output settings with
                         | Some o => o
                         | None => collection_name
                         end) rel) cfg.
Proof.
  intros Hext H. unfold load_collection_item in H. rewrite Hext in H.
  apply mbind_ok in H as (l1 & content & l2 & _ & H & _).
  apply mbind_ok in H as (l3 & [fm body] & l4 & _ & H & _).
  apply mbind_ok in H as (l5 & rel & l6 & Hrel & H & _).
  apply lift_ok in Hrel as [Hrel _].
  injection H as _ <-. eexists. exists rel. repeat split. exact Hrel.
Qed.

(** What [_render_and_save_output] returns with a record. *)
Lemma render_and_save_output_ok (env : environment) (cfg : config)
  (t : template) (ctx : context) (output_path source content : string)
  (events : list event) (info : PageInfo.t) :
  _render_and_save_output fs env cfg t ctx output_path source content
    = (events, Ok (Some info)) ->
  exists output rel,
    In (Write output_path output) events
    /\ Path.relpath (fs_cwd fs) output_path (output_dir cfg) = Ok rel
    /\ PageInfo.output_path info = output_path
    /\ PageInfo.url info = url rel cfg.
Proof.
  unfold _render_and_save_output. destruct (render t ctx) as [output|e].
  - intros H.
    apply mbind_ok in H as (l0 & [] & l0' & Hd & H & ->).
    apply lift_ok in Hd as [_ ->].
    apply mbind_ok in H as (l1 & [] & l2 & Hw & H & ->).
    apply mbind_ok in H as (l3 & [] & l4 & _ & H & ->).
    apply mbind_ok in H as (l5 & rel & l6 & Hrel & H & ->).
    apply lift_ok in Hrel as [Hrel _].
    injection H as _ <-. injection Hw as <-.
    exists output, rel. repeat split; [left; reflexivity|exact Hrel].
  - intros H. cbn in H. discriminate.
Qed.

(** The record of a collection item that was rendered. *)
Lemma render_collection_item_ok (cfg : config) (env : environment)
  (collection_name : string) (item : Item.t)
  (rendered : list PageInfo.t) (info : PageInfo.t) (events : list event) :
  render_collection_item fs cfg env collection_name item rendered
    = (events, Ok (rendered ++ [info])%list) ->
  exists output text rel,
    collection_output cfg collection_name = Ok output
    /\ In (Write (PageInfo.output_path info) text) events
    /\ PageInfo.output_path info
       = Path.join (output_dir cfg)
           (Path.join output (Path.basename (Item.path item)))
    /\ Path.relpath (fs_cwd fs) (PageInfo.output_path info) (output_dir cfg)
       = Ok rel
    /\ PageInfo.url info = url rel cfg.
Proof.
  assert (Hsame : (rendered ++ [info])%list <> rendered).
  { intros E. apply (f_equal (@List.length _)) in E.
    rewrite length_app in E. simpl in E. lia. }
  unfold render_collection_item. intros H.
  apply mbind_ok in H as (l1 & output & l2 & Hout & H & ->).
  apply lift_ok in Hout as [Hout _].
  apply mbind_ok in H as (l3 & [] & l4 & _ & H & ->).
  apply mbind_ok in H as (l5 & layout & l6 & _ & H & ->).
  destruct (negb (truthy_opt layout)).
  { apply mbind_ok in H as (? & [] & ? & _ & H & _).
    injection H as _ E. symmetry in E. contradiction. }
  apply mbind_ok in H as (l7 & loaded & l8 & _ & H & ->).
  destruct (get_template env _) as [t|e].
  2:{ apply mbind_ok in H as (? & [] & ? & _ & H & _).
      injection H as _ E. symmetry in E. contradiction. }
  apply mbind_ok in H as (l9 & page_info & l10 & Hsave & H & ->).
  apply mbind_ok in H as (l11 & [] & l12 & _ & H & ->).
  injection H as _ E.
  destruct page_info as [info'|]; [|symmetry in E; contradiction].
  apply app_inv_head in E. injection E as ->.
  apply render_and_save_output_ok in Hsave
    as (text & rel & Hw & Hrel & Hpath & Hurl).
  exists output, text, rel. rewrite Hpath.
  split; [exact Hout|]. split.
  - apply in_or_app. right. apply in_or_app. right.
    apply in_or_app. right. apply in_or_app. right.
    apply in_or_app. left. exact Hw.
  - repeat split; assumption.
Qed.

(** The places of an item that was loaded, and of its record when it was
    rendered, for an output prefix of plain names. *)
Lemma collection_item_places (cfg : config) (collection_name : string)
  (settings : collection_settings) (collection_path : string)
  (prefix : list string) (tree : node) (root file_name : string) :
  Str.startswith "/" (fs_cwd fs) = true ->
  FS.lookup fs collection_path = Some tree ->
  plain_tree tree ->
  In (root, file_name) (walk_files fs collection_path) ->
  Str.endswith ".html" file_name = true ->
  assoc_get collection_name (collections cfg) = Some settings ->
  cs_output settings = Some (Str.join "/" prefix) ->
  prefix <> [] ->
  Forall plain_name prefix ->
  forall items items' events,
    load_collection_item fs cfg collection_name settings collection_path
      (root, file_name) items = (events, Ok items') ->
    exists item rel,
      items' = (items ++ [item])%list
      /\ Path.relpath (fs_cwd fs) (Item.path item) collection_path = Ok rel
      /\ Item.url item = url (Path.join (Str.join "/" prefix) rel) cfg
      /\ forall env rendered info events',
           render_collection_item fs cfg env collection_name item rendered
             = (events', Ok (rendered ++ [info])%list) ->
           (exists text,
               In (Write
                     (Path.join (output_dir cfg)
                        (Path.join (Str.join "/" prefix)
                           (Path.basename (Item.path item)))) text) events')
           /\ PageInfo.url info
              = url (Path.join (Str.join "/" prefix)
                       (Path.basename (Item.path item))) cfg
           /\ (Item.url item = PageInfo.url info <-> root = collection_path).
Proof.
  intros Hcwd Hlookup Hplain Hin Hext Hsettings Hout Hne Hprefix
    items items' events Hload.
  destruct (walk_files_entries fs _ _ _ _ Hlookup Hplain Hin)
    as (ds & Hds & Hroot & Hfile).
  destruct (walked_file_relpath (fs_cwd fs) collection_path file_name ds
              Hcwd Hds Hfile) as [Hpath Hrel].
  rewrite <- Hroot in Hpath, Hrel.
  destruct (load_collection_item_ok cfg _ _ _ _ _ _ _ _ Hext Hload)
    as (item & rel & Hitems & Hrel' & Hipath & Hirel & Hiurl).
  rewrite Hrel in Hrel'. injection Hrel' as <-. rewrite Hout in Hiurl.
  exists item, (Str.join "/" (ds ++ [file_name])).
  split; [exact Hitems|]. split; [rewrite Hipath; exact Hrel|].
  split; [exact Hiurl|].
  intros env rendered info events' Hrender.
  destruct (render_collection_item_ok cfg env _ _ _ _ _ Hrender)
    as (output & text & rel & Hco & Hw & Hopath & Horel & Hurl).
  unfold collection_output in Hco. rewrite Hsettings, Hout in Hco.
  injection Hco as <-.
  assert (Hsp : Forall solid prefix)
    by (eapply Forall_impl; [|exact Hprefix]; apply plain_name_solid).
  assert (Hsf : solid file_name) by (apply plain_name_solid, Hfile).
  assert (Hsd : Forall solid ds)
    by (eapply Forall_impl; [|exact Hds]; apply plain_name_solid).
  assert (Hbase : Path.basename (Item.path item) = file_name).
  { rewrite Hipath. apply basename_join, Hsf. }
  rewrite Hbase in *.
  assert (Hjoin : Path.join (Str.join "/" prefix) file_name
                  = Str.join "/" (prefix ++ [file_name])).
  { apply (join_plain_paths prefix [file_name]); try assumption;
      [discriminate|constructor; [exact Hsf|constructor]]. }
  assert (Hrec : rel = Str.join "/" (prefix ++ [file_name])).
  { rewrite Hopath, Hjoin in Horel.
    rewrite relpath_join in Horel; [congruence|exact Hcwd| |].
    - intros E'. apply app_eq_nil in E' as [E' _]. contradiction.
    - apply Forall_app. split; [exact Hprefix|constructor; [exact Hfile|constructor]]. }
  split; [exists text; rewrite <- Hopath; exact Hw|].
  split; [rewrite Hurl, Hrec, Hjoin; reflexivity|].
  rewrite Hiurl, Hurl, Hrec.
  assert (Hjoin' : Path.join (Str.join "/" prefix)
                     (Str.join "/" (ds ++ [file_name]))
                   = Str.join "/" (prefix ++ ds ++ [file_name])).
  { apply join_plain_paths; try assumption.
    - destruct ds; discriminate.
    - apply Forall_app. split; [exact Hsd|constructor; [exact Hsf|constructor]]. }
  rewrite Hjoin'.
  assert (Hall : forall l, Forall solid l ->
                           Forall solid (prefix ++ l ++ [file_name])).
  { intros l Hl. apply Forall_app. split; [exact Hsp|].
    apply Forall_app. split; [exact Hl|constructor; [exact Hsf|constructor]]. }
  rewrite Hroot, (walked_root_is_top collection_path ds Hds).
  split.
  - intros E. apply url_relative_inj in E;
      try (apply join_solid_not_absolute;
           first [apply (Hall ds Hsd) | apply (Hall [] (Forall_nil _))]).
    apply join_no_slash_inj in E.
    + apply app_inv_head in E.
      change [file_name] with ([] ++ [file_name])%list in E at 2.
      apply app_inv_tail in E. exact E.
    + intros E'. apply app_eq_nil in E' as [E' _]. contradiction.
    + intros E'. apply app_eq_nil in E' as [E' _]. contradiction.
    + eapply Forall_impl; [|apply (Hall ds Hsd)]. intros ? [_ H]. exact H.
    + eapply Forall_impl; [|apply (Hall [] (Forall_nil _))].
      intros ? [_ H]. exact H.
  - intros ->. reflexivity.
Qed.

(** The run of [load_collection_item] on a file that can be read. *)
Lemma load_collection_item_run (cfg : config) (collection_name : string)
  (settings : collection_settings) (collection_path root file_name : string)
  (items : list Item.t) (content body rel : string) (fm : value)
  (ev_fm : list event) :
  Str.endswith ".html" file_name = true ->
  FS.read fs (Path.join root file_name) = Ok content ->
  parse_front_matter content = (ev_fm, Ok (fm, body)) ->
  Path.relpath (fs_cwd fs) (Path.join root file_name) collection_path = Ok rel ->
  load_collection_item fs cfg collection_name settings collection_path
    (root, file_name) items
  = (ev_fm,
     Ok (items
         ++ [{| Item.path := Path.join root file_name;
                Item.relative_path := rel;
                Item.output_path_relative :=
                  Path.join (match cs_output settings with
                             | Some o => o
                             | None => collection_name
                             end) rel;
                Item.front_matter := fm;
                Item.content := body;
                Item.url :=
                  url (Path.join (match cs_output settings with
                                  | Some o => o
                                  | None => collection_name
                                  end) rel) cfg |}])%list).
Proof.
  intros Hext Hread Hfm Hrel. unfold load_collection_item.
  rewrite Hext, Hread. cbn [lift mbind app]. rewrite Hfm. cbn [mbind].
  rewrite Hrel. cbn [lift mbind ret app]. rewrite !app_nil_r. reflexivity.
Qed.

(** The run of [render_collection_item] on an item whose layout loads and
    renders and whose file can be written. *)
Lemma render_collection_item_on_success (cfg : config) (env : environment)
  (rendered : list PageInfo.t) (collection_name output : string)
  (item : Item.t) (layout : value) (loaded : page_data * list string)
  (ev_ld : list event) (t : template) (text rel : string) :
  collection_output cfg collection_name = Ok output ->
  py_get "layout" (Item.front_matter item) = Ok (Some layout) ->
  truthy layout = true ->
  load_page_data fs cfg (Item.front_matter item) = (ev_ld, Ok loaded) ->
  get_template env layout = Ok t ->
  render t (make_context cfg env (Item.front_matter item) loaded
              (Some (Item.content item))
              (Path.join output (Path.basename (Item.path item)))) = Ok text ->
  write_file (Path.join (output_dir cfg)
                (Path.join output (Path.basename (Item.path item)))) text
    = Ok tt ->
  Path.relpath (fs_cwd fs)
    (Path.join (output_dir cfg)
       (Path.join output (Path.basename (Item.path item)))) (output_dir cfg)
    = Ok rel ->
  render_collection_item fs cfg env collection_name item rendered
  = ((Hook "before_render_page" [("page_path", Item.path item)]
      :: ev_ld
      ++ [Write (Path.join (output_dir cfg)
                   (Path.join output (Path.basename (Item.path item)))) text;
          Log INFO "Rendered: %s -> %s"
            [Item.path item;
             Path.join (output_dir cfg)
               (Path.join output (Path.basename (Item.path item)))];
          Hook "after_render_page"
            [("page_path", Item.path item);
             ("output_path",
              Path.join (output_dir cfg)
                (Path.join output (Path.basename (Item.path item))))]])%list,
     Ok (rendered
         ++ [{| PageInfo.source_path := Item.path item;
                PageInfo.output_path :=
                  Path.join (output_dir cfg)
                    (Path.join output (Path.basename (Item.path item)));
                PageInfo.url := url rel cfg;
                PageInfo.front_matter := Item.front_matter item;
                PageInfo.content := Item.content item |}])%list).
Proof.
  intros Hout Hlayout Htruthy Hld Hload Hrender Hwrite Hrel.
  unfold render_collection_item. rewrite Hout.
  cbn [lift mbind run_hook emit app]. rewrite Hlayout.
  cbn [lift mbind app truthy_opt]. rewrite Htruthy. cbn [negb].
  rewrite Hld. cbn [mbind]. rewrite Hload.
  unfold _render_and_save_output. rewrite Hrender, Hwrite.
  cbn [mbind lift log emit ret app]. rewrite Hrel.
  cbn [mbind run_hook emit ret app make_context page pc_front_matter].
  rewrite ?app_nil_r. reflexivity.
Qed.

(** C10, amended: for an output prefix that is a relative path of plain
    names, a collection directory whose names are those of a directory
    listing, and an absolute working directory.  A file of the collection
    that can be read becomes an item whose URL is the output prefix joined
    with the path of the file relative to the collection directory.  When
    the layout of the item loads and renders and the file can be written,
    [render_all_content] writes it to the output prefix joined with the
    base name of its path, below the output directory, and records the URL
    of that place; the two URLs are equal exactly when the file lies in the
    collection directory itself. *)
Theorem collection_item_urls (cfg : config) (collection_name : string)
  (settings : collection_settings) (collection_path : string)
  (prefix : list string) (tree : node) (root file_name : string)
  (content body : string) (fm : value) (ev_fm : list event) :
  Str.startswith "/" (fs_cwd fs) = true ->
  FS.lookup fs collection_path = Some tree ->
  plain_tree tree ->
  In (root, file_name) (walk_files fs collection_path) ->
  Str.endswith ".html" file_name = true ->
  assoc_get collection_name (collections cfg) = Some settings ->
  cs_output settings = Some (Str.join "/" prefix) ->
  prefix <> [] ->
  Forall plain_name prefix ->
  FS.read fs (Path.join root file_name) = Ok content ->
  parse_front_matter content = (ev_fm, Ok (fm, body)) ->
  exists item rel,
    (forall items,
        load_collection_item fs cfg collection_name settings collection_path
          (root, file_name) items = (ev_fm, Ok (items ++ [item])%list))
    /\ Item.path item = Path.join root file_name
    /\ Item.front_matter item = fm
    /\ Item.content item = body
    /\ Path.relpath (fs_cwd fs) (Item.path item) collection_path = Ok rel
    /\ Item.url item = url (Path.join (Str.join "/" prefix) rel) cfg
    /\ forall env rendered layout loaded ev_ld t text,
         py_get "layout" fm = Ok (Some layout) ->
         truthy layout = true ->
         load_page_data fs cfg fm = (ev_ld, Ok loaded) ->
         get_template env layout = Ok t ->
         render t (make_context cfg env fm loaded (Some body)
                     (Path.join (Str.join "/" prefix) file_name)) = Ok text ->
         write_file (Path.join (output_dir cfg)
                       (Path.join (Str.join "/" prefix) file_name)) text
           = Ok tt ->
         exists events' info,
           render_collection_item fs cfg env collection_name item rendered
             = (events', Ok (rendered ++ [info])%list)
           /\ In (Write (Path.join (output_dir cfg)
                           (Path.join (Str.join "/" prefix) file_name)) text)
                 events'
           /\ PageInfo.url info
              = url (Path.join (Str.join "/" prefix) file_name) cfg
           /\ (Item.url item = PageInfo.url info <-> root = collection_path).
Proof.
  intros Hcwd Hlookup Hplain Hin Hext Hsettings Hout Hne Hprefix Hread Hfm.
  destruct (walk_files_entries fs _ _ _ _ Hlookup Hplain Hin)
    as (ds & Hds & Hroot & Hfile).
  destruct (walked_file_relpath (fs_cwd fs) collection_path file_name ds
              Hcwd Hds Hfile) as [_ Hrel].
  rewrite <- Hroot in Hrel.
  pose proof (fun items =>
                load_collection_item_run cfg collection_name settings
                  collection_path root file_name items content body _ fm
                  ev_fm Hext Hread Hfm Hrel) as Hload.
  rewrite Hout in Hload.
  destruct (collection_item_places cfg collection_name settings
              collection_path prefix tree root file_name Hcwd Hlookup Hplain
              Hin Hext Hsettings Hout Hne Hprefix [] _ _ (Hload []))
    as (item & rel & Hitems & Hrel' & Hurl & Hplaces).
  injection Hitems as <-. cbn [Item.path Item.front_matter Item.content] in *.
  eexists. exists rel. split; [exact Hload|].
  cbn [Item.path Item.front_matter Item.content Item.url].
  split; [reflexivity|]. split; [reflexivity|]. split; [reflexivity|].
  split; [exact Hrel'|]. split; [exact Hurl|].
  intros env rendered layout loaded ev_ld t text
    Hlayout Htruthy Hld Hget Hrender Hwrite.
  assert (Hbase : Path.basename (Path.join root file_name) = file_name)
    by (apply basename_join, plain_name_solid, Hfile).
  assert (Hjoin : Path.join (Str.join "/" prefix) file_name
                  = Str.join "/" (prefix ++ [file_name])).
  { apply (join_plain_paths prefix [file_name]);
      [exact Hne|discriminate| |].
    - eapply Forall_impl; [|exact Hprefix]. apply plain_name_solid.
    - constructor; [apply plain_name_solid, Hfile|constructor]. }
  assert (Horel : Path.relpath (fs_cwd fs)
                    (Path.join (output_dir cfg)
                       (Path.join (Str.join "/" prefix) file_name))
                    (output_dir cfg)
                  = Ok (Str.join "/" (prefix ++ [file_name]))).
  { rewrite Hjoin. apply relpath_join; [exact Hcwd| |].
    - intros E. apply app_eq_nil in E as [E _]. contradiction.
    - apply Forall_app. split; [exact Hprefix|].
      constructor; [exact Hfile|constructor]. }
  match goal with
  | |- context [render_collection_item fs cfg env collection_name ?it rendered] =>
      pose proof (render_collection_item_on_success cfg env rendered
                    collection_name (Str.join "/" prefix) it layout loaded
                    ev_ld t text (Str.join "/" (prefix ++ [file_name])))
        as Hrun
  end.
  cbn [Item.path Item.front_matter Item.content] in Hrun.
  rewrite Hbase in Hrun.
  specialize (Hrun ltac:(unfold collection_output; rewrite Hsettings, Hout;
                         reflexivity)
                Hlayout Htruthy Hld Hget Hrender Hwrite Horel).
  eexists. eexists. split; [exact Hrun|].
  destruct (Hplaces env rendered _ _ Hrun) as ([text' Hw] & Hu & Hiff).
  cbn [Item.path] in Hu, Hw. rewrite Hbase in Hu, Hw.
  split; [|split; [exact Hu|exact Hiff]].
  right. apply in_or_app. right. left. reflexivity.
Qed.

End CollectionUrls.

(** Witness of C10: the post [posts/2024/b.html] of the sample site.  Its
    URL as a collection item is [/blog/2024/b.html]; it is written to
    [output/blog/b.html], and the URL of its record is [/blog/b.html]. *)
Lemma collection_item_urls_witness :
  exists item info events,
    load_collection_item (py := plain_json) sample_fs sample_config "posts"
      {| cs_path := Some "posts"; cs_output := Some "blog" |} "posts"
      ("posts/2024", "b.html") [] = ([], Ok [item])
    /\ Item.url item = "/blog/2024/b.html"
    /\ render_collection_item (py := plain_json)
         (jinja := plain_engine sample_fs) (disk := willing_disk) sample_fs
         sample_config sample_env "posts" item [] = (events, Ok [info])
    /\ In (Write "output/blog/b.html" "<article></article>") events
    /\ PageInfo.url info = "/blog/b.html"
    /\ Item.url item <> PageInfo.url info.
Proof.
  destruct (collection_item_urls (py := plain_json)
              (jinja := plain_engine sample_fs) (disk := willing_disk)
              sample_fs sample_config
              "posts" {| cs_path := Some "posts"; cs_output := Some "blog" |}
              "posts" ["blog"]
              (Dir [("a.html",
                     File (Some (Json.quoted "+++{'layout': 'post.html'}+++ A")));
                    ("bare.html", File (Some "no front matter"));
                    ("lost.html",
                     File (Some (Json.quoted "+++{'layout': 'nope.html'}+++ L")));
                    ("zero.html",
                     File (Some (Json.quoted "+++{'layout': 'zero.html'}+++ Z")));
                    ("2024",
                     Dir [("b.html",
                           File (Some (Json.quoted
                                         "+++{'layout': 'post.html'}+++ B")))])])
              "posts/2024" "b.html"
              (Json.quoted "+++{'layout': 'post.html'}+++ B") "B"
              (VDict [("layout", VStr "post.html")]) [])
    as (item & rel & Hload & _ & _ & _ & _ & Hurl & Hrender).
  - reflexivity.
  - reflexivity.
  - cbn. repeat split; (discriminate || reflexivity).
  - cbv. auto 10.
  - reflexivity.
  - reflexivity.
  - reflexivity.
  - discriminate.
  - constructor; [|constructor]. repeat split; (discriminate || reflexivity).
  - reflexivity.
  - reflexivity.
  - destruct (Hrender sample_env [] (VStr "post.html") (Merged [], []) []
                "<article></article>" "<article></article>"
                eq_refl eq_refl eq_refl eq_refl eq_refl eq_refl)
      as (events & info & Hrun & Hw & Hinfo & Hiff).
    pose proof (Hload []) as Hitem. vm_compute in Hitem.
    injection Hitem as Hitem. subst item.
    exists {| Item.path := "posts/2024/b.html";
              Item.relative_path := "2024/b.html";
              Item.output_path_relative := "blog/2024/b.html";
              Item.front_matter := VDict [("layout", VStr "post.html")];
              Item.content := "B";
              Item.url := "/blog/2024/b.html" |}, info, events.
    split; [reflexivity|]. split; [reflexivity|]. split; [exact Hrun|].
    split; [exact Hw|]. split; [exact Hinfo|].
    intros E. apply Hiff in E. discriminate E.
Defined.

(** C10, as stated, fails on an output prefix that is not in its shortest
    form.  With the prefix [./blog] the post [posts/a.html], which lies in
    the collection directory itself, has the URL [/./blog/a.html] as an
    item and the URL [/blog/a.html] in its record: the two do not coincide. *)
Lemma collection_urls_differ_in_root :
  map (fun item => (Item.path item, Item.url item))
    (firstn 1 (posts_of dotted_collections))
  = [("posts/a.html", "/./blog/a.html")]
  /\ match snd (render_all_content (py := plain_json)
                  (jinja := plain_engine sample_fs) (disk := willing_disk)
                  sample_fs dotted_config (VDict []) dotted_collections) with
     | Ok records =>
         map (fun r => (PageInfo.source_path r, PageInfo.url r)) records
     | Raise _ => []
     end
     = [("pages/index.html", "/index.html");
        ("posts/a.html", "/blog/a.html");
        ("posts/2024/b.html", "/blog/b.html")].
Proof. split; vm_compute; reflexivity. Qed.

(** On the sample site the post in the collection directory has one URL,
    the post in the subdirectory [2024] has two. *)
Example sample_site_urls :
  map Item.url (posts_of sample_collections)
  = ["/blog/a.html"; "/blog/bare.html"; "/blog/lost.html"; "/blog/zero.html";
     "/blog/2024/b.html"]
  /\ match snd (render_all_content (py := plain_json)
                  (jinja := plain_engine sample_fs)
                  (disk := willing_disk) sample_fs sample_config
                  (VDict []) sample_collections) with
     | Ok records => map PageInfo.url records
     | Raise _ => []
     end = ["/index.html"; "/blog/a.html"; "/blog/b.html"].
Proof. split; vm_compute; reflexivity. Qed.

(** * Further properties *)

(** ** url_helpers.py *)

Lemma lstrip_slash_slashes (n : nat) (p : string) :
  Str.lstrip_slash (slashes n ++ p) = Str.lstrip_slash p.
Proof. induction n as [|n IH]; [reflexivity|exact IH]. Qed.

Lemma lstrip_slash_idempotent (p : string) :
  Str.lstrip_slash (Str.lstrip_slash p) = Str.lstrip_slash p.
Proof. apply lstrip_slash_relative, lstrip_slash_no_slash. Qed.

(** X1: with root-relative URLs, [url] applied to its own result gives
    that result again. *)
Theorem url_idempotent_when_relative (p : string) (c : config) :
  use_absolute_urls c = false -> url (url p c) c = url p c.
Proof.
  intros H. unfold url. rewrite H.
  change ("/" ++ Str.lstrip_slash p) with (String "/" (Str.lstrip_slash p)).
  rewrite lstrip_slash_cons_slash, lstrip_slash_idempotent. reflexivity.
Qed.

Lemma url_idempotent_when_relative_witness :
  url (url "//blog/a.html" sample_config) sample_config
  = url "//blog/a.html" sample_config.
Proof. apply url_idempotent_when_relative. reflexivity. Defined.

(** X2: [static] does not see the leading slashes of its path: neither the
    file it looks for, nor the warning, nor the URL change with them. *)
Theorem static_leading_slash_insensitive (fs : filesystem) (n : nat)
  (p : string) (c : config) :
  static fs (slashes n ++ p) c = static fs p c.
Proof. unfold static. rewrite lstrip_slash_slashes. reflexivity. Qed.

(** X3: when both switches agree, the static URL of a path is the URL of
    that path below [static/]. *)
Theorem static_is_url_below_static (fs : filesystem) (p : string) (c : config) :
  use_absolute_static c = use_absolute_urls c ->
  snd (static fs p c) = url ("static/" ++ Str.lstrip_slash p) c.
Proof.
  intros H. unfold static, url. cbn [snd]. rewrite H.
  destruct (use_absolute_urls c); reflexivity.
Qed.

Lemma static_is_url_below_static_witness :
  snd (static sample_fs "/site.css" sample_config)
  = url ("static/" ++ Str.lstrip_slash "/site.css") sample_config.
Proof. apply static_is_url_below_static. reflexivity. Defined.

(** ** front_matter_parser.py *)

Lemma endswith_refl (s : string) : Str.endswith s s = true.
Proof. destruct s; cbn [Str.endswith]; rewrite String.eqb_refl; reflexivity. Qed.

Lemma endswith_app (p x s : string) :
  Str.endswith p s = true -> Str.endswith p (x ++ s) = true.
Proof.
  intros H. induction x as [|c x IH]; [exact H|].
  change (String c x ++ s) with (String c (x ++ s)).
  cbn [Str.endswith]. rewrite IH. apply orb_true_r.
Qed.

Section FrontMatterShape.
Context {py : PyLib}.

(** X4: whatever the decoder does, a front matter that is returned is the
    empty mapping or a truthy value, and the body is the raw text or the
    stripped form of what follows the closing delimiter, an end of the raw
    text. *)
Theorem parse_front_matter_result_shape (raw_text : string)
  (front_matter : value) (body : string) :
  snd (parse_front_matter raw_text) = Ok (front_matter, body) ->
  (front_matter = VDict [] \/ truthy front_matter = true)
  /\ (body = raw_text
      \/ exists rest,
           Str.endswith rest raw_text = true /\ body = Str.strip rest).
Proof.
  unfold parse_front_matter.
  destruct (Str.startswith "+++" raw_text) eqn:Hs;
    [|intros H; injection H as <- <-; auto].
  destruct (front_matter_split_shape raw_text Hs)
    as [(b & -> & _)|(header & rest & -> & Hraw)];
    [intros H; injection H as <- <-; auto|].
  destruct (json_loads header) as [v|[]]; cbn [snd]; try discriminate;
    [|intros H; injection H as <- <-; auto].
  intros H. injection H as <- <-. split.
  - destruct (truthy v) eqn:E; auto.
  - right. exists rest. split; [|reflexivity]. rewrite Hraw.
    change ("+++" ++ header ++ "+++" ++ rest)
      with ("+++" ++ (header ++ "+++" ++ rest)).
    apply endswith_app, endswith_app, endswith_app, endswith_refl.
Qed.

End FrontMatterShape.

Lemma parse_front_matter_result_shape_witness :
  (VDict [("title", VInt 1)] = VDict []
   \/ truthy (VDict [("title", VInt 1)]) = true)
  /\ ("body" = Json.quoted "+++{'title': 1}+++ body "
      \/ exists rest,
           Str.endswith rest (Json.quoted "+++{'title': 1}+++ body ") = true
           /\ "body" = Str.strip rest).
Proof.
  apply (parse_front_matter_result_shape (py := plain_json)). reflexivity.
Defined.

(** ** build_core.py: page data *)

Section PageDataProperties.
Context {py : PyLib}.
Variable fs : filesystem.

(** X6: [_load_json_file_from_assets] on a text never raises and only
    logs.  It returns what the file decodes to; when the file is missing it
    returns the empty mapping with one warning, and when the file cannot be
    read or decoded it returns the empty mapping with one error.  On a value
    that is not a text it raises before it logs anything. *)
Theorem load_json_file_from_assets_spec (cfg : config) :
  (forall path,
      let full_path := Path.join (assets_dir cfg) (Str.lstrip_slash path) in
      exists events v,
        _load_json_file_from_assets fs (VStr path) cfg = (events, Ok v)
        /\ (if FS.exists_ fs full_path
            then match bind (FS.read fs full_path) json_loads with
                 | Ok decoded => v = decoded /\ events = []
                 | Raise _ =>
                     v = VDict []
                     /\ exists fmt, events = [Log ERROR fmt [full_path]]
                 end
            else v = VDict []
                 /\ events = [Log WARNING "Page data asset file not found: %s"
                                [full_path]]))
  /\ (forall v,
        match v with
        | VStr _ => True
        | _ => _load_json_file_from_assets fs v cfg = ([], Raise AttributeError)
        end).
Proof.
  split.
  - intros path full_path. unfold _load_json_file_from_assets.
    cbn [py_lstrip_slash lift mbind]. fold full_path.
    destruct (FS.exists_ fs full_path); cbn [negb].
    + destruct (bind (FS.read fs full_path) json_loads) as [v|e].
      * exists [], v. auto.
      * destruct e; eexists; eexists; (split; [reflexivity|]);
          (split; [reflexivity|eexists; reflexivity]).
    + eexists. eexists. split; [reflexivity|]. split; reflexivity.
  - intros v. destruct v; try exact I; reflexivity.
Qed.

Lemma dict_has_set_other (k k' : string) (v : value) (d : dict) :
  k <> k' -> dict_has k (dict_set k' v d) = dict_has k d.
Proof. intros H. unfold dict_has. rewrite dict_get_set_other by exact H. reflexivity. Qed.

(** X7: [data_file] takes precedence: when the front matter has the key
    [data_file], the key [data_files] is not looked at, whatever it holds. *)
Theorem data_file_shadows_data_files (cfg : config) (fm : dict) (v : value) :
  dict_has "data_file" fm = true ->
  load_page_data fs cfg (VDict (dict_set "data_files" v fm))
  = load_page_data fs cfg (VDict fm).
Proof.
  intros H. unfold load_page_data. cbn [py_in lift mbind].
  rewrite dict_has_set_other by discriminate. rewrite H.
  cbn [py_getitem]. rewrite dict_get_set_other by discriminate.
  reflexivity.
Qed.

End PageDataProperties.

Lemma data_file_shadows_data_files_witness :
  load_page_data (py := plain_json) sample_fs sample_config
    (VDict (dict_set "data_files" (VList [VStr "b.json"])
              [("data_file", VStr "a.json")]))
  = load_page_data (py := plain_json) sample_fs sample_config
      (VDict [("data_file", VStr "a.json")]).
Proof. apply data_file_shadows_data_files. reflexivity. Defined.

(** ** data_collections_loader.py *)

Lemma for_each_invariant {A S} (I : S -> Prop) (l : list A)
  (body : A -> S -> M S) :
  (forall a s ev s', In a l -> I s -> body a s = (ev, Ok s') -> I s') ->
  forall s ev s', I s -> for_each l body s = (ev, Ok s') -> I s'.
Proof.
  induction l as [|a l IH]; intros Hbody s ev s' Hs H.
  - injection H as _ <-. exact Hs.
  - cbn [for_each] in H. apply mbind_ok in H as (l1 & s1 & l2 & Ha & H & _).
    eapply IH; [|eapply Hbody; [left; reflexivity|exact Hs|exact Ha]|exact H].
    intros a' t ev' t' Hin. apply Hbody. right. exact Hin.
Qed.

(** A loop whose body returns on every state that satisfies an invariant
    returns, and keeps the invariant. *)
Lemma for_each_returns {A S} (I : S -> Prop) (l : list A)
  (body : A -> S -> M S) :
  (forall a s, In a l -> I s ->
               exists ev s', body a s = (ev, Ok s') /\ I s'
                             /\ forallb is_log ev = true) ->
  forall s, I s ->
  exists ev s', for_each l body s = (ev, Ok s') /\ I s'
                /\ forallb is_log ev = true.
Proof.
  induction l as [|a l IH]; intros Hbody s Hs.
  - exists [], s. auto.
  - destruct (Hbody a s (or_introl eq_refl) Hs) as (ev & s1 & Ha & Hs1 & Hl).
    destruct (IH (fun a' t Hin => Hbody a' t (or_intror Hin)) s1 Hs1)
      as (ev' & s' & Hrest & Hs' & Hl').
    exists (ev ++ ev')%list, s'. split; [|split; [exact Hs'|]].
    + cbn [for_each]. eapply mbind_run; eassumption.
    + rewrite forallb_app, Hl, Hl'. reflexivity.
Qed.

Lemma no_slash_app_inv (a b : string) :
  no_slash (a ++ b) -> no_slash a /\ no_slash b.
Proof.
  induction a as [|c a IH]; intros H; [split; [reflexivity|exact H]|].
  change (String c a ++ b) with (String c (a ++ b)) in H.
  apply no_slash_cons in H as [Hc H]. destruct (IH H) as [Ha Hb].
  split; [apply no_slash_cons; auto|exact Hb].
Qed.

Lemma rcut_decompose (c0 : ascii) (s l r : string) :
  Str.rcut c0 s = Some (l, r) -> s = l ++ r.
Proof.
  revert l. induction s as [|c s IH]; intros l H; [discriminate|].
  cbn [Str.rcut] in H. destruct (Str.rcut c0 s) as [[l' r']|].
  - injection H as <- <-. simpl. f_equal. apply IH. reflexivity.
  - destruct (Ascii.eqb c c0); [|discriminate]. injection H as <- <-.
    reflexivity.
Qed.

Lemma no_slash_take (n : nat) (s : string) :
  no_slash s -> no_slash (Str.take n s).
Proof.
  revert s. induction n as [|n IH]; intros s H; [destruct s; reflexivity|].
  destruct s as [|c s]; [reflexivity|].
  apply no_slash_cons in H as [Hc Hs]. cbn [Str.take].
  apply no_slash_cons. auto.
Qed.

Lemma no_slash_lstrip_by (f : ascii -> bool) (s : string) :
  no_slash s -> no_slash (Str.lstrip_by f s).
Proof.
  induction s as [|c s IH]; intros H; [exact H|].
  cbn [Str.lstrip_by]. destruct (f c); [|exact H].
  apply no_slash_cons in H as [_ Hs]. apply IH, Hs.
Qed.

(** The stem of a name without a slash has no slash. *)
Lemma splitext_stem_no_slash (p : string) :
  no_slash p -> no_slash (fst (Path.splitext p)).
Proof.
  intros H. unfold Path.splitext. rewrite (rcut_no_slash p H).
  destruct (Str.rcut Path.dot (Str.lstrip_by (Ascii.eqb Path.dot) p))
    as [[stem ext]|] eqn:E; cbn [fst]; [|exact H].
  apply rcut_decompose in E.
  pose proof (no_slash_lstrip_by (Ascii.eqb Path.dot) p H) as Hr.
  rewrite E in Hr. apply no_slash_app_inv in Hr as [Hstem _].
  cbn [append]. apply no_slash_app; [apply no_slash_take, H|exact Hstem].
Qed.

Lemma dict_set_keys (k k' : string) (v v' : value) (d : dict) :
  In (k, v) (dict_set k' v' d) -> k = k' \/ In k (map fst d).
Proof.
  induction d as [|[k0 v0] d IH]; cbn [dict_set].
  - intros [H|[]]. injection H as <- _. left. reflexivity.
  - destruct (String.eqb_spec k' k0) as [->|Hne].
    + intros [H|H]; [injection H as <- _; left; reflexivity|].
      right. right. apply in_map_iff. exists (k, v). auto.
    + intros [H|H]; [injection H as <- _; right; left; reflexivity|].
      destruct (IH H) as [->|Hin]; [left; reflexivity|right; right; exact Hin].
Qed.

Section DataFilesTotal.
Context {py : PyLib}.
Variable fs : filesystem.

(** X8: on a data directory of plain names [load_data_files] never raises
    and only logs; the result is one flat mapping, and each of its keys is
    the stem of a file of the walk whose extension is [.json] in some
    letter case. *)
Theorem load_data_files_on_plain_tree (cfg : config) (dir : string)
  (tree : node) :
  data_dir cfg = Some dir ->
  FS.lookup fs dir = Some tree ->
  plain_tree tree ->
  exists events d,
    load_data_files fs cfg = (events, Ok (VDict d))
    /\ forallb is_log events = true
    /\ Forall
         (fun key =>
            exists root file_name,
              In (root, file_name) (walk_files fs dir)
              /\ fst (Path.splitext file_name) = key
              /\ Str.lower (snd (Path.splitext file_name)) = ".json")
         (map fst d).
Proof.
  intros Hdir Hlookup Hplain.
  set (ok := fun v : value =>
               exists d, v = VDict d
                 /\ Forall
                      (fun key =>
                         exists root file_name,
                           In (root, file_name) (walk_files fs dir)
                           /\ fst (Path.splitext file_name) = key
                           /\ Str.lower (snd (Path.splitext file_name)) = ".json")
                      (map fst d)).
  assert (Hloop : exists ev v,
             for_each (walk_files fs dir) (load_data_file fs dir) (VDict [])
             = (ev, Ok v) /\ ok v /\ forallb is_log ev = true).
  { apply for_each_returns; [|exists []; split; [reflexivity|constructor]].
    intros [root file_name] v Hin (d & -> & Hkeys).
    destruct (walk_files_entries fs _ _ _ _ Hlookup Hplain Hin)
      as (ds & _ & _ & Hname).
    unfold load_data_file.
    destruct (Path.splitext file_name) as [name ext] eqn:Hsplit.
    destruct (String.eqb_spec (Str.lower ext) ".json") as [Hext|_].
    - assert (Hrel : exists rel,
                 Path.relpath (fs_cwd fs) (Path.join root file_name) dir
                 = Ok rel).
      { unfold Path.relpath.
        destruct (String.eqb_spec (Path.join root file_name) "") as [E|_].
        - exfalso. revert E. apply join_not_empty. apply Hname.
        - destruct (Path.drop_common _ _) as [up down].
          destruct (map _ up ++ down)%list; eexists; reflexivity. }
      destruct Hrel as [rel Hrel]. rewrite Hrel. cbn [lift mbind].
      assert (Hstem : no_slash name).
      { change name with (fst (name, ext)). rewrite <- Hsplit.
        apply splitext_stem_no_slash. apply Hname. }
      rewrite split_is_split_char, (split_char_no_slash name Hstem).
      cbn [rev app store].
      assert (Hnew : forall v', ok (VDict (dict_set name v' d))).
      { intros v'. eexists. split; [reflexivity|].
        apply Forall_forall. intros k Hk.
        apply in_map_iff in Hk as ([k0 v0] & <- & Hk).
        apply dict_set_keys in Hk as [->|Hk].
        - exists root, file_name. rewrite Hsplit. auto.
        - rewrite Forall_forall in Hkeys. apply Hkeys, Hk. }
      destruct (bind (FS.read fs (Path.join root file_name)) json_loads)
        as [loaded|e]; cbn [lift mbind fst snd log emit ret app].
      + eexists. eexists. split; [reflexivity|]. split; [apply Hnew|reflexivity].
      + eexists. eexists. split; [reflexivity|].
        split; [exists d; auto|reflexivity].
    - eexists. eexists. split; [reflexivity|].
      split; [exists d; auto|reflexivity]. }
  destruct Hloop as (ev & v & Hrun & (d & -> & Hkeys) & Hlog).
  assert (Hexists : FS.exists_ fs dir = true)
    by (unfold FS.exists_; rewrite Hlookup; reflexivity).
  assert (Hne : String.eqb dir "" = false).
  { destruct (String.eqb_spec dir "") as [->|]; [discriminate|reflexivity]. }
  unfold load_data_files. rewrite Hdir, Hne, Hexists.
  cbn [orb negb log emit mbind]. rewrite Hrun.
  eexists. exists d. split; [reflexivity|]. split; [exact Hlog|exact Hkeys].
Qed.

End DataFilesTotal.

Lemma load_data_files_on_plain_tree_witness :
  exists events d,
    load_data_files (py := plain_json) sample_fs sample_config
    = (events, Ok (VDict d))
    /\ forallb is_log events = true
    /\ Forall
         (fun key =>
            exists root file_name,
              In (root, file_name) (walk_files sample_fs "_data")
              /\ fst (Path.splitext file_name) = key
              /\ Str.lower (snd (Path.splitext file_name)) = ".json")
         (map fst d).
Proof.
  apply (load_data_files_on_plain_tree (py := plain_json) sample_fs
           sample_config "_data"
           (Dir [("site.json", File (Some (Json.quoted "{'title': 'T'}")));
                 ("authors",
                  Dir [("jane.json", File (Some (Json.quoted "{'n': 2}")))])])).
  - reflexivity.
  - reflexivity.
  - cbn. repeat split; (discriminate || reflexivity).
Defined.

Section CollectionsInvariant.
Context {py : PyLib}.
Variable fs : filesystem.

Lemma load_collections_only_logs (cfg : config) :
  only_logs (load_collections fs cfg).
Proof.
  unfold load_collections, load_collection, load_collection_item.
  repeat first [ apply parse_front_matter_only_logs | only_logs_step ].
Qed.

(** X9: [load_collections] only logs, and when it returns, every
    collection it holds is one of the configuration, every item comes from
    a file whose path ends in [.html], the output path of an item is the
    output prefix of its collection (the collection name when no prefix is
    configured) joined with its relative path, and its URL is [url] of that
    output path. *)
Theorem load_collections_items (cfg : config) (events : list event)
  (collections_data : list (string * list Item.t)) :
  load_collections fs cfg = (events, Ok collections_data) ->
  forallb is_log events = true
  /\ Forall
       (fun entry =>
          exists settings,
            In (fst entry, settings) (collections cfg)
            /\ Forall (item_of cfg (fst entry) settings) (snd entry))
       collections_data.
Proof.
  intros H. split.
  { pose proof (load_collections_only_logs cfg) as L. unfold only_logs in L.
    rewrite H in L. exact L. }
  revert H. unfold load_collections.
  apply for_each_invariant; [|constructor].
  intros [name settings] cd ev cd' Hin Hcd Hbody.
  unfold load_collection in Hbody.
  destruct (cs_path settings) as [cpath|];
    [|apply mbind_ok in Hbody as (? & [] & ? & _ & Hb & _);
      injection Hb as _ <-; exact Hcd].
  destruct (String.eqb cpath "" || negb (FS.exists_ fs cpath));
    [apply mbind_ok in Hbody as (? & [] & ? & _ & Hb & _);
     injection Hb as _ <-; exact Hcd|].
  apply mbind_ok in Hbody as (? & [] & ? & _ & Hbody & _).
  apply mbind_ok in Hbody as (l1 & items & l2 & Hitems & Hbody & _).
  injection Hbody as _ <-.
  assert (Hall : Forall (item_of cfg name settings) items).
  { revert Hitems. apply for_each_invariant; [|constructor].
    intros [root file_name] its ev' its' _ Hits Hitem.
    unfold load_collection_item in Hitem.
    destruct (Str.endswith ".html" file_name) eqn:Hext;
      [|injection Hitem as _ <-; exact Hits].
    apply mbind_ok in Hitem as (? & content & ? & _ & Hitem & _).
    apply mbind_ok in Hitem as (? & [fm body] & ? & _ & Hitem & _).
    apply mbind_ok in Hitem as (? & rel & ? & _ & Hitem & _).
    injection Hitem as _ <-. apply Forall_app. split; [exact Hits|].
    constructor; [|constructor]. unfold item_of. cbn.
    split; [|split; reflexivity].
    unfold Path.join. destruct (Str.startswith "/" file_name); [exact Hext|].
    destruct (String.eqb root "" || Str.endswith "/" root).
    - apply endswith_app, Hext.
    - apply endswith_app. apply (endswith_app _ "/"). exact Hext. }
  clear Hitems. induction Hcd as [|[k0 v0] d H0 Hd IH]; cbn [assoc_set].
  - constructor; [|constructor]. exists settings. auto.
  - destruct (String.eqb_spec name k0) as [->|Hne].
    + constructor; [|exact Hd]. exists settings. auto.
    + constructor; [exact H0|exact IH].
Qed.

End CollectionsInvariant.

Lemma load_collections_items_witness :
  forallb is_log (fst (load_collections (py := plain_json) sample_fs sample_config))
  = true
  /\ Forall
       (fun entry =>
          exists settings,
            In (fst entry, settings) (collections sample_config)
            /\ Forall (item_of sample_config (fst entry) settings) (snd entry))
       sample_collections.
Proof.
  apply (load_collections_items (py := plain_json) sample_fs sample_config).
  reflexivity.
Defined.

(** ** build_core.py: what a run of [render_all_content] leaves behind *)

Lemma written_app (a b : list event) :
  written (a ++ b) = (written a ++ written b)%list.
Proof.
  induction a as [|e a IH]; [reflexivity|].
  destruct e; cbn [app written]; rewrite IH; reflexivity.
Qed.

Lemma written_logs (l : list event) :
  forallb is_log l = true -> written l = [].
Proof.
  induction l as [|e l IH]; [reflexivity|]. cbn [forallb].
  intros H. apply andb_true_iff in H as [He Hl].
  destruct e; try discriminate. cbn [written]. apply IH, Hl.
Qed.

(** A hook call adds at most its own name and page to the page hooks. *)
Lemma hooks_of_hook (name : string) (args : list (string * string)) :
  exists f, forall rest,
    hooks_of (Hook name args :: rest) = (f ++ hooks_of rest)%list.
Proof.
  destruct args as [|[k v] args]; [exists []; reflexivity|].
  do 9 (destruct k as [|[[] [] [] [] [] [] [] []] k];
        try (exists []; intros; reflexivity)).
  destruct k; [exists [(name, v)]|exists []]; intros; reflexivity.
Qed.

Lemma hooks_of_app (a b : list event) :
  hooks_of (a ++ b) = (hooks_of a ++ hooks_of b)%list.
Proof.
  induction a as [|e a IH]; [reflexivity|].
  destruct e as [lvl fmt args|name args|p text]; cbn [app]; try exact IH.
  destruct (hooks_of_hook name args) as [f Hf].
  rewrite !Hf, IH, app_assoc. reflexivity.
Qed.

Lemma hooks_of_logs (l : list event) :
  forallb is_log l = true -> hooks_of l = [].
Proof.
  induction l as [|e l IH]; [reflexivity|]. cbn [forallb].
  intros H. apply andb_true_iff in H as [He Hl].
  destruct e; try discriminate. cbn [hooks_of]. apply IH, Hl.
Qed.

Lemma fst_mbind {A B} (m : M A) (k : A -> M B) :
  fst (mbind m k)
  = (fst m ++ match snd m with
              | Ok a => fst (k a)
              | Raise _ => []
              end)%list.
Proof.
  destruct m as [l [a|e]]; cbn [mbind fst snd].
  - destruct (k a); reflexivity.
  - rewrite app_nil_r. reflexivity.
Qed.

Lemma paired_app (a b : list (string * string)) :
  paired a = true -> paired b = true -> paired (a ++ b) = true.
Proof.
  intros Ha Hb.
  assert (H : forall n a, List.length a <= n -> paired a = true ->
                          paired (a ++ b) = true).
  { clear a Ha. induction n as [|n IH]; intros a Hlen Ha.
    - destruct a; [exact Hb|simpl in Hlen; lia].
    - destruct a as [|[name p] rest]; [exact Hb|].
      cbn [paired] in Ha. apply andb_true_iff in Ha as [Hname Ha].
      cbn [app paired]. rewrite Hname. cbn [andb].
      destruct rest as [|[name' q] rest'].
      + cbn [app]. destruct b as [|[name'' r] b']; [reflexivity|].
        pose proof Hb as Hb'. cbn [paired] in Hb'.
        apply andb_true_iff in Hb' as [Hn _].
        apply String.eqb_eq in Hn. subst name''.
        cbn [String.eqb Ascii.eqb Bool.eqb]. exact Hb.
      + cbn [app]. destruct (String.eqb name' "after_render_page") eqn:E.
        * apply andb_true_iff in Ha as [Hpq Ha]. rewrite Hpq. cbn [andb].
          apply IH; [cbn [List.length] in *; lia|exact Ha].
        * change ((name', q) :: (rest' ++ b)%list)
            with (((name', q) :: rest') ++ b)%list.
          apply IH; [cbn [List.length] in *; lia|exact Ha]. }
  apply (H (List.length a)); [lia|exact Ha].
Qed.

Lemma for_each_paired {A S} (l : list A) (body : A -> S -> M S) (s : S) :
  (forall a s', paired (hooks_of (fst (body a s'))) = true) ->
  paired (hooks_of (fst (for_each l body s))) = true.
Proof.
  intros Hbody. revert s. induction l as [|a l IH]; intros s; [reflexivity|].
  cbn [for_each]. rewrite fst_mbind, hooks_of_app.
  apply paired_app; [apply Hbody|].
  destruct (snd (body a s)); [apply IH|reflexivity].
Qed.

Section RenderTraces.
Context {py : PyLib} {jinja : Jinja} {disk : Disk}.
Variable fs : filesystem.

Lemma render_and_save_output_result (env : environment) (cfg : config)
  (t : template) (ctx : context) (output_path source content : string)
  (events : list event) (page_info : option PageInfo.t) :
  _render_and_save_output fs env cfg t ctx output_path source content
    = (events, Ok page_info) ->
  match page_info with
  | Some info =>
      written events = [output_path]
      /\ PageInfo.output_path info = output_path
      /\ PageInfo.source_path info = source
      /\ PageInfo.content info = content
      /\ PageInfo.front_matter info = pc_front_matter (page ctx)
  | None => written events = []
  end.
Proof.
  unfold _render_and_save_output. destruct (render t ctx) as [output|e].
  - intros H.
    apply mbind_ok in H as (l0 & [] & l0' & Hd & H & ->).
    apply lift_ok in Hd as [_ ->].
    apply mbind_ok in H as (l1 & [] & l2 & Hw & H & ->).
    apply mbind_ok in H as (l3 & [] & l4 & Hl & H & ->).
    apply mbind_ok in H as (l5 & rel & l6 & Hrel & H & ->).
    apply lift_ok in Hrel as [_ ->].
    injection H as <- <-. injection Hw as <-. injection Hl as <-.
    repeat split.
  - intros H. cbn in H. injection H as <- <-. reflexivity.
Qed.

Lemma logs_of_run {A} (m : M A) (events : list event) (r : result A) :
  only_logs m -> m = (events, r) -> forallb is_log events = true.
Proof. unfold only_logs. intros L ->. exact L. Qed.

(** What one page adds: the records appended are those of the files
    written. *)
Lemma render_page_appends (cfg : config) (env : environment)
  (entry : string * string) (rendered rendered' : list PageInfo.t)
  (events : list event) :
  render_page fs cfg env entry rendered = (events, Ok rendered') ->
  exists new,
    rendered' = (rendered ++ new)%list
    /\ map PageInfo.output_path new = written events.
Proof.
  destruct entry as [root page_file]. unfold render_page.
  destruct (Str.endswith ".html" page_file);
    [|intros H; injection H as <- <-; exists []; rewrite app_nil_r; auto].
  intros H.
  apply mbind_ok in H as (l1 & rel & l2 & Hrel & H & ->).
  apply lift_ok in Hrel as [_ ->].
  apply mbind_ok in H as (l3 & [] & l4 & Hh & H & ->). injection Hh as <-.
  apply mbind_ok in H as (l5 & full & l6 & Hread & H & ->).
  apply lift_ok in Hread as [_ ->].
  apply mbind_ok in H as (l7 & [fm body] & l8 & Hfm & H & ->).
  apply (logs_of_run _ _ _ (parse_front_matter_only_logs full)) in Hfm.
  apply mbind_ok in H as (l9 & loaded & l10 & Hld & H & ->).
  apply (logs_of_run _ _ _ (load_page_data_only_logs fs cfg fm)) in Hld.
  rewrite !written_app, (written_logs _ Hfm), (written_logs _ Hld).
  cbn [written app].
  destruct (from_string env body) as [t|e].
  - apply mbind_ok in H as (l11 & page_info & l12 & Hsave & H & ->).
    apply render_and_save_output_result in Hsave.
    apply mbind_ok in H as (l13 & [] & l14 & Hh & H & ->).
    injection Hh as <-. injection H as <- <-.
    rewrite !written_app. cbn [written app]. rewrite app_nil_r.
    destruct page_info as [info|].
    + destruct Hsave as (-> & Hp & _). exists [info]. cbn [map].
      rewrite Hp. auto.
    + rewrite Hsave. exists []. rewrite app_nil_r. auto.
  - apply mbind_ok in H as (l11 & [] & l12 & Hl & H & ->).
    injection Hl as <-. injection H as <- <-.
    exists []. rewrite app_nil_r. auto.
Qed.

Lemma render_collection_item_appends (cfg : config) (env : environment)
  (collection_name : string) (item : Item.t)
  (rendered rendered' : list PageInfo.t) (events : list event) :
  render_collection_item fs cfg env collection_name item rendered
    = (events, Ok rendered') ->
  exists new,
    rendered' = (rendered ++ new)%list
    /\ map PageInfo.output_path new = written events.
Proof.
  unfold render_collection_item. intros H.
  apply mbind_ok in H as (l1 & output & l2 & Hout & H & ->).
  apply lift_ok in Hout as [_ ->].
  apply mbind_ok in H as (l3 & [] & l4 & Hh & H & ->). injection Hh as <-.
  apply mbind_ok in H as (l5 & layout & l6 & Hlay & H & ->).
  apply lift_ok in Hlay as [_ ->].
  cbn [written app].
  destruct (negb (truthy_opt layout)).
  { apply mbind_ok in H as (l7 & [] & l8 & Hl & H & ->).
    injection Hl as <-. injection H as <- <-.
    exists []. rewrite app_nil_r. auto. }
  apply mbind_ok in H as (l9 & loaded & l10 & Hld & H & ->).
  apply (logs_of_run _ _ _
           (load_page_data_only_logs fs cfg (Item.front_matter item))) in Hld.
  rewrite !written_app, (written_logs _ Hld). cbn [app].
  destruct (get_template env _) as [t|e].
  - apply mbind_ok in H as (l11 & page_info & l12 & Hsave & H & ->).
    apply render_and_save_output_result in Hsave.
    apply mbind_ok in H as (l13 & [] & l14 & Hh & H & ->).
    injection Hh as <-. injection H as <- <-.
    rewrite !written_app. cbn [written app]. rewrite app_nil_r.
    destruct page_info as [info|].
    + destruct Hsave as (-> & Hp & _). exists [info]. cbn [map].
      rewrite Hp. auto.
    + rewrite Hsave. exists []. rewrite app_nil_r. auto.
  - apply mbind_ok in H as (l11 & [] & l12 & Hl & H & ->).
    injection Hl as <-. injection H as <- <-.
    exists []. rewrite app_nil_r. auto.
Qed.

Lemma for_each_appends {A} (l : list A)
  (body : A -> list PageInfo.t -> M (list PageInfo.t)) :
  (forall a s ev s', body a s = (ev, Ok s') ->
     exists new, s' = (s ++ new)%list
                 /\ map PageInfo.output_path new = written ev) ->
  forall s ev s', for_each l body s = (ev, Ok s') ->
    exists new, s' = (s ++ new)%list
                /\ map PageInfo.output_path new = written ev.
Proof.
  intros Hbody. induction l as [|a l IH]; intros s ev s' H.
  - injection H as <- <-. exists []. rewrite app_nil_r. auto.
  - cbn [for_each] in H. apply mbind_ok in H as (l1 & s1 & l2 & Ha & H & ->).
    destruct (Hbody _ _ _ _ Ha) as (n1 & -> & H1).
    destruct (IH _ _ _ H) as (n2 & -> & H2).
    exists (n1 ++ n2)%list. rewrite <- app_assoc, map_app, written_app, H1, H2.
    auto.
Qed.

(** X10: when [render_all_content] returns, its records are those of the
    files it wrote: the output paths of the records, in order, are the paths
    written, in order. *)
Theorem records_are_the_written_files (cfg : config) (site_data : value)
  (collections_data : list (string * list Item.t))
  (events : list event) (records : list PageInfo.t) :
  render_all_content fs cfg site_data collections_data = (events, Ok records) ->
  map PageInfo.output_path records = written events.
Proof.
  unfold render_all_content, setup_jinja_environment. intros H.
  apply mbind_ok in H as (l1 & env & l2 & Henv & H & ->).
  apply mbind_ok in Henv as (l3 & [] & l4 & Hl & Henv & ->).
  injection Hl as <-. injection Henv as <- <-.
  apply mbind_ok in H as (l5 & [] & l6 & Hl & H & ->). injection Hl as <-.
  apply mbind_ok in H as (l7 & pages & l8 & Hpages & H & ->).
  destruct (for_each_appends _ _
              (fun a s ev s' => render_page_appends cfg _ a s s' ev)
              _ _ _ Hpages) as (n1 & -> & H1).
  assert (Hcoll : forall env entry s ev s',
             render_collection fs cfg env entry s = (ev, Ok s') ->
             exists new, s' = (s ++ new)%list
                         /\ map PageInfo.output_path new = written ev).
  { intros env [name items] s ev s' Hc. unfold render_collection in Hc.
    apply mbind_ok in Hc as (l9 & [] & l10 & Hl & Hc & ->).
    injection Hl as <-. cbn [app written].
    eapply for_each_appends; [|exact Hc].
    intros item s0 ev0 s0'. apply render_collection_item_appends. }
  destruct (for_each_appends _ _ (Hcoll _) _ _ _ H) as (n2 & -> & H2).
  cbn [app written]. rewrite ?written_app, map_app, H1, H2. reflexivity.
Qed.

Lemma render_and_save_output_hooks (env : environment) (cfg : config)
  (t : template) (ctx : context) (output_path source content : string) :
  hooks_of (fst (_render_and_save_output fs env cfg t ctx output_path source
                   content)) = [].
Proof.
  unfold _render_and_save_output. destruct (render t ctx); [|reflexivity].
  cbn [emit log mbind lift].
  destruct (write_file _ _) as [[]|]; [|reflexivity].
  destruct (Path.relpath _ _ _); reflexivity.
Qed.

Lemma hooks_of_only_logs {A} (m : M A) :
  only_logs m -> hooks_of (fst m) = [].
Proof. intros H. apply hooks_of_logs, H. Qed.

Lemma paired_before_after (p : string) :
  paired [("before_render_page", p); ("after_render_page", p)] = true.
Proof.
  change (paired [("before_render_page", p); ("after_render_page", p)])
    with (String.eqb p p && true).
  rewrite String.eqb_refl. reflexivity.
Qed.

Ltac hooks_step :=
  rewrite fst_mbind, hooks_of_app;
  cbn [lift run_hook log emit fst snd hooks_of app].

Lemma render_page_hooks (cfg : config) (env : environment)
  (entry : string * string) (rendered : list PageInfo.t) :
  paired (hooks_of (fst (render_page fs cfg env entry rendered))) = true.
Proof.
  destruct entry as [root page_file]. unfold render_page.
  destruct (Str.endswith ".html" page_file); [|reflexivity].
  hooks_step. destruct (Path.relpath _ _ _) as [rel|e]; [|reflexivity].
  hooks_step. hooks_step.
  destruct (FS.read fs _) as [full|e]; [|reflexivity].
  hooks_step.
  rewrite (hooks_of_only_logs _ (parse_front_matter_only_logs full)).
  destruct (snd (parse_front_matter full)) as [[fm body]|e]; [|reflexivity].
  hooks_step.
  rewrite (hooks_of_only_logs _ (load_page_data_only_logs fs cfg fm)).
  destruct (snd (load_page_data fs cfg fm)) as [loaded|e]; [|reflexivity].
  destruct (from_string env body) as [t|e]; [|reflexivity].
  hooks_step. rewrite render_and_save_output_hooks.
  destruct (snd (_render_and_save_output _ _ _ _ _ _ _ _)); [|reflexivity].
  cbn [run_hook emit ret mbind fst snd app hooks_of].
  apply paired_before_after.
Qed.

Lemma render_collection_item_hooks (cfg : config) (env : environment)
  (collection_name : string) (item : Item.t) (rendered : list PageInfo.t) :
  paired (hooks_of (fst (render_collection_item fs cfg env collection_name
                           item rendered))) = true.
Proof.
  unfold render_collection_item.
  hooks_step.
  destruct (collection_output cfg collection_name) as [output|e]; [|reflexivity].
  hooks_step. hooks_step.
  destruct (py_get "layout" (Item.front_matter item)) as [layout|e];
    [|reflexivity].
  destruct (negb (truthy_opt layout)); [reflexivity|].
  hooks_step.
  rewrite (hooks_of_only_logs _
             (load_page_data_only_logs fs cfg (Item.front_matter item))).
  destruct (snd (load_page_data fs cfg (Item.front_matter item)))
    as [loaded|e]; [|reflexivity].
  destruct (get_template env _) as [t|e]; [|reflexivity].
  hooks_step. rewrite render_and_save_output_hooks.
  destruct (snd (_render_and_save_output _ _ _ _ _ _ _ _)); [|reflexivity].
  cbn [run_hook emit ret mbind fst snd app hooks_of].
  apply paired_before_after.
Qed.

(** X11: in every run of [render_all_content], also one that raises, the
    page hooks come in order: each is a [before_render_page], or an
    [after_render_page] that directly follows the [before_render_page] of
    the same page.  No page gets [after_render_page] twice or without its
    [before_render_page]. *)
Theorem page_hooks_are_paired (cfg : config) (site_data : value)
  (collections_data : list (string * list Item.t)) :
  paired (hooks_of (fst (render_all_content fs cfg site_data collections_data)))
  = true.
Proof.
  unfold render_all_content, setup_jinja_environment.
  hooks_step. hooks_step. cbn [ret mbind fst snd hooks_of app].
  set (env := {| loader_paths := _; globals_site := _ |}).
  change (snd (log INFO "Setting up Jinja2 environment" [] ;;; ret env))
    with (Ok env).
  cbv iota. hooks_step. hooks_step.
  apply paired_app; [apply for_each_paired, render_page_hooks|].
  destruct (snd (for_each _ (render_page fs cfg env) [])) as [pages|e];
    [|reflexivity].
  apply for_each_paired. intros [name items] s. unfold render_collection.
  hooks_step.
  apply for_each_paired. intros item. apply render_collection_item_hooks.
Qed.

End RenderTraces.

Lemma records_are_the_written_files_witness :
  exists events records,
    render_all_content (py := plain_json) (jinja := plain_engine sample_fs)
                                          (disk := willing_disk)
      sample_fs sample_config (VDict []) sample_collections
    = (events, Ok records)
    /\ map PageInfo.output_path records = written events.
Proof.
  eexists. eexists. split; [vm_compute; reflexivity|].
  apply (records_are_the_written_files (py := plain_json)
           (jinja := plain_engine sample_fs)
           (disk := willing_disk) sample_fs sample_config
           (VDict []) sample_collections).
  vm_compute. reflexivity.
Defined.

(** ** build_core.py: where a page goes *)

Section PagesMirror.
Context {py : PyLib} {jinja : Jinja} {disk : Disk}.
Variable fs : filesystem.

(** X12: a page keeps its place: the file found at [rel] below the pages
    directory is written to [rel] below the output directory, and its URL
    is [url] of [rel].  A file that is not rendered leaves no record and
    nothing is written for it. *)
Theorem page_output_mirrors_source (cfg : config) (env : environment)
  (tree : node) (root page_file : string)
  (rendered rendered' : list PageInfo.t) (events : list event) :
  Str.startswith "/" (fs_cwd fs) = true ->
  FS.lookup fs (pages_dir cfg) = Some tree ->
  plain_tree tree ->
  In (root, page_file) (walk_files fs (pages_dir cfg)) ->
  render_page fs cfg env (root, page_file) rendered = (events, Ok rendered') ->
  exists rel,
    Path.join root page_file = Path.join (pages_dir cfg) rel
    /\ ((rendered' = rendered /\ written events = [])
        \/ exists info,
             rendered' = (rendered ++ [info])%list
             /\ written events = [Path.join (output_dir cfg) rel]
             /\ PageInfo.source_path info = Path.join (pages_dir cfg) rel
             /\ PageInfo.output_path info = Path.join (output_dir cfg) rel
             /\ PageInfo.url info = url rel cfg).
Proof.
  intros Hcwd Hlookup Hplain Hin H.
  destruct (walk_files_entries fs _ _ _ _ Hlookup Hplain Hin)
    as (ds & Hds & -> & Hname).
  destruct (walked_file_relpath (fs_cwd fs) (pages_dir cfg) page_file ds
              Hcwd Hds Hname) as [Hpath Hrelpath].
  set (comps := (ds ++ [page_file])%list) in *.
  assert (Hcomps : Forall plain_name comps).
  { apply Forall_app. split; [exact Hds|constructor; [exact Hname|constructor]]. }
  assert (Hne : comps <> []) by (unfold comps; destruct ds; discriminate).
  exists (Str.join "/" comps). split; [exact Hpath|].
  revert H. unfold render_page.
  destruct (Str.endswith ".html" page_file);
    [|intros H; injection H as <- <-; left; auto].
  rewrite Hrelpath. rewrite Hpath. intros H.
  apply mbind_ok in H as (l1 & rel & l2 & Hrel & H & ->).
  apply lift_ok in Hrel as [Hrel ->]. injection Hrel as <-.
  apply mbind_ok in H as (l3 & [] & l4 & Hh & H & ->). injection Hh as <-.
  apply mbind_ok in H as (l5 & full & l6 & Hread & H & ->).
  apply lift_ok in Hread as [_ ->].
  apply mbind_ok in H as (l7 & [fm body] & l8 & Hfm & H & ->).
  apply (logs_of_run _ _ _ (parse_front_matter_only_logs full)) in Hfm.
  apply mbind_ok in H as (l9 & loaded & l10 & Hld & H & ->).
  apply (logs_of_run _ _ _ (load_page_data_only_logs fs cfg fm)) in Hld.
  rewrite !written_app, (written_logs _ Hfm), (written_logs _ Hld).
  cbn [written app].
  destruct (from_string env body) as [t|e].
  - apply mbind_ok in H as (l11 & page_info & l12 & Hsave & H & ->).
    apply mbind_ok in H as (l13 & [] & l14 & Hh & H & ->).
    injection Hh as <-. injection H as <- <-.
    rewrite !written_app. cbn [written app]. rewrite app_nil_r.
    destruct page_info as [info|].
    + destruct (render_and_save_output_ok fs _ _ _ _ _ _ _ _ _ Hsave)
        as (output & rel' & _ & Hrel' & _ & Hurl).
      rewrite (relpath_join _ _ _ Hcwd Hne Hcomps) in Hrel'.
      injection Hrel' as <-.
      apply render_and_save_output_result in Hsave.
      destruct Hsave as (-> & Hout & Hsrc & _).
      right. exists info. auto.
    + apply render_and_save_output_result in Hsave. rewrite Hsave.
      left. auto.
  - apply mbind_ok in H as (l11 & [] & l12 & Hl & H & ->).
    injection Hl as <-. injection H as <- <-. left. auto.
Qed.

(** X21: a page that renders and cannot be written ends the run: the
    exception of the write leaves [render_page] after the hook
    [before_render_page], nothing is written, no record is made, the hook
    [after_render_page] is not fired, and the loop over the pages stops
    there with that exception. *)
Theorem failed_write_ends_the_run (cfg : config) (env : environment)
  (rendered : list PageInfo.t)
  (root page_file rel full body output : string) (fm : value)
  (loaded : page_data * list string) (ev_fm ev_ld : list event)
  (t : template) (e : exn) (rest : list (string * string)) :
  Str.endswith ".html" page_file = true ->
  Path.relpath (fs_cwd fs) (Path.join root page_file) (pages_dir cfg) = Ok rel ->
  FS.read fs (Path.join root page_file) = Ok full ->
  parse_front_matter full = (ev_fm, Ok (fm, body)) ->
  load_page_data fs cfg fm = (ev_ld, Ok loaded) ->
  from_string env body = Ok t ->
  render t (make_context cfg env fm loaded None rel) = Ok output ->
  write_file (Path.join (output_dir cfg) rel) output = Raise e ->
  render_page fs cfg env (root, page_file) rendered
  = ((Hook "before_render_page" [("page_path", Path.join root page_file)]
      :: ev_fm ++ ev_ld)%list,
     Raise e)
  /\ for_each ((root, page_file) :: rest) (render_page fs cfg env) rendered
     = ((Hook "before_render_page" [("page_path", Path.join root page_file)]
         :: ev_fm ++ ev_ld)%list,
        Raise e).
Proof.
  intros Hext Hrel Hread Hfm Hld Hcomp Hrender Hwrite.
  assert (Hrun : render_page fs cfg env (root, page_file) rendered
                 = ((Hook "before_render_page"
                       [("page_path", Path.join root page_file)]
                     :: ev_fm ++ ev_ld)%list,
                    Raise e)).
  { unfold render_page. rewrite Hext, Hrel.
    cbn [lift mbind run_hook emit app].
    rewrite Hread. cbn [lift mbind app]. rewrite Hfm. cbn [mbind].
    rewrite Hld. cbn [mbind]. rewrite Hcomp.
    unfold _render_and_save_output. rewrite Hrender, Hwrite.
    cbn [mbind lift app]. rewrite ?app_nil_r. reflexivity. }
  split; [exact Hrun|].
  cbn [for_each]. rewrite Hrun. reflexivity.
Qed.

End PagesMirror.

Lemma failed_write_ends_the_run_witness :
  render_page (py := plain_json) (jinja := plain_engine sample_fs)
    (disk := full_disk) sample_fs sample_config sample_env
    ("pages", "index.html") []
  = ([Hook "before_render_page" [("page_path", "pages/index.html")]],
     Raise OSError)
  /\ for_each [("pages", "index.html"); ("pages", "boom.html")]
       (render_page (py := plain_json) (jinja := plain_engine sample_fs)
          (disk := full_disk) sample_fs sample_config sample_env) []
     = ([Hook "before_render_page" [("page_path", "pages/index.html")]],
        Raise OSError).
Proof.
  apply (failed_write_ends_the_run (py := plain_json)
           (jinja := plain_engine sample_fs) (disk := full_disk) sample_fs
           sample_config sample_env [] "pages" "index.html" "index.html"
           "<h1>Home</h1>" "<h1>Home</h1>" "<h1>Home</h1>" (VDict [])
           (Merged [], []) [] [] "<h1>Home</h1>" OSError
           [("pages", "boom.html")]);
    reflexivity.
Defined.

Lemma page_output_mirrors_source_witness :
  exists rel,
    Path.join "pages" "index.html" = Path.join "pages" rel
    /\ (([{| PageInfo.source_path := "pages/index.html";
             PageInfo.output_path := "output/index.html";
             PageInfo.url := "/index.html";
             PageInfo.front_matter := VDict [];
             PageInfo.content := "<h1>Home</h1>" |}] = []
         /\ written (fst (render_page (py := plain_json)
                            (jinja := plain_engine sample_fs)
                            (disk := willing_disk) sample_fs
                            sample_config sample_env ("pages", "index.html")
                            [])) = [])
        \/ exists info,
             [{| PageInfo.source_path := "pages/index.html";
                 PageInfo.output_path := "output/index.html";
                 PageInfo.url := "/index.html";
                 PageInfo.front_matter := VDict [];
                 PageInfo.content := "<h1>Home</h1>" |}] = ([] ++ [info])%list
             /\ written (fst (render_page (py := plain_json)
                                (jinja := plain_engine sample_fs)
                                (disk := willing_disk) sample_fs
                                sample_config sample_env
                                ("pages", "index.html") []))
                = [Path.join "output" rel]
             /\ PageInfo.source_path info = Path.join "pages" rel
             /\ PageInfo.output_path info = Path.join "output" rel
             /\ PageInfo.url info = url rel sample_config).
Proof.
  apply (page_output_mirrors_source (py := plain_json)
           (jinja := plain_engine sample_fs)
           (disk := willing_disk) sample_fs sample_config
           sample_env
           (Dir [("index.html", File (Some "<h1>Home</h1>"));
                 ("broken.html", File (Some "{% if"));
                 ("boom.html", File (Some "{{ 1/0 }}"))])
           "pages" "index.html" []).
  - reflexivity.
  - reflexivity.
  - cbn. repeat split; (discriminate || reflexivity).
  - left. reflexivity.
  - vm_compute. reflexivity.
Defined.

(** ** build_core.py: the feed as a whole *)

Lemma rss_entry_stamped (p : Item.t) :
  unstamped p -> exists ev, rss_entry (stamped p) = (ev, Ok (entry_of p)).
Proof.
  intros (fm & Hfm & Hnone).
  assert (Hset : forall d,
             post_date p = d ->
             (exists s, dict_get "date" fm = Some (VStr s)
                        /\ String.eqb s "" = false) ->
             exists ev, rss_entry (set_date_obj p d) = (ev, Ok (entry_of p))).
  { intros d Hd (s & Hs & Hne). unfold set_date_obj. rewrite Hfm.
    unfold rss_entry, description_of, entry_of, expected_description.
    cbn [set_front_matter Item.front_matter Item.url Item.content py_get
         lift mbind bind].
    rewrite dict_get_set_same.
    rewrite !dict_get_set_other by discriminate.
    rewrite Hfm, Hs, Hne, Hd.
    destruct (dict_get "description" fm); eexists; reflexivity. }
  assert (Hkeep : match dict_get "date" fm with
                  | Some (VStr s) => String.eqb s "" = true
                  | _ => True
                  end ->
                  exists ev, rss_entry p = (ev, Ok (entry_of p))).
  { intros Hd.
    unfold rss_entry, description_of, entry_of, expected_description.
    rewrite Hfm. cbn [py_get lift mbind bind]. rewrite Hnone.
    destruct (dict_get "date" fm) as [[| | | |s| | |]|];
      try rewrite Hd;
      destruct (dict_get "description" fm); eexists; reflexivity. }
  unfold stamped. rewrite Hfm.
  destruct (dict_get "date" fm) as [[| | | |s| | |]|] eqn:Hdate;
    try (apply Hkeep; exact I).
  destruct (String.eqb s "") eqn:Hs; [apply Hkeep; reflexivity|].
  assert (Hpost : post_date p = match Datetime.strptime s with
                                | Ok d => d
                                | Raise _ => Datetime.min
                                end).
  { unfold post_date. rewrite Hfm, Hdate. reflexivity. }
  destruct (Datetime.strptime s); apply Hset; eauto.
Qed.

(** The run of [generate_rss_feed] on posts without a key [_date_obj]: the
    entries are made of the first ten posts, the newest first, and the feed
    is written when every title and description can be serialised and the
    document can be parsed back. *)
Lemma generate_rss_feed_run {xml : XmlDisk} (cfg : config)
  (collections_data : list (string * list Item.t)) (posts : list Item.t) :
  assoc_get "posts" collections_data = Some posts ->
  posts <> [] ->
  Forall unstamped posts ->
  let entries := map entry_of (firstn 10 (sort_newest_first post_date posts)) in
  exists events,
    generate_rss_feed cfg collections_data
    = (events,
       if forallb serialisable entries
       then if channel_well_formed (channel_of cfg entries)
               && forallb well_formed entries
            then match write_document
                         (Path.join (output_dir cfg) "feed.xml")
                         (Rss (channel_of cfg entries)) with
                 | Ok _ => Ok (Some (channel_of cfg entries))
                 | Raise e => Raise e
                 end
            else Raise ExpatError
       else Raise TypeError).
Proof.
  intros Hposts Hne Hready entries.
  assert (Hstamp : exists ev, map_m stamp_date posts = (ev, Ok (map stamped posts))).
  { destruct (map_m_returns stamp_date (fun p p' => p' = stamped p) posts)
      as (ev & r & Hm & HF).
    - eapply Forall_impl; [|exact Hready].
      intros p (fm & Hfm & _). destruct (stamp_date_returns p fm Hfm) as [ev H].
      eauto.
    - apply Forall2_eq_map in HF. subst r. eauto. }
  destruct Hstamp as [ev1 Hstamp].
  assert (Hkeys : Forall (fun p => sort_key p = VDate (key_date p))
                    (map stamped posts)).
  { apply Forall_map. eapply Forall_impl; [|exact Hready].
    intros p (fm & Hfm & Hnone). unfold key_date.
    rewrite (stamped_sort_key p fm Hfm Hnone). reflexivity. }
  pose proof (sorted_desc_on_dates key_date sort_key _ Hkeys) as Hsort.
  assert (Hrel : Forall2 (fun p p' => p' = stamped p /\ post_date p = key_date p')
                   posts (map stamped posts)).
  { clear -Hready. induction Hready as [|p l (fm & Hfm & Hnone) _ IH];
      simpl; constructor; [|exact IH].
    split; [reflexivity|]. unfold key_date.
    rewrite (stamped_sort_key p fm Hfm Hnone). reflexivity. }
  apply sort_newest_first_related in Hrel.
  assert (Hsorted : sort_newest_first key_date (map stamped posts)
                    = map stamped (sort_newest_first post_date posts)).
  { apply Forall2_eq_map. eapply Forall2_impl; [|exact Hrel].
    intros a b [H _]. exact H. }
  rewrite Hsorted in Hsort.
  set (sorted := sort_newest_first post_date posts) in *.
  assert (Hsready : Forall unstamped sorted).
  { apply Forall_forall. intros p Hp. rewrite Forall_forall in Hready.
    apply Hready.
    apply (Permutation_in _
             (Permutation_sym (sort_newest_first_perm post_date posts))).
    exact Hp. }
  assert (Hentries : exists ev,
             map_m rss_entry (firstn 10 (map stamped sorted))
             = (ev, Ok entries)).
  { unfold entries. rewrite firstn_map.
    assert (Hten : Forall unstamped (firstn 10 sorted)).
    { apply Forall_forall. intros p Hp. apply in_firstn in Hp.
      rewrite Forall_forall in Hsready. apply Hsready, Hp. }
    induction Hten as [|p l Hp _ (ev & IH)]; [exists []; reflexivity|].
    destruct (rss_entry_stamped p Hp) as [ev0 H0].
    eexists. cbn [map map_m]. eapply mbind_run; [exact H0|].
    eapply mbind_run; [exact IH|reflexivity]. }
  destruct Hentries as [ev2 Hentries].
  unfold generate_rss_feed. rewrite Hposts.
  destruct posts as [|p0 ps]; [contradiction|].
  cbn [run_hook log emit mbind app].
  rewrite Hstamp. cbn [mbind]. rewrite Hsort. cbn [lift mbind app].
  rewrite Hentries. cbn [mbind].
  destruct (forallb serialisable entries);
    [destruct (channel_well_formed _ && forallb well_formed entries);
     [destruct (write_document _ _) as [[]|]|]|];
    cbn [ret raise lift mbind app]; eexists; reflexivity.
Qed.

Lemma well_formed_serialisable (it : rss_item) :
  well_formed it = true -> serialisable it = true.
Proof.
  unfold well_formed, serialisable, xml_value. intros H.
  apply andb_true_iff in H as [H Hd]. apply andb_true_iff in H as [H _].
  apply andb_true_iff in H as [Ht _].
  destruct (written_text (rss_title it)); [|discriminate].
  destruct (written_text (rss_description it)); [reflexivity|discriminate].
Qed.

(** X13: on posts whose front matter does not use the key [_date_obj] and
    gives texts or falsy values for title and description, when no text of
    the channel or of the entries holds a control character and [feed.xml]
    can be written, the feed is written, and its entries are those of the
    first ten posts of a list that holds the posts of the collection, the
    newest first, the posts of one date in the order of the collection. *)
Theorem feed_of_ready_posts {xml : XmlDisk}
  (cfg : config)
  (collections_data : list (string * list Item.t)) (posts : list Item.t) :
  assoc_get "posts" collections_data = Some posts ->
  posts <> [] ->
  Forall feed_ready posts ->
  channel_well_formed (channel_of cfg []) = true ->
  (forall d,
      write_document (Path.join (output_dir cfg) "feed.xml") d = Ok tt) ->
  exists events sorted,
    generate_rss_feed cfg collections_data
    = (events, Ok (Some (channel_of cfg (map entry_of (firstn 10 sorted)))))
    /\ Permutation posts sorted
    /\ StronglySorted (not_older post_date) sorted
    /\ forall d,
         filter (fun p => date_eqb (post_date p) d) sorted
         = filter (fun p => date_eqb (post_date p) d) posts.
Proof.
  intros Hposts Hne Hready Hchannel Hwrite.
  assert (Hun : Forall unstamped posts).
  { eapply Forall_impl; [|exact Hready]. intros p Hp. apply Hp. }
  destruct (generate_rss_feed_run cfg _ _ Hposts Hne Hun) as [events Hrun].
  exists events, (sort_newest_first post_date posts).
  split; [|split; [apply sort_newest_first_perm|
                   split; [apply sort_newest_first_sorted|
                           intros d; apply sort_newest_first_stable]]].
  rewrite Hrun.
  assert (Hall : forallb well_formed
                   (map entry_of
                      (firstn 10 (sort_newest_first post_date posts))) = true).
  { apply forallb_forall. intros it Hit.
    apply in_map_iff in Hit as (p & <- & Hp). apply in_firstn in Hp.
    apply (Permutation_in _
             (Permutation_sym (sort_newest_first_perm post_date posts))) in Hp.
    rewrite Forall_forall in Hready. apply Hready, Hp. }
  replace (forallb serialisable _) with true.
  - rewrite Hall.
    change (channel_well_formed (channel_of cfg _))
      with (channel_well_formed (channel_of cfg [])).
    rewrite Hchannel, Hwrite. reflexivity.
  - symmetry. apply forallb_forall. intros it Hit.
    rewrite forallb_forall in Hall. apply well_formed_serialisable, Hall, Hit.
Qed.

Lemma feed_of_ready_posts_witness :
  exists events sorted,
    generate_rss_feed (xml := willing_xml) sample_config dated_posts
    = (events,
       Ok (Some (channel_of sample_config (map entry_of (firstn 10 sorted)))))
    /\ Permutation (posts_of dated_posts) sorted
    /\ StronglySorted (not_older post_date) sorted
    /\ forall d,
         filter (fun p => date_eqb (post_date p) d) sorted
         = filter (fun p => date_eqb (post_date p) d) (posts_of dated_posts).
Proof.
  apply (feed_of_ready_posts (xml := willing_xml) sample_config dated_posts
           (posts_of dated_posts)).
  - reflexivity.
  - discriminate.
  - repeat constructor;
      (eexists; split; reflexivity).
  - reflexivity.
  - reflexivity.
Defined.



(** X20: when the ten entries can be serialised and the title, the URL or
    the description of one of them holds a control character other than
    tab, line feed and carriage return, [generate_rss_feed] raises
    [ExpatError] when it parses its document back: no feed is written. *)
Theorem feed_raises_on_control_character {xml : XmlDisk}
  (cfg : config)
  (collections_data : list (string * list Item.t)) (posts : list Item.t)
  (p : Item.t) :
  assoc_get "posts" collections_data = Some posts ->
  Forall unstamped posts ->
  forallb serialisable
    (map entry_of (firstn 10 (sort_newest_first post_date posts))) = true ->
  In p (firstn 10 (sort_newest_first post_date posts)) ->
  well_formed (entry_of p) = false ->
  snd (generate_rss_feed cfg collections_data) = Raise ExpatError.
Proof.
  intros Hposts Hun Hser Hin Hbad.
  assert (Hne : posts <> []) by (intros ->; destruct Hin).
  destruct (generate_rss_feed_run cfg _ _ Hposts Hne Hun) as [events Hrun].
  rewrite Hrun, Hser. cbn [snd].
  replace (forallb well_formed _) with false;
    [rewrite andb_false_r; reflexivity|].
  symmetry. apply not_true_is_false. intros Hall.
  rewrite forallb_forall in Hall.
  rewrite (Hall (entry_of p)) in Hbad; [discriminate|].
  apply in_map, Hin.
Qed.

Lemma feed_raises_on_control_character_witness :
  snd (generate_rss_feed (xml := willing_xml) sample_config
         [("posts",
           [sample_post "c.html"
              [("title", VStr (String (ascii_of_nat 1) "x"))] "C"])])
  = Raise ExpatError.
Proof.
  apply (feed_raises_on_control_character (xml := willing_xml)
           sample_config _
           [sample_post "c.html"
              [("title", VStr (String (ascii_of_nat 1) "x"))] "C"]
           (sample_post "c.html"
              [("title", VStr (String (ascii_of_nat 1) "x"))] "C")).
  - reflexivity.
  - repeat constructor. eexists. split; reflexivity.
  - reflexivity.
  - left. reflexivity.
  - reflexivity.
Defined.



(** ** plugin_system.py *)

Lemma run_hook_step (hook_name : string) (kwargs : list (string * string))
  (p : Plugins.plugin) :
  match Plugins.plugin_hook p hook_name with
  | Some call =>
      Plugins.try_except (call kwargs)
        (fun _ =>
           log ERROR "Error running hook '%s' in plugin '%s': %s"
             [hook_name; Plugins.plugin_name p])
  | None => ret tt
  end
  = (Plugins.hook_trace hook_name kwargs p, Ok tt).
Proof.
  unfold Plugins.hook_trace.
  destruct (Plugins.plugin_hook p hook_name) as [call|]; [|reflexivity].
  destruct (call kwargs) as [events [[]|e]]; cbn [Plugins.try_except fst snd log emit].
  - rewrite app_nil_r. reflexivity.
  - reflexivity.
Qed.

(** X15: [run_hook] never raises, whatever the hooks do: every plugin that
    defines the hook is called, in the order of the registry, also after a
    hook of an earlier plugin has raised, and each failure is logged as one
    error. *)
Theorem run_hook_isolates_failures (PLUGINS : list Plugins.plugin)
  (hook_name : string) (kwargs : list (string * string)) :
  Plugins.run_hook PLUGINS hook_name kwargs
  = (flat_map (Plugins.hook_trace hook_name kwargs) PLUGINS, Ok tt).
Proof.
  unfold Plugins.run_hook.
  induction PLUGINS as [|p l IH]; [reflexivity|].
  cbn [for_each flat_map]. rewrite run_hook_step. cbn [mbind].
  rewrite IH. reflexivity.
Qed.

Section PluginLoading.
Variable import_module : string -> M Plugins.plugin.
Variable fs : filesystem.

Lemma load_plugin_result (file_name : string) (PLUGINS : list Plugins.plugin) :
  snd (Plugins.load_plugin import_module file_name PLUGINS)
  = Ok (PLUGINS ++ Plugins.importable import_module [file_name])%list.
Proof.
  unfold Plugins.load_plugin, Plugins.importable. cbn [flat_map].
  destruct (Str.endswith ".py" file_name && negb (Str.startswith "__" file_name));
    [|cbn; rewrite app_nil_r; reflexivity].
  destruct (import_module _) as [events [module|e]];
    cbn; rewrite ?app_nil_r; reflexivity.
Qed.

Lemma importable_app (l1 l2 : list string) :
  Plugins.importable import_module (l1 ++ l2)
  = (Plugins.importable import_module l1
     ++ Plugins.importable import_module l2)%list.
Proof. apply flat_map_app. Qed.

Lemma load_plugins_loop (file_names : list string)
  (PLUGINS : list Plugins.plugin) :
  snd (for_each file_names (Plugins.load_plugin import_module) PLUGINS)
  = Ok (PLUGINS ++ Plugins.importable import_module file_names)%list.
Proof.
  revert PLUGINS. induction file_names as [|f l IH]; intros PLUGINS.
  - cbn. rewrite app_nil_r. reflexivity.
  - cbn [for_each].
    pose proof (load_plugin_result f PLUGINS) as H.
    destruct (Plugins.load_plugin import_module f PLUGINS) as [ev r].
    cbn [snd] in H. subst r. cbn [mbind].
    specialize (IH (PLUGINS ++ Plugins.importable import_module [f])%list).
    destruct (for_each l _ _) as [ev' r']. cbn [snd] in *. rewrite IH.
    change (f :: l) with ([f] ++ l)%list.
    rewrite importable_app, app_assoc. reflexivity.
Qed.

(** X16: the registry [load_plugins] leaves does not depend on the one it
    finds.  On a plugins directory it holds one module for each listed name
    that ends in [.py], does not start with [__] and can be imported, in
    listing order: an import that raises is skipped and the loading goes
    on.  When [plugins_dir] names a regular file, the listing raises
    [OSError]. *)
Theorem load_plugins_registry (cfg : config) (PLUGINS : list Plugins.plugin)
  (dir : string) (n : node) :
  plugins_dir cfg = Some dir ->
  FS.lookup fs dir = Some n ->
  snd (Plugins.load_plugins import_module fs cfg PLUGINS)
  = match n with
    | Dir es => Ok (Plugins.importable import_module (map fst es))
    | File _ => Raise OSError
    end.
Proof.
  intros Hdir Hlookup.
  assert (Hexists : FS.exists_ fs dir = true)
    by (unfold FS.exists_; rewrite Hlookup; reflexivity).
  assert (Hne : String.eqb dir "" = false).
  { destruct (String.eqb_spec dir "") as [->|]; [discriminate|reflexivity]. }
  unfold Plugins.load_plugins, Plugins.listdir.
  rewrite Hdir, Hne, Hexists, Hlookup. cbn [orb negb log emit mbind lift].
  destruct n as [c|es]; [reflexivity|].
  pose proof (load_plugins_loop (map fst es) []) as H.
  destruct (for_each _ _ _) as [ev r]. cbn [snd] in *. exact H.
Qed.

End PluginLoading.

Lemma load_plugins_registry_witness :
  snd (Plugins.load_plugins sample_import plugin_fs plugin_config [])
  = Ok (Plugins.importable sample_import
          ["seo.py"; "__init__.py"; "broken.py"; "notes.txt"; "minify.py"]).
Proof.
  apply (load_plugins_registry sample_import plugin_fs plugin_config []
           "plugins"
           (Dir [("seo.py", File (Some "def before_build(config): pass"));
                 ("__init__.py", File (Some ""));
                 ("broken.py", File (Some "import nothing"));
                 ("notes.txt", File (Some "todo"));
                 ("minify.py", File (Some "def after_build(config): pass"))])).
  - reflexivity.
  - reflexivity.
Defined.

(** ** dev_server.py *)

(** X17: the content type of a path is the one registered for its
    extension in lower case, and [application/octet-stream] when there is
    none: the letter case of the extension does not matter. *)
Theorem guess_type_ignores_case (path : string) :
  DevServer.guess_type path
  = match assoc_get (Str.lower (snd (Path.splitext path)))
            DevServer.extensions_map with
    | Some t => t
    | None => "application/octet-stream"
    end.
Proof.
  unfold DevServer.guess_type.
  destruct (Path.splitext path) as [base ext]. cbn [snd].
  destruct (assoc_get ext DevServer.extensions_map) as [t|] eqn:E;
    [|reflexivity].
  revert E. unfold DevServer.extensions_map. cbn [assoc_get].
  repeat match goal with
         | |- context [String.eqb ext ?k] =>
             destruct (String.eqb_spec ext k) as [->|_];
             [intros E; injection E as <-; reflexivity|]
         end.
  discriminate.
Qed.

(** ** build_core.py: a missing output prefix, and the data URLs *)

Lemma for_each_raises {A S} (l : list A) (body : A -> S -> M S) (a : A) :
  In a l ->
  (forall s, exists e, snd (body a s) = Raise e) ->
  forall s, exists e, snd (for_each l body s) = Raise e.
Proof.
  intros Hin Hbody. induction l as [|a' l IH]; [destruct Hin|].
  intros s. cbn [for_each].
  destruct Hin as [->|Hin].
  - destruct (Hbody s) as [e He].
    destruct (body a s) as [ev r]. cbn [snd] in He. subst r.
    exists e. reflexivity.
  - destruct (body a' s) as [ev [s'|e]]; [|exists e; reflexivity].
    destruct (IH Hin s') as [e He]. exists e. cbn [mbind].
    destruct (for_each l body s') as [ev' r]. cbn [snd] in *. exact He.
Qed.

Lemma snd_mbind_ok {A B} (m : M A) (k : A -> M B) (events : list event) (a : A) :
  m = (events, Ok a) -> snd (mbind m k) = snd (k a).
Proof. intros ->. cbn [mbind]. destruct (k a). reflexivity. Qed.

Lemma snd_mbind_raise {A B} (m : M A) (k : A -> M B) (e : exn) :
  snd m = Raise e -> snd (mbind m k) = Raise e.
Proof. destruct m as [ev r]. cbn [snd]. intros ->. reflexivity. Qed.

Section RenderEdges.
Context {py : PyLib} {jinja : Jinja} {disk : Disk}.
Variable fs : filesystem.

(** X18: [load_collections] takes the name of a collection for its output
    prefix when the configuration gives none, but [render_all_content]
    reads the prefix from the configuration: with a collection that has an
    item and no output prefix, the rendering raises. *)
Theorem collection_without_output_aborts (cfg : config) (site_data : value)
  (collections_data : list (string * list Item.t))
  (name : string) (settings : collection_settings)
  (item : Item.t) (items : list Item.t) :
  assoc_get name (collections cfg) = Some settings ->
  cs_output settings = None ->
  In (name, item :: items) collections_data ->
  exists e,
    snd (render_all_content fs cfg site_data collections_data) = Raise e.
Proof.
  intros Hget Hnone Hin.
  assert (Hcoll : forall env rendered,
             snd (render_collection fs cfg env (name, item :: items) rendered)
             = Raise KeyError).
  { intros env rendered. unfold render_collection, render_collection_item.
    unfold collection_output. rewrite Hget, Hnone. reflexivity. }
  unfold render_all_content.
  erewrite snd_mbind_ok by reflexivity.
  erewrite snd_mbind_ok by reflexivity.
  destruct (for_each (walk_files fs (pages_dir cfg)) _ [])
    as [ev [pages|e]]; [|exists e; reflexivity].
  erewrite snd_mbind_ok by reflexivity.
  apply (for_each_raises _ _ _ Hin). intros s. exists KeyError. apply Hcoll.
Qed.

(** X19: the URLs given to a page for its [data_files] are the URLs of the
    paths listed, each once and in order, whether the files were found and
    decoded or not. *)
Theorem data_files_urls (cfg : config) (front_matter : dict)
  (paths : list string) (events : list event) (data : page_data)
  (data_json_urls : list string) :
  dict_has "data_file" front_matter = false ->
  dict_get "data_files" front_matter = Some (VList (map VStr paths)) ->
  load_page_data fs cfg (VDict front_matter)
  = (events, Ok (data, data_json_urls)) ->
  data_json_urls = map (fun p => url p cfg) paths.
Proof.
  intros Hsingle Hseveral. unfold load_page_data. intros H.
  apply mbind_ok in H as (l1 & single & l2 & Hin & H & _).
  apply lift_ok in Hin as [Hin _]. cbn [py_in] in Hin.
  rewrite Hsingle in Hin. injection Hin as <-.
  apply mbind_ok in H as (l3 & several & l4 & Hin & H & _).
  apply lift_ok in Hin as [Hin _]. cbn [py_in] in Hin. unfold dict_has in Hin.
  rewrite Hseveral in Hin. injection Hin as <-.
  apply mbind_ok in H as (l5 & data_files & l6 & Hget & H & _).
  apply lift_ok in Hget as [Hget _]. cbn [py_getitem] in Hget.
  rewrite Hseveral in Hget. injection Hget as <-.
  apply mbind_ok in H as (l7 & r & l8 & Hloop & H & _).
  injection H as _ _ <-.
  assert (Hgen : forall acc ev r',
             for_each (map VStr paths)
               (fun df_path (acc : pydict * list string) =>
                  loaded <-- _load_json_file_from_assets fs df_path cfg ;;
                  page_data <-- lift (py_update (fst acc) loaded) ;;
                  u <-- lift (py_url df_path cfg) ;;
                  ret (page_data, (snd acc ++ [u])%list)) acc
             = (ev, Ok r') ->
             snd r' = (snd acc ++ map (fun p => url p cfg) paths)%list).
  { clear. induction paths as [|p l IH]; intros acc ev r' H.
    - injection H as _ <-. cbn [map]. rewrite app_nil_r. reflexivity.
    - cbn [map for_each] in H.
      apply mbind_ok in H as (l1 & acc' & l2 & Hbody & H & _).
      apply IH in H. rewrite H.
      apply mbind_ok in Hbody as (l3 & loaded & l4 & _ & Hbody & _).
      apply mbind_ok in Hbody as (l5 & d & l6 & _ & Hbody & _).
      apply mbind_ok in Hbody as (l7 & u & l8 & Hu & Hbody & _).
      apply lift_ok in Hu as [Hu _]. injection Hu as <-.
      injection Hbody as _ <-.
      cbn [snd]. rewrite <- app_assoc. reflexivity. }
  apply Hgen in Hloop. exact Hloop.
Qed.

End RenderEdges.

Lemma collection_without_output_aborts_witness :
  exists e,
    snd (render_all_content (py := plain_json)
           (jinja := plain_engine sample_fs) (disk := willing_disk) sample_fs
           {| pages_dir := "pages";
              templates_dir := "templates";
              static_dir := "static";
              assets_dir := "assets";
              output_dir := "output";
              base_url := "http://e";
              data_dir := None;
              plugins_dir := None;
              collections := [("posts", {| cs_path := Some "posts";
                                           cs_output := None |})];
              use_absolute_urls := false;
              use_absolute_static := false;
              site_title := None;
              site_description := None |}
           (VDict [])
           [("posts", [sample_post "a.html" [("layout", VStr "post.html")] "A"])])
    = Raise e.
Proof.
  apply (collection_without_output_aborts (py := plain_json)
           (jinja := plain_engine sample_fs)
           (disk := willing_disk) sample_fs _ (VDict []) _ "posts"
           {| cs_path := Some "posts"; cs_output := None |}
           (sample_post "a.html" [("layout", VStr "post.html")] "A") []).
  - reflexivity.
  - reflexivity.
  - left. reflexivity.
Defined.

Lemma data_files_urls_witness :
  snd (load_page_data (py := plain_json) data_fs sample_config
         (VDict [("data_files", VList [VStr "pairs.json"; VStr "/missing.json"])]))
  = Ok (Merged [(VStr "a", VStr "b"); (VStr "c", VStr "d")],
        ["/pairs.json"; "/missing.json"])
  /\ ["/pairs.json"; "/missing.json"]
     = map (fun p => url p sample_config) ["pairs.json"; "/missing.json"].
Proof.
  split; [vm_compute; reflexivity|].
  apply (data_files_urls (py := plain_json) data_fs sample_config
           [("data_files", VList [VStr "pairs.json"; VStr "/missing.json"])]
           ["pairs.json"; "/missing.json"]
           (fst (load_page_data (py := plain_json) data_fs sample_config
                   (VDict [("data_files",
                            VList [VStr "pairs.json"; VStr "/missing.json"])])))
           (Merged [(VStr "a", VStr "b"); (VStr "c", VStr "d")])).
  - reflexivity.
  - reflexivity.
  - vm_compute. reflexivity.
Defined.
